(** * LinkedIn connection checker: classifier, URL normaliser, sheet retrier

    A shallow embedding of the testable core of the connection checker:

    - [determineConnectionStatus] (index.ts): the decision logic that maps
      the signals scraped from a profile page to a status and a confidence;
    - [GoogleSheetsClient] (google-sheets.ts): [normalizeLinkedInUrl],
      [getProfiles], [init] and [updateProfileStatus] with its retry loop;
    - the per-profile loop of [main] and [processProfile] (index.ts), and
      [exportResultsToCSV].

    Conventions of the embedding.  A JavaScript string is a [string]: a
    sequence of code units, compared unit by unit, which is all the string
    operations used here do.  A row number is a [Z]; a confidence is a [Q]
    written with its decimal literal.  The browser, the spreadsheet service
    and the file system are an environment [env] of oracles, indexed by the
    number of calls made so far, together with a [world] that records every
    call the program makes.  Of the console output, the lines printed by
    the loop of [main] are recorded; the progress messages of the client
    and of [processProfile] are not.  Code that can throw lives in a state
    and error monad [M]: an exception keeps the effects performed before
    it. *)

From Stdlib Require Import ZArith QArith String Ascii List Bool Lia.
From Stdlib Require Import Sorting.Sorted.
From Stdlib Require Import Numbers.DecimalString.
Import ListNotations.

Open Scope string_scope.
Open Scope Z_scope.

(** ** JavaScript string operations *)

Module JsString.

(** [s.startsWith(p)] *)
Fixpoint startsWith (p s : string) : bool :=
  match p, s with
  | EmptyString, _ => true
  | String _ _, EmptyString => false
  | String a p', String b s' => Ascii.eqb a b && startsWith p' s'
  end.

(** [s.includes(p)]: [p] occurs at some position of [s]. *)
Fixpoint includes (p s : string) : bool :=
  startsWith p s ||
  match s with
  | EmptyString => false
  | String _ s' => includes p s'
  end.

(** [s.endsWith(p)]: [p] is [s] or a suffix of the tail of [s]. *)
Fixpoint endsWith (p s : string) : bool :=
  String.eqb s p ||
  match s with
  | EmptyString => false
  | String _ s' => endsWith p s'
  end.

(** [s.slice(n)] *)
Fixpoint drop (n : nat) (s : string) : string :=
  match n, s with
  | O, _ => s
  | S _, EmptyString => EmptyString
  | S n', String _ s' => drop n' s'
  end.

(** [s.split(c)[0]]: the part of [s] before the first [c]; all of [s]
    when [c] does not occur. *)
Fixpoint split_head (c : ascii) (s : string) : string :=
  match s with
  | EmptyString => EmptyString
  | String a s' => if Ascii.eqb a c then EmptyString
                   else String a (split_head c s')
  end.

(** [s.replace(/\/$/, '')]: the pattern matches one slash at the very end
    of the input, so at most one slash is removed. *)
Fixpoint strip_trailing_slash (s : string) : string :=
  match s with
  | EmptyString => EmptyString
  | String a EmptyString => if Ascii.eqb a "/" then EmptyString else s
  | String a s' => String a (strip_trailing_slash s')
  end.

(** [s.replace(p, r)] with a string pattern: only the first occurrence is
    replaced.  The replacement strings used here hold no [$], so they
    are inserted literally. *)
Fixpoint replace_first (p r s : string) : string :=
  if startsWith p s then r ++ drop (String.length p) s
  else match s with
       | EmptyString => EmptyString
       | String a s' => String a (replace_first p r s')
       end.

(** [s.replace(/[cs]/g, r)]: every code unit satisfying [f] is replaced. *)
Fixpoint replace_all_chars (f : ascii -> bool) (r : string) (s : string)
  : string :=
  match s with
  | EmptyString => EmptyString
  | String a s' =>
      (if f a then r else String a EmptyString) ++ replace_all_chars f r s'
  end.

(** White space as [trim] sees it, among the code units below 256:
    TAB, LF, VT, FF, CR, SPACE and NBSP. *)
Definition is_white_space (a : ascii) : bool :=
  let n := nat_of_ascii a in
  existsb (Nat.eqb n) [9; 10; 11; 12; 13; 32; 160]%nat.

(** [s.trim() === '']: [s] is made of white space only. *)
Fixpoint trim_is_empty (s : string) : bool :=
  match s with
  | EmptyString => true
  | String a s' => is_white_space a && trim_is_empty s'
  end.

(** Truthiness of a string: every string but the empty one. *)
Definition truthy (s : string) : bool :=
  match s with EmptyString => false | _ => true end.

(** [arr.join(sep)] *)
Fixpoint join (sep : string) (l : list string) : string :=
  match l with
  | [] => EmptyString
  | [x] => x
  | x :: rest => x ++ sep ++ join sep rest
  end.

(** No code unit of [s] is [c]. *)
Fixpoint lacks (c : ascii) (s : string) : bool :=
  match s with
  | EmptyString => true
  | String a s' => negb (Ascii.eqb a c) && lacks c s'
  end.

End JsString.

(** ** JavaScript numbers, as far as the program uses them *)

Module JsNumber.

(** [n.toString()] for an integer. *)
Definition int_toString (n : Z) : string :=
  NilZero.string_of_int (Z.to_int n).

(** A number is a double: [m * 2 ^ e] with [m] below [2 ^ 53], and at
    least [2 ^ 52] unless [e] is the least exponent, -1074.  [to_double]
    gives the double nearest to the positive rational [a / b], ties to
    the even [m], and nothing when that is past the largest double. *)
Definition to_double (a b : Z) : option (Z * Z) :=
  let t := Z.log2 a - Z.log2 b in
  let l := if (if 0 <=? t then b * 2 ^ t <=? a else b <=? a * 2 ^ (- t))
           then t else t - 1 in
  let e := Z.max (l - 52) (-1074) in
  let num := if 0 <=? e then a else a * 2 ^ (- e) in
  let den := if 0 <=? e then b * 2 ^ e else b in
  let q := num / den in
  let r := num mod den in
  let m := if (den <? 2 * r) || ((den =? 2 * r) && Z.odd q)
           then q + 1 else q in
  let m' := if m =? 2 ^ 53 then 2 ^ 52 else m in
  let e' := if m =? 2 ^ 53 then e + 1 else e in
  if 971 <? e' then None else Some (m', e').

(** The number of zeros between the decimal point and the first digit
    that counts, for [0 < a < b]. *)
Fixpoint leading_zeros (fuel : nat) (a b : Z) : nat :=
  match fuel with
  | O => O
  | S fuel' =>
      if (0 <? a) && (a * 10 <? b) then S (leading_zeros fuel' (a * 10) b)
      else O
  end.

(** The [n] with [10 ^ (n - 1) <= a / b < 10 ^ n], for [0 < a / b]. *)
Definition decimal_exponent (a b : Z) : Z :=
  if b <=? a then Z.of_nat (String.length (int_toString (a / b)))
  else - Z.of_nat (leading_zeros 400 a b).

Fixpoint zeros (n : nat) : string :=
  match n with
  | O => EmptyString
  | S n' => String "0" (zeros n')
  end.

Fixpoint strip_trailing_zeros (s : string) : string :=
  match s with
  | EmptyString => EmptyString
  | String c rest =>
      match strip_trailing_zeros rest with
      | EmptyString =>
          if Ascii.eqb c "0" then EmptyString else String c EmptyString
      | kept => String c kept
      end
  end.

(** The integers [s] of [k] digits next to [(a / b) / 10 ^ (n - k)] whose
    [s * 10 ^ (n - k)] is read as the double [d]: the one below when it
    is the nearer or the only one, the one above otherwise; of two that
    are as near, the even one. *)
Definition digits_at (d : Z * Z) (a b n k : Z) : option Z :=
  let p := if n <=? k then a * 10 ^ (k - n) else a in
  let q := if n <=? k then b else b * 10 ^ (n - k) in
  let lo := p / q in
  let hi := lo + 1 in
  let reads s :=
    match (if n <=? k then to_double s (10 ^ (k - n))
           else to_double (s * 10 ^ (n - k)) 1) with
    | Some d' => (fst d' =? fst d) && (snd d' =? snd d)
    | None => false
    end in
  match reads lo, reads hi with
  | true, true =>
      if 2 * p <? (2 * lo + 1) * q then Some lo
      else if (2 * lo + 1) * q <? 2 * p then Some hi
      else if Z.even lo then Some lo else Some hi
  | true, false => Some lo
  | false, true => Some hi
  | false, false => None
  end.

(** The least number of digits that read back as the double. *)
Fixpoint shortest (fuel : nat) (d : Z * Z) (a b n k : Z) : Z * Z :=
  match fuel with
  | O => (a * 10 ^ (17 - n) / b, 17)
  | S fuel' =>
      match digits_at d a b n k with
      | Some s => (s, k)
      | None => shortest fuel' d a b n (k + 1)
      end
  end.

(** The notation of Number::toString for the digits [digits] and the
    exponent [n], the value being [0.digits * 10 ^ n]. *)
Definition notation (digits : string) (n : Z) : string :=
  let k := Z.of_nat (String.length digits) in
  if (k <=? n) && (n <=? 21) then digits ++ zeros (Z.to_nat (n - k))
  else if (0 <? n) && (n <=? 21) then
    substring 0 (Z.to_nat n) digits ++ "."
    ++ substring (Z.to_nat n) (Z.to_nat (k - n)) digits
  else if (-6 <? n) && (n <=? 0) then "0." ++ zeros (Z.to_nat (- n)) ++ digits
  else
    let e := n - 1 in
    substring 0 1 digits
    ++ (if k =? 1 then "" else "." ++ substring 1 (Z.to_nat (k - 1)) digits)
    ++ "e" ++ (if e <? 0 then "-" else "+") ++ int_toString (Z.abs e).

(** [x.toString()] of the number that the rational [x] denotes, that is
    of the double nearest to [x]: the shortest digits that read back as
    that double, in the notation that Number::toString chooses: plain
    digits from 1e-6 up to, and without, 1e21, the exponent notation
    below and above.  So 0.9, 0.95 and 0.5 print as written, 1e-7 as
    "1e-7" and 1/3 as "0.3333333333333333". *)
Definition toString (x : Q) : string :=
  let a := Z.abs (Qnum x) in
  let b := Zpos (Qden x) in
  if a =? 0 then "0"
  else
    match to_double a b with
    | None => (if Qnum x <? 0 then "-" else "") ++ "Infinity"
    | Some (m, e) =>
        if m =? 0 then "0"
        else
          let va := if 0 <=? e then m * 2 ^ e else m in
          let vb := if 0 <=? e then 1 else 2 ^ (- e) in
          let n := decimal_exponent va vb in
          let (s, k) := shortest 17 (m, e) va vb n 1 in
          let n' := if s =? 10 ^ k then n + 1 else n in
          (if Qnum x <? 0 then "-" else "")
          ++ notation (strip_trailing_zeros (int_toString s)) n'
    end.

End JsNumber.

(** ** types.ts *)

Inductive ProfileStatus : Type :=
| PENDING
| ACCEPTED
| NOT_CONNECTED
| UNKNOWN.

(** The string value of each member of the enum. *)
Definition status_value (s : ProfileStatus) : string :=
  match s with
  | PENDING => "pending"
  | ACCEPTED => "accepted"
  | NOT_CONNECTED => "not_connected"
  | UNKNOWN => "unknown"
  end.

Record Profile : Type := mkProfile {
  url : string;
  status : option ProfileStatus;
  row : Z
}.

(** ** index.ts: the classifier *)

(** The object returned by the page evaluation in
    [determineConnectionStatus]. *)
Record PageSignals : Type := mkSignals {
  hasConnectButton : bool;
  hasPendingButton : bool;
  hasMessageButton : bool;
  connectionDegree : string;
  isPendingInHtml : bool;
  isConnectedInHtml : bool
}.

Record ClassificationResult : Type := mkResult {
  cr_status : ProfileStatus;
  cr_confidence : Q;
  cr_reasoning : string
}.

(** The decision logic of [determineConnectionStatus], as a function of
    the object [evaluation] that the page evaluation returned: the three
    variables start at the UNKNOWN defaults and one branch of the chain
    overwrites them. *)
Definition determineConnectionStatus (evaluation : PageSignals)
  : ClassificationResult :=
  let initial :=
    mkResult UNKNOWN 0.5
      "Could not determine connection status with confidence" in
  if isPendingInHtml evaluation || hasPendingButton evaluation then
    mkResult PENDING 0.95
      "Found 'Pending' button or pending status in profile data"
  else if isConnectedInHtml evaluation
          || (hasMessageButton evaluation
              && negb (hasConnectButton evaluation))
          || JsString.includes "1st" (connectionDegree evaluation) then
    mkResult ACCEPTED 0.95
      "Profile is a 1st degree connection with message button"
  else if hasConnectButton evaluation
          || JsString.includes "2nd" (connectionDegree evaluation)
          || JsString.includes "3rd" (connectionDegree evaluation) then
    mkResult NOT_CONNECTED 0.9
      "Found 'Connect' button or 2nd/3rd degree connection"
  else initial.

(** The precedence table of the specification, as data: a list of rules,
    each a condition with the status and confidence it yields; the first
    rule whose condition holds wins, and UNKNOWN with 0.5 is the default. *)
Module DecisionTable.

Definition rule : Type := (PageSignals -> bool) * (ProfileStatus * Q).

Definition rules : list rule :=
  [ (fun s => isPendingInHtml s || hasPendingButton s,
     (PENDING, 0.95%Q));
    (fun s => isConnectedInHtml s
              || (hasMessageButton s && negb (hasConnectButton s))
              || JsString.includes "1st" (connectionDegree s),
     (ACCEPTED, 0.95%Q));
    (fun s => hasConnectButton s
              || JsString.includes "2nd" (connectionDegree s)
              || JsString.includes "3rd" (connectionDegree s),
     (NOT_CONNECTED, 0.9%Q)) ].

Fixpoint first_match (rs : list rule) (s : PageSignals)
  : ProfileStatus * Q :=
  match rs with
  | [] => (UNKNOWN, 0.5%Q)
  | (cond, outcome) :: rest =>
      if cond s then outcome else first_match rest s
  end.

Definition lookup (s : PageSignals) : ProfileStatus * Q :=
  first_match rules s.

End DecisionTable.

(** The signals of a page on which nothing was found. *)
Definition no_signals : PageSignals :=
  mkSignals false false false "" false false.

(** ** The outside world *)

(** A thrown error: its [message] and, for the errors of the spreadsheet
    service, its [code]. *)
Record ApiError : Type := mkError {
  message : string;
  code : option Z
}.

(** The argument of [sheets.spreadsheets.values.update]. *)
Record UpdateRequest : Type := mkUpdate {
  req_spreadsheetId : string;
  req_range : string;
  req_valueInputOption : string;
  req_values : list (list string)
}.

(** What the browser does for one profile: [page.goto] (or an evaluation
    on the page) throws, or the page loads; then the first evaluation
    tells whether the page is the rate-limit notice and the second one
    yields the signals. *)
Inductive PageOutcome : Type :=
| GotoFails (error : ApiError)
| PageLoaded (isRateLimited : bool) (evaluation : PageSignals).

(** The lines that the loop of [main] prints. *)
Inductive ConsoleLine : Type :=
| LogUpdatedRow (row : Z) (status : string)
| LogSheetNotEditable
| LogWouldUpdate (row : Z) (status : string)
| LogErrorUpdating (errorMessage : string)
| LogErrorProcessing (url : string)
| LogWaiting.

(** The behaviour of the external services.  Every oracle takes the number
    of calls of its kind made before, so a service may answer the same
    request differently each time. *)
Record env : Type := mkEnv {
  page_goto : nat -> string -> PageOutcome;
  initializeClient_error : nat -> option ApiError;
  spreadsheets_get : nat -> string -> option ApiError;
  values_get : nat -> string -> ApiError + option (list (list string));
  values_update : nat -> UpdateRequest -> option ApiError;
  now_iso : nat -> string
}.

(** Everything the program did to the outside, oldest call first. *)
Record world : Type := mkWorld {
  navigations : list string;
  clients_created : nat;
  sheet_gets : list string;
  sheet_reads : list string;
  sheet_writes : list UpdateRequest;
  timeouts : list Z;
  files : list (string * string);
  console : list ConsoleLine
}.

Definition empty_world : world :=
  mkWorld [] 0 [] [] [] [] [] [].

(** ** Computations that may throw *)

Definition M (S A : Type) : Type := S -> (ApiError + A) * S.

Definition ret {S A} (a : A) : M S A := fun s => (inr a, s).

Definition throw {S A} (e : ApiError) : M S A := fun s => (inl e, s).

Definition bind {S A B} (m : M S A) (k : A -> M S B) : M S B :=
  fun s =>
    match m s with
    | (inl e, s') => (inl e, s')
    | (inr a, s') => k a s'
    end.

(** [try { m } catch (error) { handler error }] *)
Definition try_catch {S A} (m : M S A) (handler : ApiError -> M S A)
  : M S A :=
  fun s =>
    match m s with
    | (inl e, s') => handler e s'
    | (inr a, s') => (inr a, s')
    end.

Definition gets {S A} (f : S -> A) : M S A := fun s => (inr (f s), s).

Definition modify {S} (f : S -> S) : M S unit := fun s => (inr tt, f s).

Declare Scope monad_scope.
Delimit Scope monad_scope with monad.
Notation "x <- c1 ;; c2" := (bind c1 (fun x => c2))
  (at level 61, c1 at next level, right associativity) : monad_scope.
Notation "c1 ;; c2" := (bind c1 (fun _ => c2))
  (at level 61, right associativity) : monad_scope.
Open Scope monad_scope.

(** One more entry in a log of the world. *)
Definition record_navigation (u : string) (w : world) : world :=
  mkWorld (navigations w ++ [u]) (clients_created w) (sheet_gets w)
    (sheet_reads w) (sheet_writes w) (timeouts w) (files w) (console w).

Definition record_client (w : world) : world :=
  mkWorld (navigations w) (S (clients_created w)) (sheet_gets w)
    (sheet_reads w) (sheet_writes w) (timeouts w) (files w) (console w).

Definition record_get (id : string) (w : world) : world :=
  mkWorld (navigations w) (clients_created w) (sheet_gets w ++ [id])
    (sheet_reads w) (sheet_writes w) (timeouts w) (files w) (console w).

Definition record_read (range : string) (w : world) : world :=
  mkWorld (navigations w) (clients_created w) (sheet_gets w)
    (sheet_reads w ++ [range]) (sheet_writes w) (timeouts w) (files w)
    (console w).

Definition record_write (request : UpdateRequest) (w : world) : world :=
  mkWorld (navigations w) (clients_created w) (sheet_gets w)
    (sheet_reads w) (sheet_writes w ++ [request]) (timeouts w) (files w)
    (console w).

Definition record_timeout (delay : Z) (w : world) : world :=
  mkWorld (navigations w) (clients_created w) (sheet_gets w)
    (sheet_reads w) (sheet_writes w) (timeouts w ++ [delay]) (files w)
    (console w).

Definition record_file (filename content : string) (w : world) : world :=
  mkWorld (navigations w) (clients_created w) (sheet_gets w)
    (sheet_reads w) (sheet_writes w) (timeouts w)
    (files w ++ [(filename, content)]) (console w).

Definition record_console (l : ConsoleLine) (w : world) : world :=
  mkWorld (navigations w) (clients_created w) (sheet_gets w)
    (sheet_reads w) (sheet_writes w) (timeouts w) (files w)
    (console w ++ [l]).

(** The effects on the world. *)
Section Effects.

Variable E : env.

(** [await page.goto(url)] and the two evaluations that follow. *)
Definition goto (u : string) : M world (bool * PageSignals) :=
  fun w =>
    match page_goto E (List.length (navigations w)) u with
    | GotoFails e => (inl e, record_navigation u w)
    | PageLoaded limited evaluation =>
        (inr (limited, evaluation), record_navigation u w)
    end.

(** [await new Promise(resolve => setTimeout(resolve, delay))] *)
Definition sleep (delay : Z) : M world unit :=
  modify (record_timeout delay).

Definition console_log (l : ConsoleLine) : M world unit :=
  modify (record_console l).

(** [fs.writeFileSync(filename, content)] *)
Definition writeFileSync (filename content : string) : M world unit :=
  modify (record_file filename content).

(** [await sheets.spreadsheets.get({spreadsheetId})] *)
Definition sheets_get (id : string) : M world unit :=
  fun w =>
    match spreadsheets_get E (List.length (sheet_gets w)) id with
    | Some e => (inl e, record_get id w)
    | None => (inr tt, record_get id w)
    end.

(** [await sheets.spreadsheets.values.get({spreadsheetId, range})],
    returning [response.data.values]. *)
Definition sheets_values_get (range : string)
  : M world (option (list (list string))) :=
  fun w =>
    match values_get E (List.length (sheet_reads w)) range with
    | inl e => (inl e, record_read range w)
    | inr values => (inr values, record_read range w)
    end.

(** [await sheets.spreadsheets.values.update(request)] *)
Definition sheets_values_update (request : UpdateRequest)
  : M world unit :=
  fun w =>
    match values_update E (List.length (sheet_writes w)) request with
    | Some e => (inl e, record_write request w)
    | None => (inr tt, record_write request w)
    end.

(** The clock read by [new Date().toISOString()]; the reads are counted
    by the files written, the only place that reads it. *)
Definition date_toISOString : M world string :=
  gets (fun w => now_iso E (List.length (files w))).

End Effects.

(** ** google-sheets.ts: [GoogleSheetsClient] *)

Record GoogleSheetsClient : Type := mkClient {
  spreadsheetId : string;
  sheetName : string;
  initialized : bool;
  maxRetries : nat
}.

(** [url.split('?')[0].replace(/\/$/, '')]: the input without its query
    string and without one trailing slash. *)
Definition stripped (u : string) : string :=
  JsString.strip_trailing_slash (JsString.split_head "?" u).

(** Normalize a LinkedIn profile URL to a consistent format.  The
    warnings it prints are not part of the result. *)
Definition normalizeLinkedInUrl (u : string) : string :=
  if negb (JsString.truthy u) then ""
  else if negb (JsString.includes "linkedin.com" u) then u
  else
    let normalizedUrl := stripped u in
    if negb (JsString.includes "/in/" normalizedUrl) then
      if JsString.endsWith "linkedin.com" normalizedUrl then u
      else JsString.replace_first "linkedin.com/" "linkedin.com/in/"
             normalizedUrl
    else normalizedUrl.

(** The callback of [rows.map] in [getProfiles]: [None] stands for the
    [null] of a row without a URL. *)
Definition row_to_profile (r : list string) (index : Z) : option Profile :=
  match r with
  | [] => None
  | cell :: _ =>
      if negb (JsString.truthy cell) || JsString.trim_is_empty cell
      then None
      else Some (mkProfile (normalizeLinkedInUrl cell) None (index + 2))
  end.

(** [rows.map((row, index) => ...)], from position [index] on. *)
Fixpoint map_with_index {A B} (f : A -> Z -> B) (l : list A) (index : Z)
  : list B :=
  match l with
  | [] => []
  | x :: rest => f x index :: map_with_index f rest (index + 1)
  end.

(** [.filter(profile => profile !== null)] *)
Fixpoint filter_not_null {A} (l : list (option A)) : list A :=
  match l with
  | [] => []
  | None :: rest => filter_not_null rest
  | Some x :: rest => x :: filter_not_null rest
  end.

(** The profiles built from rows whose first one has index [k]. *)
Definition profiles_from (k : Z) (rows : list (list string))
  : list Profile :=
  filter_not_null (map_with_index row_to_profile rows k).

(** The profiles built from [response.data.values]. *)
Definition profiles_of_rows (rows : list (list string)) : list Profile :=
  profiles_from 0 rows.

(** The cell holds a URL: it is neither empty nor blank. *)
Definition holds_url (cell : string) : Prop :=
  JsString.truthy cell = true /\ JsString.trim_is_empty cell = false.

(** The range of columns B and C at a row of the sheet:
    [`${sheetName}!B${rowNumber}:C${rowNumber}`]. *)
Definition status_range (name : string) (rowNumber : Z) : string :=
  name ++ "!B" ++ JsNumber.int_toString rowNumber
  ++ ":C" ++ JsNumber.int_toString rowNumber.

(** The request that one attempt of [updateProfileStatus] sends. *)
Definition update_request (c : GoogleSheetsClient) (rowNumber : Z)
    (st : string) (confidence : Q) : UpdateRequest :=
  mkUpdate (spreadsheetId c)
    (status_range (sheetName c) rowNumber)
    "RAW"
    [[st; JsNumber.toString confidence]].

(** The client once [init] has marked it as initialized. *)
Definition verified (c : GoogleSheetsClient) : GoogleSheetsClient :=
  mkClient (spreadsheetId c) (sheetName c) true (maxRetries c).

(** A parameter with a default value: the default stands in for an
    omitted argument. *)
Definition or_default {A} (default : A) (arg : option A) : A :=
  match arg with
  | Some x => x
  | None => default
  end.

Section Client.

Variable E : env.

(** A method of the client runs on the client's fields and the world. *)
Definition Method (A : Type) : Type := M (GoogleSheetsClient * world) A.

Definition this : Method GoogleSheetsClient := gets fst.

(** An effect on the world, performed from inside a method. *)
Definition perform {A} (m : M world A) : Method A :=
  fun s => let (r, w') := m (snd s) in (r, (fst s, w')).

(** [this.initialized = true] *)
Definition set_initialized : Method unit :=
  modify (fun s => (verified (fst s), snd s)).

(** [new GoogleSheetsClient(spreadsheetId, sheetName)]: the fields are
    set and [initializeClient] builds the service handle, throwing when
    no credentials are found. *)
Definition new_GoogleSheetsClient (id name : string)
  : M world GoogleSheetsClient :=
  fun w =>
    match initializeClient_error E (clients_created w) with
    | Some e => (inl e, record_client w)
    | None => (inr (mkClient id name false 3), record_client w)
    end.

(** [init]: one read of the spreadsheet to verify the credentials. *)
Definition init : Method unit :=
  try_catch
    (c <- this ;;
     perform (sheets_get E (spreadsheetId c)) ;;
     set_initialized)
    (fun error => throw error).

(** [getProfiles] *)
Definition getProfiles : Method (list Profile) :=
  c <- this ;;
  (if negb (initialized c) then init else ret tt) ;;
  try_catch
    (rows <- perform (sheets_values_get E (sheetName c ++ "!A2:A")) ;;
     match rows with
     | None => ret []
     | Some [] => ret []
     | Some rows => ret (profiles_of_rows rows)
     end)
    (fun error => throw error).

(** The [for] loop of [updateProfileStatus], entered with [attempt] and
    [remaining] iterations before [attempt <= maxRetries] turns false.
    A successful write returns from the method; a failed one waits and
    goes on, or rethrows on the last attempt. *)
Fixpoint attempt_loop (request : UpdateRequest) (limit : nat)
    (remaining : nat) (attempt : nat) : Method unit :=
  match remaining with
  | O => ret tt
  | S remaining' =>
      try_catch
        (perform (sheets_values_update E request))
        (fun error =>
           if (attempt <? limit)%nat then
             let delay := Z.of_nat attempt * 1000 in
             perform (sleep delay) ;;
             attempt_loop request limit remaining' (S attempt)
           else throw error)
  end.

(** [updateProfileStatus(rowNumber, status, confidence = 0.9)]; an
    omitted third argument is [None]. *)
Definition updateProfileStatus (rowNumber : Z) (st : string)
    (confidence_arg : option Q) : Method unit :=
  let confidence := or_default 0.9%Q confidence_arg in
  c <- this ;;
  (if negb (initialized c) then init else ret tt) ;;
  try_catch
    (c <- this ;;
     attempt_loop (update_request c rowNumber st confidence)
       (maxRetries c) (maxRetries c) 1)
    (fun error => throw error).

(** A method called on [c] from code that drops the client afterwards. *)
Definition call {A} (c : GoogleSheetsClient) (m : Method A) : M world A :=
  fun w => let (r, s') := m (c, w) in (r, snd s').

End Client.

(** ** index.ts: processing the profiles *)

(** The items that [exportResultsToCSV] takes. *)
Record ResultItem : Type := mkItem {
  item_url : string;
  item_status : string
}.

(** The line feed of the source's string literals. *)
Definition LF : string := String (ascii_of_nat 10) EmptyString.

Section Main.

Variable E : env.

(** [processProfile]: the profile is returned with its [status] set; a
    throw happens before the assignment and leaves the profile as it
    was. *)
Definition processProfile (profile : Profile) : M world Profile :=
  page <- goto E (url profile) ;;
  let (isRateLimited, evaluation) := (page : bool * PageSignals) in
  if isRateLimited then
    throw (mkError
             "LinkedIn is rate limiting the requests. Try again later."
             None)
  else
    let connectionStatus := determineConnectionStatus evaluation in
    ret (mkProfile (url profile)
           (Some (cr_status connectionStatus))
           (row profile)).

(** The [catch] of the sheet update: it only prints, with a hint when
    the message tells that the sheet is not editable. *)
Definition report_update_failure (profile : Profile) (st : ProfileStatus)
    (error : ApiError) : M world unit :=
  let errorMessage := message error in
  if JsString.includes "Login Required" errorMessage
     || JsString.includes "insufficient permission" errorMessage
  then
    console_log LogSheetNotEditable ;;
    console_log (LogWouldUpdate (row profile) (status_value st))
  else console_log (LogErrorUpdating errorMessage).

(** The inner [try] of the loop: a fresh client, one call of
    [updateProfileStatus] without a confidence, and the [catch]. *)
Definition try_update_sheet (id name : string) (profile : Profile)
    (st : ProfileStatus) : M world unit :=
  try_catch
    (sheetsClient <- new_GoogleSheetsClient E id name ;;
     call sheetsClient
       (updateProfileStatus E (row profile) (status_value st) None) ;;
     console_log (LogUpdatedRow (row profile) (status_value st)))
    (report_update_failure profile st).

(** [if (profile.status)]: a status that is set and whose string is not
    empty. *)
Definition status_is_truthy (profile : Profile) : option ProfileStatus :=
  match status profile with
  | Some st => if JsString.truthy (status_value st) then Some st else None
  | None => None
  end.

(** One iteration of the loop of [main], returning [results] as the
    iteration leaves it: the processed profile is pushed before the
    sheet update is tried, and nothing can throw after the push. *)
Definition main_iteration (id name : string) (results : list Profile)
    (profile : Profile) : M world (list Profile) :=
  results' <-
    try_catch
      (processed <- processProfile profile ;;
       match status_is_truthy processed with
       | Some st => try_update_sheet id name processed st
       | None => ret tt
       end ;;
       ret (results ++ [processed])%list)
      (fun _ =>
         console_log (LogErrorProcessing (url profile)) ;;
         ret results) ;;
  console_log LogWaiting ;;
  sleep 3000 ;;
  ret results'.

(** [for (const profile of profiles) { ... }] *)
Fixpoint main_loop (id name : string) (results : list Profile)
    (profiles : list Profile) : M world (list Profile) :=
  match profiles with
  | [] => ret results
  | profile :: rest =>
      results' <- main_iteration id name results profile ;;
      main_loop id name results' rest
  end.

Definition csvContent (results : list ResultItem) : string :=
  "LinkedIn URL,Connection Status" ++ LF
  ++ JsString.join LF
       (map (fun item => item_url item ++ "," ++ item_status item)
          results).

(** The name of the export file, from the time of the export. *)
Definition csvFilename (now : string) : string :=
  "linkedin_results_"
  ++ JsString.replace_all_chars
       (fun a => Ascii.eqb a ":" || Ascii.eqb a ".") "-" now
  ++ ".csv".

(** [exportResultsToCSV] *)
Definition exportResultsToCSV (results : list ResultItem) : M world unit :=
  now <- date_toISOString E ;;
  let filename := csvFilename now in
  writeFileSync filename (csvContent results).

End Main.

(** ** The store-or-export alternative of the specification *)

(** The store accepted a write to [range]: some request of the log targets
    it and the service did not reject that call. *)
Definition write_accepted (E : env) (w : world) (range : string) : Prop :=
  exists i request,
    nth_error (sheet_writes w) i = Some request
    /\ req_range request = range
    /\ values_update E i request = None.

(** An export file with the lines of [items] was produced. *)
Definition export_produced (w : world) (items : list ResultItem) : Prop :=
  exists filename, In (filename, csvContent items) (files w).

(** ** What a run of the loop is expected to leave behind *)

(** The profile as [processProfile] leaves it when its page is the
    [i]-th navigation of the run: classified when the page loads and is
    not the rate-limit notice, and nothing when processing throws. *)
Definition processed_at (E : env) (i : nat) (p : Profile) : option Profile :=
  match page_goto E i (url p) with
  | PageLoaded false evaluation =>
      Some (mkProfile (url p)
              (Some (cr_status (determineConnectionStatus evaluation)))
              (row p))
  | _ => None
  end.

(** The profiles that are processed without a throw, the first of
    [profiles] being the [i]-th navigation. *)
Fixpoint expected_results (E : env) (i : nat) (profiles : list Profile)
  : list Profile :=
  match profiles with
  | [] => []
  | p :: rest =>
      match processed_at E i p with
      | Some p' => p' :: expected_results E (S i) rest
      | None => expected_results E (S i) rest
      end
  end.

(** The profiles whose processing throws. *)
Fixpoint unprocessed (E : env) (i : nat) (profiles : list Profile)
  : list Profile :=
  match profiles with
  | [] => []
  | p :: rest =>
      match processed_at E i p with
      | Some _ => unprocessed E (S i) rest
      | None => p :: unprocessed E (S i) rest
      end
  end.

(** The request that the loop of [main] sends for a profile with status
    [st]: the status and the default confidence, at the profile's row. *)
Definition loop_request (id name : string) (p : Profile) (st : ProfileStatus)
  : UpdateRequest :=
  mkUpdate id (status_range name (row p)) "RAW" [[status_value st; "0.9"]].

(** The credentials are found and every verification read succeeds. *)
Definition store_reachable (E : env) : Prop :=
  (forall i, initializeClient_error E i = None)
  /\ (forall i sheet, spreadsheets_get E i sheet = None).

(** ** What a run of the loop prints *)

(** The inner [try] of the loop up to the call that can throw: a fresh
    client and one call of [updateProfileStatus] without a confidence.
    Its outcome tells which branch of the [try] prints. *)
Definition update_attempt (E : env) (id name : string) (profile : Profile)
    (st : ProfileStatus) : M world unit :=
  sheetsClient <- new_GoogleSheetsClient E id name ;;
  call sheetsClient
    (updateProfileStatus E (row profile) (status_value st) None).

(** The lines expected for an update that threw [error]: the hint and the
    update that would have been made when the message tells that the
    sheet is not editable, the message of the error otherwise. *)
Definition failure_lines (profile : Profile) (st : ProfileStatus)
    (error : ApiError) : list ConsoleLine :=
  if JsString.includes "Login Required" (message error)
     || JsString.includes "insufficient permission" (message error)
  then [LogSheetNotEditable;
        LogWouldUpdate (row profile) (status_value st)]
  else [LogErrorUpdating (message error)].

(** The lines expected for an update, by its outcome. *)
Definition update_lines (profile : Profile) (st : ProfileStatus)
    (outcome : ApiError + unit) : list ConsoleLine :=
  match outcome with
  | inl error => failure_lines profile st error
  | inr _ => [LogUpdatedRow (row profile) (status_value st)]
  end.

(** The lines expected for one iteration that starts in [w]: the error
    of the processing when it throws, the lines of the update otherwise,
    and the wait in either case. *)
Definition iteration_lines (E : env) (id name : string) (p : Profile)
    (w : world) : list ConsoleLine :=
  match processed_at E (List.length (navigations w)) p with
  | None => [LogErrorProcessing (url p); LogWaiting]
  | Some p' =>
      match status_is_truthy p' with
      | Some st =>
          update_lines p' st
            (fst (update_attempt E id name p' st
                    (record_navigation (url p) w)))
          ++ [LogWaiting]
      | None => [LogWaiting]
      end
  end%list.

(** The lines expected for the whole loop: those of each iteration, from
    the world that the iterations before it left. *)
Fixpoint loop_lines (E : env) (id name : string) (profiles : list Profile)
    (w : world) : list ConsoleLine :=
  match profiles with
  | [] => []
  | p :: rest =>
      iteration_lines E id name p w
      ++ loop_lines E id name rest (snd (main_iteration E id name [] p w))
  end%list.

(** ** Sample runs *)

Module Sample.

Definition transient : ApiError := mkError "socket hang up" None.
Definition quota : ApiError := mkError "Quota exceeded" (Some 429).
Definition forbidden : ApiError :=
  mkError "The caller does not have permission" (Some 403).

Definition pending_page : PageSignals :=
  mkSignals true true true "1st" true true.

Definition connect_page : PageSignals :=
  mkSignals true false false "" false false.

(** Every page shows a pending invitation; the store rejects the first
    two writes and accepts from the third on. *)
Definition fails_twice : env :=
  mkEnv (fun _ _ => PageLoaded false pending_page)
        (fun _ => None)
        (fun _ _ => None)
        (fun _ _ => inr None)
        (fun i _ => match i with
                    | O => Some transient
                    | S O => Some quota
                    | _ => None
                    end)
        (fun _ => "2024-01-02T03:04:05.678Z").

(** The store rejects every write, each time with another message. *)
Definition always_fails : env :=
  mkEnv (fun _ _ => PageLoaded false pending_page)
        (fun _ => None)
        (fun _ _ => None)
        (fun _ _ => inr None)
        (fun i _ => Some (mkError ("attempt " ++ JsNumber.int_toString
                                                   (Z.of_nat i)) None))
        (fun _ => "2024-01-02T03:04:05.678Z").

(** The first navigation times out, the second profile is rate limited,
    the third shows a Connect button; the store accepts every write. *)
Definition first_two_fail : env :=
  mkEnv (fun i _ => match i with
                    | O => GotoFails (mkError "Timeout 30000ms exceeded" None)
                    | S O => PageLoaded true no_signals
                    | _ => PageLoaded false connect_page
                    end)
        (fun _ => None)
        (fun _ _ => None)
        (fun _ _ => inr (Some [["https://www.linkedin.com/in/a/"]; [];
                               [" "]; ["linkedin.com/b?x=1"]]))
        (fun _ _ => None)
        (fun _ => "2024-01-02T03:04:05.678Z").

Definition client : GoogleSheetsClient := mkClient "sheet-id" "Sheet1" true 3.

Definition profiles : list Profile :=
  [ mkProfile "https://www.linkedin.com/in/williamhgates" None 2;
    mkProfile "https://www.linkedin.com/in/satyanadella" None 3;
    mkProfile "https://www.linkedin.com/in/sundarpichai" None 4 ].

(** The run of the loop on one profile when the store rejects every
    write. *)
Definition rejected_run : (ApiError + list Profile) * world :=
  main_loop always_fails "sheet-id" "Sheet1" []
    [mkProfile "https://www.linkedin.com/in/williamhgates" None 2]
    empty_world.

End Sample.

(** ** More string operations *)

Module JsText.

(** [s.trimStart()] *)
Fixpoint trimStart (s : string) : string :=
  match s with
  | EmptyString => EmptyString
  | String a s' => if JsString.is_white_space a then trimStart s' else s
  end.

(** [s.trimEnd()] *)
Fixpoint trimEnd (s : string) : string :=
  match s with
  | EmptyString => EmptyString
  | String a s' =>
      match trimEnd s' with
      | EmptyString =>
          if JsString.is_white_space a then EmptyString
          else String a EmptyString
      | t => String a t
      end
  end.

(** [s.trim()] *)
Definition trim (s : string) : string := trimEnd (trimStart s).

(** A string that is not empty and whose last code unit is no white
    space; its first one is no white space either in [solid]. *)
Fixpoint ends_solid (p : string) : bool :=
  match p with
  | EmptyString => false
  | String a EmptyString => negb (JsString.is_white_space a)
  | String _ p' => ends_solid p'
  end.

Definition solid (p : string) : bool :=
  match p with
  | EmptyString => false
  | String a _ => negb (JsString.is_white_space a) && ends_solid p
  end.

(** [value || ''] for a value that may be [null] or [undefined]. *)
Definition or_empty (value : option string) : string :=
  match value with
  | Some s => s
  | None => EmptyString
  end.

(** The double quote, for the markers that hold one. *)
Definition DQ : string := String (ascii_of_nat 34) EmptyString.

(** [arr.findIndex(f)], counting from [index]. *)
Fixpoint findIndex_from {A} (f : A -> bool) (l : list A) (index : Z) : Z :=
  match l with
  | [] => -1
  | x :: rest => if f x then index else findIndex_from f rest (index + 1)
  end.

Definition findIndex {A} (f : A -> bool) (l : list A) : Z :=
  findIndex_from f l 0.

End JsText.

(** ** google-sheets.ts: the other methods of the client *)

(** The callback of [rows.filter] in [getProfileUrls]:
    [row[0] && row[0].trim() !== '']. *)
Definition row_has_url (r : list string) : bool :=
  match r with
  | [] => false
  | cell :: _ => JsString.truthy cell && negb (JsString.trim_is_empty cell)
  end.

(** [row[0]] as [normalizeLinkedInUrl] sees it: a missing cell is
    [undefined], which the first test of the normaliser treats like the
    empty string. *)
Definition first_cell (r : list string) : string :=
  match r with
  | [] => EmptyString
  | cell :: _ => cell
  end.

(** The URLs built from [response.data.values] in [getProfileUrls]. *)
Definition urls_of_rows (rows : list (list string)) : list string :=
  map (fun r => normalizeLinkedInUrl (first_cell r)) (filter row_has_url rows).

(** The callback of [rows.findIndex] in [findRowIndexByProfileUrl]. *)
Definition row_matches (profileUrl : string) (r : list string) : bool :=
  match r with
  | [] => false
  | cell :: _ =>
      if negb (JsString.truthy cell) then false
      else String.eqb (normalizeLinkedInUrl cell)
             (normalizeLinkedInUrl profileUrl)
  end.

Section ClientMore.

Variable E : env.

(** [getProfileUrls] *)
Definition getProfileUrls : Method (list string) :=
  c <- this ;;
  if negb (initialized c) then
    throw (mkError
             "Google Sheets client not initialized. Call init() first." None)
  else
    try_catch
      (rows <- perform (sheets_values_get E (sheetName c ++ "!A2:A")) ;;
       match rows with
       | None => ret []
       | Some [] => ret []
       | Some rows => ret (urls_of_rows rows)
       end)
      (fun error => throw error).

(** [findRowIndexByProfileUrl] *)
Definition findRowIndexByProfileUrl (profileUrl : string) : Method Z :=
  try_catch
    (c <- this ;;
     rows <- perform (sheets_values_get E (sheetName c ++ "!A:A")) ;;
     match rows with
     | None => ret (-1)
     | Some rows => ret (JsText.findIndex (row_matches profileUrl) rows)
     end)
    (fun error => throw error).

(** [updateStatus(profileUrl, status, confidence, rowIndex?)]; an omitted
    [rowIndex] is [None]. *)
Definition updateStatus (profileUrl st : string) (confidence : Q)
    (rowIndex : option Z) : Method unit :=
  c <- this ;;
  (if negb (initialized c) then init E else ret tt) ;;
  try_catch
    (rowIndex <-
       match rowIndex with
       | None =>
           found <- findRowIndexByProfileUrl profileUrl ;;
           if found =? -1 then
             throw (mkError ("Could not find profile URL " ++ profileUrl
                             ++ " in the sheet") None)
           else ret found
       | Some given => ret given
       end ;;
     let targetRow := rowIndex + 1 in
     updateProfileStatus E targetRow st (Some confidence))
    (fun error => throw error).

End ClientMore.

(** The waits after the failed attempts [first], ..., [first + count - 1]
    of [updateProfileStatus]. *)
Definition backoff (first count : nat) : list Z :=
  map (fun attempt => Z.of_nat attempt * 1000) (seq first count).

(** ** index.ts: reading the signals off the page *)

Record Button : Type := mkButton {
  textContent : option string;
  ariaLabel : option string
}.

(** What the evaluations of a profile page look at. *)
Record Dom : Type := mkDom {
  buttons : list Button;
  degreeElements : list (option string);
  outerHTML : string;
  bodyText : option string
}.

(** The [results] object of the evaluation. *)
Record ButtonResults : Type := mkButtonResults {
  r_hasConnectButton : bool;
  r_hasPendingButton : bool;
  r_hasMessageButton : bool
}.

(** The test that the loop makes on a button for one word:
    the text or the label includes it. *)
Definition button_mentions (word : string) (button : Button) : bool :=
  JsString.includes word (JsText.or_empty (textContent button))
  || JsString.includes word (JsText.or_empty (ariaLabel button)).

(** The body of the loop over the buttons: each test that succeeds sets
    its flag, and no flag is ever cleared. *)
Definition check_button (results : ButtonResults) (button : Button)
  : ButtonResults :=
  let text := JsText.or_empty (textContent button) in
  let label := JsText.or_empty (ariaLabel button) in
  let results :=
    if JsString.includes "Connect" text || JsString.includes "Connect" label
    then mkButtonResults true (r_hasPendingButton results)
           (r_hasMessageButton results)
    else results in
  let results :=
    if JsString.includes "Pending" text || JsString.includes "Pending" label
    then mkButtonResults (r_hasConnectButton results) true
           (r_hasMessageButton results)
    else results in
  if JsString.includes "Message" text || JsString.includes "Message" label
  then mkButtonResults (r_hasConnectButton results)
         (r_hasPendingButton results) true
  else results.

(** The loop over the degree elements: the first text that holds a degree
    is kept, trimmed, and the loop stops there. *)
Fixpoint find_connectionDegree (elements : list (option string)) : string :=
  match elements with
  | [] => EmptyString
  | elem :: rest =>
      let text := JsText.or_empty elem in
      if JsString.includes "1st" text || JsString.includes "2nd" text
         || JsString.includes "3rd" text
      then JsText.trim text
      else find_connectionDegree rest
  end.

Definition pending_marker : string :=
  JsText.DQ ++ "connectionStatus" ++ JsText.DQ ++ ":"
  ++ JsText.DQ ++ "PENDING" ++ JsText.DQ.

Definition connected_marker : string :=
  JsText.DQ ++ "connectionStatus" ++ JsText.DQ ++ ":"
  ++ JsText.DQ ++ "CONNECTED" ++ JsText.DQ.

(** The callback of [page.evaluate] in [determineConnectionStatus]. *)
Definition evaluate_page (d : Dom) : PageSignals :=
  let results :=
    fold_left check_button (buttons d) (mkButtonResults false false false) in
  let degree := find_connectionDegree (degreeElements d) in
  let htmlString := outerHTML d in
  let isPending :=
    JsString.includes pending_marker htmlString
    || JsString.includes "invitationPending" htmlString in
  let isConnected :=
    JsString.includes connected_marker htmlString
    || JsString.includes "connection-degree-1" htmlString in
  mkSignals (r_hasConnectButton results) (r_hasPendingButton results)
    (r_hasMessageButton results) degree isPending isConnected.

(** The rate-limit test of [processProfile]:
    [document.body.textContent?.includes(...) || false]. *)
Definition isRateLimited_page (d : Dom) : bool :=
  match bodyText d with
  | Some text => JsString.includes "unusual amount of traffic" text
  | None => false
  end.

(** What the browser gives [processProfile] for a page that loaded. *)
Definition page_of_dom (d : Dom) : PageOutcome :=
  PageLoaded (isRateLimited_page d) (evaluate_page d).

(** The request that the loop of [main] sends for a processed profile. *)
Definition update_of (id name : string) (p : Profile) : list UpdateRequest :=
  match status p with
  | Some st => [loop_request id name p st]
  | None => []
  end.

(** ** JSON.stringify, for the values that hold the cookies *)

Module Json.

(** The values that JSON can write: no [undefined], no function.  The
    members of an object come in the order in which the object
    enumerates them. *)
#[warnings="-register-all"]
Inductive value : Type :=
| JNull
| JBool (b : bool)
| JNumber (x : Q)
| JString (s : string)
| JArray (items : list value)
| JObject (members : list (string * value)).

Definition hex_digit (n : nat) : string :=
  substring n 1 "0123456789abcdef".

(** One code unit inside a quoted string. *)
Definition escape (c : ascii) : string :=
  let n := nat_of_ascii c in
  if (n =? 8)%nat then "\b"
  else if (n =? 9)%nat then "\t"
  else if (n =? 10)%nat then "\n"
  else if (n =? 12)%nat then "\f"
  else if (n =? 13)%nat then "\r"
  else if (n =? 34)%nat then "\" ++ JsText.DQ
  else if (n =? 92)%nat then "\\"
  else if (n <? 32)%nat then
    "\u00" ++ hex_digit (n / 16) ++ hex_digit (n mod 16)
  else String c EmptyString.

Fixpoint escape_all (s : string) : string :=
  match s with
  | EmptyString => EmptyString
  | String c rest => escape c ++ escape_all rest
  end.

(** QuoteJSONString *)
Definition quote (s : string) : string := JsText.DQ ++ escape_all s ++ JsText.DQ.

(** A number that is not finite is written as [null]. *)
Definition number (x : Q) : string :=
  match JsNumber.to_double (Z.abs (Qnum x)) (Zpos (Qden x)) with
  | None => if Qnum x =? 0 then "0" else "null"
  | Some _ => JsNumber.toString x
  end.

(** The serialization of [v] with the gap of two spaces, [indent] being
    the indentation of the line that [v] starts on. *)
Fixpoint serialize (indent : string) (v : value) : string :=
  let stepback := indent in
  let inner := indent ++ "  " in
  let separator := "," ++ LF ++ inner in
  match v with
  | JNull => "null"
  | JBool true => "true"
  | JBool false => "false"
  | JNumber x => number x
  | JString s => quote s
  | JArray [] => "[]"
  | JArray items =>
      "[" ++ LF ++ inner
      ++ JsString.join separator (map (serialize inner) items)
      ++ LF ++ stepback ++ "]"
  | JObject [] => "{}"
  | JObject members =>
      "{" ++ LF ++ inner
      ++ JsString.join separator
           (map (fun member =>
                   quote (fst member) ++ ": " ++ serialize inner (snd member))
              members)
      ++ LF ++ stepback ++ "}"
  end.

(** [JSON.stringify(v, null, 2)] *)
Definition stringify (v : value) : string := serialize "" v.

End Json.

(** ** index.ts: logging in and the whole of [main] *)

(** What the log-in meets: the cookie file, the feed page as the saved
    session shows it, and the manual log-in: the wait, the cookies that
    the browser context returns, an array of objects, and the writing of
    the file.  Reading the cookies and writing the file can each
    throw. *)
Record session : Type := mkSession {
  cookie_file_path : string;
  cookie_file_exists : bool;
  cookies_load_error : option ApiError;
  feed_body : option string;
  feed_href : string;
  waitForNavigation_error : option ApiError;
  context_cookies : ApiError + Json.value;
  cookie_file_write_error : option ApiError
}.

(** The profiles that [main] falls back on. *)
Definition default_profiles : list Profile :=
  [ mkProfile "https://www.linkedin.com/in/williamhgates" None 2;
    mkProfile "https://www.linkedin.com/in/satyanadella" None 3;
    mkProfile "https://www.linkedin.com/in/sundarpichai" None 4 ].

Section Login.

Variable E : env.
Variable L : session.

(** [await page.goto(url)] where nothing is read off the page. *)
Definition navigate (u : string) : M world unit :=
  goto E u ;; ret tt.

(** The evaluation on the feed page: no "Sign in", no "Log in", and an
    address without [/login]; a body without text counts as without
    either. *)
Definition isLoggedIn : bool :=
  let body_includes p :=
    match feed_body L with
    | Some text => JsString.includes p text
    | None => false
    end in
  negb (body_includes "Sign in") && negb (body_includes "Log in")
  && negb (JsString.includes "/login" (feed_href L)).

(** The [try] block of [loginToLinkedIn] with its [catch], which only
    prints.  The result tells whether the function returned from inside
    the block and what [cookiesLoaded] holds afterwards: the variable is
    set once the cookies are added to the context, before the feed page
    is opened. *)
Definition use_saved_cookies : M world (bool * bool) :=
  if cookie_file_exists L then
    match cookies_load_error L with
    | Some _ => ret (false, false)
    | None =>
        try_catch
          (navigate "https://www.linkedin.com/feed/" ;;
           ret (isLoggedIn, true))
          (fun _ => ret (false, true))
    end
  else ret (false, false).

(** [await page.waitForNavigation(...)] *)
Definition waitForNavigation : M world unit :=
  match waitForNavigation_error L with
  | Some e => throw e
  | None => ret tt
  end.

(** [await context.cookies()] *)
Definition context_cookies_now : M world Json.value :=
  match context_cookies L with
  | inl e => throw e
  | inr cookies => ret cookies
  end.

(** [fs.writeFileSync(COOKIE_FILE_PATH, data)], which throws when the
    file cannot be written and then leaves no file. *)
Definition write_cookie_file (data : string) : M world unit :=
  match cookie_file_write_error L with
  | Some e => throw e
  | None => writeFileSync (cookie_file_path L) data
  end.

(** The manual log-in: the log-in page is opened outside any [try]; the
    wait, the reading of the cookies and the writing of the file are
    inside one whose [catch] throws the error of the function, whatever
    was thrown. *)
Definition manual_login : M world unit :=
  navigate "https://www.linkedin.com/login" ;;
  try_catch
    (waitForNavigation ;;
     cookies <- context_cookies_now ;;
     write_cookie_file (Json.stringify cookies))
    (fun _ =>
       throw (mkError
                ("LinkedIn login failed. "
                 ++ "Timeout waiting for navigation after login.")
                None)).

(** [loginToLinkedIn] *)
Definition loginToLinkedIn : M world unit :=
  outcome <- use_saved_cookies ;;
  let (returned, cookiesLoaded) := (outcome : bool * bool) in
  if returned then ret tt
  else if negb cookiesLoaded then manual_login
  else ret tt.

(** The first [try] of [main]: the profiles of the sheet when there are
    some, the default ones when the sheet is empty or cannot be read. *)
Definition fetch_profiles (id name : string) : M world (list Profile) :=
  try_catch
    (sheetsClient <- new_GoogleSheetsClient E id name ;;
     fetchedProfiles <- call sheetsClient (getProfiles E) ;;
     if (0 <? List.length fetchedProfiles)%nat then ret fetchedProfiles
     else ret default_profiles)
    (fun _ => ret default_profiles).

(** [main], up to the value it returns: the summary it prints and the
    browser it opens on the sheet afterwards are not recorded. *)
Definition main (id name : string) : M world (list Profile) :=
  profiles <- fetch_profiles id name ;;
  loginToLinkedIn ;;
  main_loop E id name [] profiles.

End Login.

(** ** index.ts: validating the keys *)

Inductive ApiType : Type :=
| google
| openai
| anthropic.

(** The options of the request. *)
Record RequestOptions : Type := mkOptions {
  opt_hostname : string;
  opt_path : string;
  opt_method : string;
  opt_headers : list (string * string)
}.

(** How the request ends: with a response, whose body arrives in chunks,
    with an error, or with the timeout. *)
Inductive HttpOutcome : Type :=
| Responded (statusCode : option Z) (chunks : list string)
| RequestError (errorMessage : string)
| TimedOut.

(** The object that the validations resolve to. *)
Record Validation : Type := mkValidation {
  v_valid : bool;
  v_error : option string
}.

(** The handler of a chunk: it is added while fewer than 3 KB are held. *)
Definition on_data (responseData chunk : string) : string :=
  if (Z.of_nat (String.length responseData) <? 1024 * 3)
  then responseData ++ chunk
  else responseData.

Definition collect (chunks : list string) : string :=
  fold_left on_data chunks EmptyString.

(** [res.statusCode || 500] *)
Definition status_or_500 (statusCode : option Z) : Z :=
  match statusCode with
  | Some c => if c =? 0 then 500 else c
  | None => 500
  end.

(** The request that [validateApiKey] sends for a key. *)
Definition api_request (type : ApiType) (apiKey : string) : RequestOptions :=
  match type with
  | google =>
      mkOptions "sheets.googleapis.com" ("/v4/spreadsheets?key=" ++ apiKey)
        "GET" []
  | openai =>
      mkOptions "api.openai.com" "/v1/models" "GET"
        [("Authorization", "Bearer " ++ apiKey);
         ("Content-Type", "application/json")]
  | anthropic =>
      mkOptions "api.anthropic.com" "/v1/models" "GET"
        [("x-api-key", apiKey);
         ("anthropic-version", "2023-06-01");
         ("Content-Type", "application/json")]
  end.

(** [validateApiKey], against a server that answers each request. *)
Definition validateApiKey (type : ApiType) (apiKey : string)
    (server : RequestOptions -> HttpOutcome) : Validation :=
  if negb (JsString.truthy apiKey) || JsString.trim_is_empty apiKey then
    mkValidation false (Some "API key is empty")
  else
    match server (api_request type apiKey) with
    | Responded code chunks =>
        let responseData := collect chunks in
        let statusCode := status_or_500 code in
        let failure provider :=
          mkValidation false
            (Some (provider ++ " API error ("
                   ++ JsNumber.int_toString statusCode ++ "): "
                   ++ responseData)) in
        match type with
        | google =>
            if statusCode =? 200 then mkValidation true None
            else if statusCode =? 403 then
              mkValidation true
                (Some "API key valid but missing permissions")
            else failure "Google"
        | openai =>
            if (statusCode =? 200) || (statusCode =? 400)
            then mkValidation true None
            else failure "OpenAI"
        | anthropic =>
            if statusCode =? 200 then mkValidation true None
            else if (statusCode =? 404)
                    && JsString.includes "not_found_error" responseData
                    && JsString.includes "model:" responseData
            then
              mkValidation true
                (Some ("API key appears valid, "
                       ++ "but model name may need updating"))
            else failure "Anthropic"
        end
    | RequestError errorMessage =>
        mkValidation false (Some ("Network error: " ++ errorMessage))
    | TimedOut => mkValidation false (Some "Request timed out")
    end.

(** [validateSpreadsheetAccess]; [serviceAccount] tells whether the file
    [service-account.json] exists. *)
Definition validateSpreadsheetAccess (id apiKey : string)
    (serviceAccount : bool) (server : RequestOptions -> HttpOutcome)
  : Validation :=
  if negb (JsString.truthy id) then
    mkValidation false (Some "Missing spreadsheet ID")
  else if serviceAccount then mkValidation true None
  else if negb (JsString.truthy apiKey) then
    mkValidation false
      (Some "Missing API key and no service account credentials found")
  else
    match server (mkOptions "sheets.googleapis.com"
                    ("/v4/spreadsheets/" ++ id ++ "?key=" ++ apiKey)
                    "GET" []) with
    | Responded code chunks =>
        let responseData := collect chunks in
        let statusCode := status_or_500 code in
        if statusCode =? 200 then
          mkValidation true
            (Some ("Note: API key can only be used for read access. "
                   ++ "For write access, set up a service account "
                   ++ "as described in the README."))
        else if statusCode =? 403 then
          mkValidation false
            (Some ("API key valid but missing permissions "
                   ++ "to access this spreadsheet"))
        else if statusCode =? 404 then
          mkValidation false
            (Some ("Spreadsheet not found. "
                   ++ "Check the ID and ensure it's shared properly."))
        else if statusCode =? 401 then
          mkValidation false
            (Some "Authentication failed. Invalid Google API key.")
        else
          mkValidation false
            (Some ("Google Sheets API error ("
                   ++ JsNumber.int_toString statusCode ++ "): "
                   ++ responseData))
    | RequestError errorMessage =>
        mkValidation false (Some ("Network error: " ++ errorMessage))
    | TimedOut => mkValidation false (Some "Request timed out")
    end.


(** ** More sample runs *)

Module Demo.

(** A client that allows five attempts. *)
Definition patient_client : GoogleSheetsClient :=
  mkClient "sheet-id" "Sheet1" true 5.

(** A client on which [init] has not run. *)
Definition fresh_client : GoogleSheetsClient :=
  mkClient "sheet-id" "Sheet1" false 3.

(** The service refuses the verification read and every read of values;
    it would accept a write. *)
Definition unreadable : env :=
  mkEnv (fun _ _ => PageLoaded false Sample.connect_page)
        (fun _ => None)
        (fun _ _ => Some Sample.forbidden)
        (fun _ _ => inl Sample.forbidden)
        (fun _ _ => None)
        (fun _ => "2024-01-02T03:04:05.678Z").

(** The store rejects the first write and accepts the others; column A
    holds a header and three rows, one of them empty. *)
Definition fails_once : env :=
  mkEnv (fun _ _ => PageLoaded false Sample.connect_page)
        (fun _ => None)
        (fun _ _ => None)
        (fun _ _ => inr (Some [["Profile URL"];
                               ["https://www.linkedin.com/in/a/"]; [];
                               ["linkedin.com/b?x=1"]]))
        (fun i _ => match i with
                    | O => Some Sample.transient
                    | _ => None
                    end)
        (fun _ => "2024-01-02T03:04:05.678Z").

Definition column_A : list (list string) :=
  [["Profile URL"]; ["https://www.linkedin.com/in/a/"]; [];
   ["linkedin.com/b?x=1"]].

(** A profile page with a Message button, a button that says Pending in
    its label only, and two degree badges. *)
Definition invited_page : Dom :=
  mkDom [mkButton (Some "Message") None;
         mkButton (Some "More") (Some "Pending, click to withdraw")]
        [None; Some " 2nd degree connection "; Some "1st"]
        "<html></html>"
        (Some "Profile").

(** A profile page of a first-degree connection. *)
Definition connected_page : Dom :=
  mkDom [mkButton (Some "Message") None]
        [Some "   "; Some " 1st degree connection "; Some "2nd"]
        "<html></html>"
        (Some "Profile").

(** The cookie of a session, as the browser context returns it. *)
Definition session_cookie : Json.value :=
  Json.JObject
    [("name", Json.JString "li_at"); ("value", Json.JString "AQEDAT");
     ("domain", Json.JString ".www.linkedin.com");
     ("path", Json.JString "/"); ("expires", Json.JNumber 1767225600.5);
     ("httpOnly", Json.JBool true); ("secure", Json.JBool true);
     ("sameSite", Json.JString "None")]%string.

(** Saved cookies that load although the session has expired. *)
Definition expired_session : session :=
  mkSession "/work/linkedin-cookies.json" true None
    (Some "Welcome back. Sign in to continue") "https://www.linkedin.com/"
    None (inr (Json.JArray [])) None.

(** No saved cookies, and a manual log-in that succeeds. *)
Definition first_login : session :=
  mkSession "/work/linkedin-cookies.json" false None
    None "https://www.linkedin.com/feed/" None
    (inr (Json.JArray [session_cookie])) None.

(** The same log-in where the cookie file cannot be written. *)
Definition read_only_disk : session :=
  mkSession "/work/linkedin-cookies.json" false None
    None "https://www.linkedin.com/feed/" None
    (inr (Json.JArray [session_cookie]))
    (Some (mkError "EACCES: permission denied" None)).

(** The same log-in where the browser context was closed before its
    cookies were read. *)
Definition closed_context : session :=
  mkSession "/work/linkedin-cookies.json" false None
    None "https://www.linkedin.com/feed/" None
    (inl (mkError "Target page, context or browser has been closed" None))
    None.

(** The text of the cookie file after [first_login]. *)
Definition cookie_file_text : string :=
  let q s := JsText.DQ ++ s ++ JsText.DQ in
  JsString.join LF
    ["[";
     "  {";
     "    " ++ q "name" ++ ": " ++ q "li_at" ++ ",";
     "    " ++ q "value" ++ ": " ++ q "AQEDAT" ++ ",";
     "    " ++ q "domain" ++ ": " ++ q ".www.linkedin.com" ++ ",";
     "    " ++ q "path" ++ ": " ++ q "/" ++ ",";
     "    " ++ q "expires" ++ ": 1767225600.5,";
     "    " ++ q "httpOnly" ++ ": true,";
     "    " ++ q "secure" ++ ": true,";
     "    " ++ q "sameSite" ++ ": " ++ q "None";
     "  }";
     "]"].

(** The rate-limit notice, on a page that still shows a Pending button. *)
Definition throttled_page : Dom :=
  mkDom [mkButton (Some "Pending") None] []
        "<html></html>"
        (Some "We have detected an unusual amount of traffic").

(** Every navigation shows the same page; the store accepts every
    write. *)
Definition shows (d : Dom) : env :=
  mkEnv (fun _ _ => page_of_dom d)
        (fun _ => None)
        (fun _ _ => None)
        (fun _ _ => inr None)
        (fun _ _ => None)
        (fun _ => "2024-01-02T03:04:05.678Z").

(** The first navigation times out and the other pages show a Connect
    button; the credentials are found and the sheet is verified, but the
    store rejects the first three writes, as a sheet that is not shared
    for editing does, and accepts the later ones. *)
Definition not_editable_at_first : env :=
  mkEnv (fun i _ => match i with
                    | O => GotoFails (mkError "Timeout 30000ms exceeded" None)
                    | _ => PageLoaded false Sample.connect_page
                    end)
        (fun _ => None)
        (fun _ _ => None)
        (fun _ _ => inr None)
        (fun i _ => if (i <? 3)%nat
                    then Some (mkError
                                 "Request had insufficient permission"
                                 (Some 403))
                    else None)
        (fun _ => "2024-01-02T03:04:05.678Z").

(** A chunk of [n] code units. *)
Fixpoint filler (n : nat) : string :=
  match n with
  | O => EmptyString
  | S n' => String "x" (filler n')
  end.

(** A server that answers every request with one status and body. *)
Definition answers (statusCode : Z) (body : list string)
  : RequestOptions -> HttpOutcome :=
  fun _ => Responded (Some statusCode) body.

End Demo.

(** * Properties *)

(** ** Facts about the string operations *)

Module JsStringFacts.
Import JsString.

Lemma startsWith_app (q r t : string) :
  startsWith q r = true -> startsWith q (r ++ t) = true.
Proof.
  revert r; induction q as [|a q IH]; intros r H.
  - reflexivity.
  - destruct r as [|b r]; simpl in *; [discriminate|].
    apply andb_true_iff in H as [Hab Hq].
    rewrite Hab; simpl; auto.
Qed.

Lemma includes_app_l (q r t : string) :
  includes q r = true -> includes q (r ++ t) = true.
Proof.
  induction r as [|b r IH]; simpl; intros H.
  - rewrite orb_false_r in H.
    destruct q; [|discriminate].
    destruct t; reflexivity.
  - apply orb_true_iff in H as [H|H].
    + change (String b (r ++ t)) with (String b r ++ t).
      rewrite (startsWith_app _ _ _ H); reflexivity.
    + rewrite (IH H); apply orb_true_r.
Qed.

Lemma includes_tail (q : string) (a : ascii) (s : string) :
  includes q s = true -> includes q (String a s) = true.
Proof.
  intros H; simpl; rewrite H; apply orb_true_r.
Qed.

Lemma includes_false_inv (q : string) (a : ascii) (s : string) :
  includes q (String a s) = false ->
  startsWith q (String a s) = false /\ includes q s = false.
Proof.
  simpl; intros H; apply orb_false_iff in H; exact H.
Qed.

(** Without an occurrence of the pattern, nothing is replaced. *)
Lemma replace_first_absent (p r s : string) :
  includes p s = false -> replace_first p r s = s.
Proof.
  induction s as [|a s IH]; intros H.
  - simpl in *. rewrite orb_false_r in H; rewrite H; reflexivity.
  - apply includes_false_inv in H as [Hs Hi].
    simpl replace_first. rewrite Hs, (IH Hi); reflexivity.
Qed.

(** After a replacement, whatever the replacement text contains is in
    the result. *)
Lemma replace_first_includes (p r q s : string) :
  includes p s = true -> includes q r = true ->
  includes q (replace_first p r s) = true.
Proof.
  intros Hp Hq; induction s as [|a s IH].
  - simpl in *. rewrite orb_false_r in Hp; rewrite Hp.
    now apply includes_app_l.
  - simpl replace_first.
    destruct (startsWith p (String a s)) eqn:Hs.
    + now apply includes_app_l.
    + apply includes_tail, IH.
      simpl in Hp. simpl in Hs. rewrite Hs in Hp. exact Hp.
Qed.

Lemma lacks_split_head (c : ascii) (s : string) :
  lacks c (split_head c s) = true.
Proof.
  induction s as [|a s IH]; simpl; [reflexivity|].
  destruct (Ascii.eqb a c) eqn:Hac; simpl; [reflexivity|].
  rewrite Hac, IH; reflexivity.
Qed.

Lemma split_head_lacks (c : ascii) (s : string) :
  lacks c s = true -> split_head c s = s.
Proof.
  induction s as [|a s IH]; simpl; intros H; [reflexivity|].
  apply andb_true_iff in H as [Hac Hs].
  apply negb_true_iff in Hac; rewrite Hac, (IH Hs); reflexivity.
Qed.

Lemma strip_cons (a b : ascii) (s : string) :
  strip_trailing_slash (String a (String b s))
  = String a (strip_trailing_slash (String b s)).
Proof. reflexivity. Qed.

Lemma lacks_strip (c : ascii) (s : string) :
  lacks c s = true -> lacks c (strip_trailing_slash s) = true.
Proof.
  induction s as [|a s IH]; intros H; [reflexivity|].
  simpl in H; apply andb_true_iff in H as [Hac Hs].
  destruct s as [|b s].
  - simpl. destruct (Ascii.eqb a "/"); simpl; [reflexivity|].
    rewrite Hac; reflexivity.
  - rewrite strip_cons. cbn [lacks]. rewrite Hac, (IH Hs); reflexivity.
Qed.

Lemma lacks_app (c : ascii) (s t : string) :
  lacks c s = true -> lacks c t = true -> lacks c (s ++ t) = true.
Proof.
  induction s as [|a s IH]; simpl; intros Hs Ht; [exact Ht|].
  apply andb_true_iff in Hs as [Hac Hs].
  rewrite Hac, (IH Hs Ht); reflexivity.
Qed.

Lemma lacks_drop (c : ascii) (n : nat) (s : string) :
  lacks c s = true -> lacks c (drop n s) = true.
Proof.
  revert s; induction n as [|n IH]; intros s H; [exact H|].
  destruct s as [|a s]; [reflexivity|].
  simpl in *. apply andb_true_iff in H as [_ Hs]. now apply IH.
Qed.

Lemma lacks_replace_first (c : ascii) (p r s : string) :
  lacks c r = true -> lacks c s = true ->
  lacks c (replace_first p r s) = true.
Proof.
  intros Hr; induction s as [|a s IH]; intros Hs.
  - simpl. destruct (startsWith p ""); [|reflexivity].
    apply lacks_app; [exact Hr|]. now apply lacks_drop.
  - simpl replace_first. destruct (startsWith p (String a s)).
    + apply lacks_app; [exact Hr|]. now apply lacks_drop.
    + simpl in *. apply andb_true_iff in Hs as [Hac Hs].
      rewrite Hac, (IH Hs); reflexivity.
Qed.

(** A string that does not end with a slash has none to strip. *)
Lemma strip_no_trailing_slash (s : string) :
  endsWith "/" s = false -> strip_trailing_slash s = s.
Proof.
  induction s as [|a s IH]; intros H; [reflexivity|].
  destruct s as [|b s].
  - simpl in *. rewrite orb_false_r in H.
    destruct (Ascii.eqb a "/") eqn:Ha; [|reflexivity].
    apply Ascii.eqb_eq in Ha; subst a. discriminate.
  - rewrite strip_cons, IH; [reflexivity|].
    change (endsWith "/" (String a (String b s)))
      with (String.eqb (String a (String b s)) "/"
            || endsWith "/" (String b s)) in H.
    apply orb_false_iff in H as [_ H]; exact H.
Qed.

Lemma truthy_false (s : string) : truthy s = false -> s = "".
Proof. destruct s; [reflexivity|discriminate]. Qed.

End JsStringFacts.

(** ** Numbers and JSON text at sample values *)

(** The confidences of the program print as written; small and large
    numbers take the exponent notation; a number that is no double
    prints as the double nearest to it. *)
Lemma toString_samples :
  map JsNumber.toString
    [0.9; 0.95; 0.5; 1; 100; 0.000001; 0.0000001; -0.00000015; 12.5;
     1000000000000000000000 # 1; 100000000000000000000 # 1; 1 # 3; 2 # 3;
     0.30000000000000004; 9007199254740993 # 1]%Q
  = ["0.9"; "0.95"; "0.5"; "1"; "100"; "0.000001"; "1e-7"; "-1.5e-7";
     "12.5"; "1e+21"; "100000000000000000000"; "0.3333333333333333";
     "0.6666666666666666"; "0.30000000000000004"; "9007199254740992"].
Proof. vm_compute. reflexivity. Qed.

(** Quotes, backslashes and control characters are escaped inside a
    string; an empty array and an empty object stay on one line. *)
Lemma stringify_samples :
  Json.stringify
    (Json.JArray
       [Json.JObject [("a" ++ JsText.DQ ++ "\" ++ LF, Json.JNull)];
        Json.JArray []; Json.JObject []; Json.JNumber (-1)])
  = JsString.join LF
      ["[";
       "  {";
       "    " ++ JsText.DQ ++ "a\" ++ JsText.DQ ++ "\\\n" ++ JsText.DQ
       ++ ": null";
       "  },";
       "  [],";
       "  {},";
       "  -1";
       "]"].
Proof. vm_compute. reflexivity. Qed.

(** ** The URL normaliser *)

Section Normalizer.
Import JsString JsStringFacts.

Lemma lacks_stripped (x : string) : lacks "?" (stripped x) = true.
Proof. apply lacks_strip, lacks_split_head. Qed.

(** The three ways in which [normalizeLinkedInUrl] produces its result. *)
Lemma normalizeLinkedInUrl_cases (x : string) :
  normalizeLinkedInUrl x = x
  \/ (includes "/in/" (stripped x) = true
      /\ normalizeLinkedInUrl x = stripped x)
  \/ (includes "/in/" (stripped x) = false
      /\ normalizeLinkedInUrl x
         = replace_first "linkedin.com/" "linkedin.com/in/" (stripped x)).
Proof.
  unfold normalizeLinkedInUrl.
  destruct (truthy x) eqn:Hx; simpl.
  - destruct (includes "linkedin.com" x); simpl; [|now left].
    destruct (includes "/in/" (stripped x)) eqn:Hin; simpl.
    + right; left; split; reflexivity.
    + destruct (endsWith "linkedin.com" (stripped x)); [now left|].
      right; right; split; reflexivity.
  - left. apply truthy_false in Hx; subst x; reflexivity.
Qed.

(** A string without query and without trailing slash is returned as it
    is, once it has the profile segment or no host to rewrite. *)
Lemma normalizeLinkedInUrl_fixed (y : string) :
  lacks "?" y = true ->
  endsWith "/" y = false ->
  includes "/in/" y = true \/ includes "linkedin.com/" y = false ->
  normalizeLinkedInUrl y = y.
Proof.
  intros Hq Hslash Hy. unfold normalizeLinkedInUrl, stripped.
  rewrite (split_head_lacks _ _ Hq), (strip_no_trailing_slash _ Hslash).
  destruct (truthy y) eqn:Ht; simpl.
  - destruct (includes "linkedin.com" y); simpl; [|reflexivity].
    destruct (includes "/in/" y) eqn:Hin; simpl; [reflexivity|].
    destruct (endsWith "linkedin.com" y); [reflexivity|].
    destruct Hy as [Hy|Hy]; [discriminate|].
    now apply replace_first_absent.
  - apply truthy_false in Ht; subst y; reflexivity.
Qed.

(** Normalising twice is normalising once for every input whose
    normalised form does not end with a slash: the only inputs on which
    the normaliser is not idempotent are those that keep a trailing
    slash after one has been stripped. *)
Theorem normalizeLinkedInUrl_idempotent_without_trailing_slash
    (x : string) :
  endsWith "/" (normalizeLinkedInUrl x) = false ->
  normalizeLinkedInUrl (normalizeLinkedInUrl x) = normalizeLinkedInUrl x.
Proof.
  intros Hslash.
  destruct (normalizeLinkedInUrl_cases x) as [Hid|[[Hin Hn]|[Hin Hn]]].
  - rewrite Hid. exact Hid.
  - rewrite Hn in *.
    apply normalizeLinkedInUrl_fixed; auto using lacks_stripped.
  - rewrite Hn in *.
    apply normalizeLinkedInUrl_fixed; auto.
    + apply lacks_replace_first; [reflexivity|apply lacks_stripped].
    + destruct (includes "linkedin.com/" (stripped x)) eqn:Hhost.
      * left. now apply replace_first_includes.
      * right. rewrite replace_first_absent; assumption.
Qed.

Lemma normalizeLinkedInUrl_idempotent_witness :
  endsWith "/" (normalizeLinkedInUrl "www.linkedin.com/satyanadella/?a=b")
  = false
  /\ normalizeLinkedInUrl
       (normalizeLinkedInUrl "www.linkedin.com/satyanadella/?a=b")
     = normalizeLinkedInUrl "www.linkedin.com/satyanadella/?a=b".
Proof.
  split; [reflexivity|].
  apply (normalizeLinkedInUrl_idempotent_without_trailing_slash
           "www.linkedin.com/satyanadella/?a=b").
  reflexivity.
Defined.

(** C4: idempotence of the normaliser fails on the code.  A profile URL
    that ends with two slashes is normalised to one that still ends with
    a slash, although the normaliser is meant to remove trailing slashes,
    and normalising the result removes the second one. *)
Theorem normalizeLinkedInUrl_not_idempotent :
  normalizeLinkedInUrl "https://www.linkedin.com/in/satyanadella//"
  = "https://www.linkedin.com/in/satyanadella/"
  /\ normalizeLinkedInUrl
       (normalizeLinkedInUrl "https://www.linkedin.com/in/satyanadella//")
     = "https://www.linkedin.com/in/satyanadella"
  /\ normalizeLinkedInUrl
       (normalizeLinkedInUrl "https://www.linkedin.com/in/satyanadella//")
     <> normalizeLinkedInUrl "https://www.linkedin.com/in/satyanadella//".
Proof. vm_compute. repeat split. discriminate. Qed.

(** C9, as the code has it: for an input that contains the host marker,
    the query string and one trailing slash are removed and the result
    is that stripped form when it has the profile segment; a stripped
    form that is the bare host sends the input back unchanged, and any
    other one gets the segment inserted after the host.  Both sample
    URLs normalise to the plain profile URL. *)
Theorem normalizeLinkedInUrl_strips_query_and_slash (x : string) :
  includes "linkedin.com" x = true ->
  (includes "/in/" (stripped x) = true ->
   normalizeLinkedInUrl x = stripped x)
  /\ (includes "/in/" (stripped x) = false ->
      endsWith "linkedin.com" (stripped x) = true ->
      normalizeLinkedInUrl x = x)
  /\ (includes "/in/" (stripped x) = false ->
      endsWith "linkedin.com" (stripped x) = false ->
      normalizeLinkedInUrl x
      = replace_first "linkedin.com/" "linkedin.com/in/" (stripped x))
  /\ normalizeLinkedInUrl "https://www.linkedin.com/in/satyanadella?trk=x"
     = "https://www.linkedin.com/in/satyanadella"
  /\ normalizeLinkedInUrl "https://www.linkedin.com/in/satyanadella/"
     = "https://www.linkedin.com/in/satyanadella".
Proof.
  intros Hhost.
  assert (Ht : truthy x = true).
  { destruct x; [discriminate|reflexivity]. }
  unfold normalizeLinkedInUrl.
  rewrite Ht, Hhost; simpl.
  repeat split.
  - intros ->; reflexivity.
  - intros -> ->; reflexivity.
  - intros -> ->; reflexivity.
Qed.

Lemma normalizeLinkedInUrl_strips_witness :
  (includes "linkedin.com" "https://linkedin.com/in/a/?trk=x" = true
   /\ includes "/in/" (stripped "https://linkedin.com/in/a/?trk=x") = true
   /\ normalizeLinkedInUrl "https://linkedin.com/in/a/?trk=x"
      = "https://linkedin.com/in/a")
  /\ (includes "linkedin.com" "https://linkedin.com/?trk=x" = true
      /\ includes "/in/" (stripped "https://linkedin.com/?trk=x") = false
      /\ endsWith "linkedin.com" (stripped "https://linkedin.com/?trk=x")
         = true
      /\ normalizeLinkedInUrl "https://linkedin.com/?trk=x"
         = "https://linkedin.com/?trk=x")
  /\ (includes "linkedin.com" "www.linkedin.com/a/" = true
      /\ includes "/in/" (stripped "www.linkedin.com/a/") = false
      /\ endsWith "linkedin.com" (stripped "www.linkedin.com/a/") = false
      /\ normalizeLinkedInUrl "www.linkedin.com/a/"
         = "www.linkedin.com/in/a").
Proof.
  refine (conj (conj eq_refl (conj eq_refl _))
            (conj (conj eq_refl (conj eq_refl (conj eq_refl _)))
               (conj eq_refl (conj eq_refl (conj eq_refl _))))).
  - apply (proj1 (normalizeLinkedInUrl_strips_query_and_slash
                    "https://linkedin.com/in/a/?trk=x" eq_refl)).
    reflexivity.
  - apply (proj1 (proj2 (normalizeLinkedInUrl_strips_query_and_slash
                           "https://linkedin.com/?trk=x" eq_refl)));
      reflexivity.
  - rewrite (proj1 (proj2 (proj2
               (normalizeLinkedInUrl_strips_query_and_slash
                  "www.linkedin.com/a/" eq_refl))));
      reflexivity.
Defined.

(** C9 as stated fails on a bare host with a query string: the guard for
    URLs that are no profile returns the input, query string and slash
    included. *)
Lemma normalizeLinkedInUrl_keeps_query_of_bare_host :
  includes "linkedin.com" "https://www.linkedin.com/?trk=x" = true
  /\ normalizeLinkedInUrl "https://www.linkedin.com/?trk=x"
     = "https://www.linkedin.com/?trk=x"
  /\ normalizeLinkedInUrl "https://www.linkedin.com/?trk=x"
     <> stripped "https://www.linkedin.com/?trk=x".
Proof. vm_compute. repeat split; discriminate. Qed.

End Normalizer.

(** ** The classifier *)

Lemma verdict_table (s : PageSignals) :
  (cr_status (determineConnectionStatus s),
   cr_confidence (determineConnectionStatus s)) = DecisionTable.lookup s.
Proof.
  unfold determineConnectionStatus, DecisionTable.lookup.
  cbn [DecisionTable.first_match DecisionTable.rules].
  destruct (isPendingInHtml s || hasPendingButton s); [reflexivity|].
  destruct (isConnectedInHtml s
            || hasMessageButton s && negb (hasConnectButton s)
            || JsString.includes "1st" (connectionDegree s));
    [reflexivity|].
  destruct (hasConnectButton s
            || JsString.includes "2nd" (connectionDegree s)
            || JsString.includes "3rd" (connectionDegree s));
    reflexivity.
Qed.

(** The confidence is one of the three literals of the table. *)
Lemma classifier_rows (s : PageSignals) :
  cr_confidence (determineConnectionStatus s) = 0.95%Q
  \/ cr_confidence (determineConnectionStatus s) = 0.9%Q
  \/ cr_confidence (determineConnectionStatus s) = 0.5%Q.
Proof.
  unfold determineConnectionStatus.
  destruct (isPendingInHtml s || hasPendingButton s); [simpl; auto|].
  destruct (isConnectedInHtml s
            || hasMessageButton s && negb (hasConnectButton s)
            || JsString.includes "1st" (connectionDegree s));
    [simpl; auto|].
  destruct (hasConnectButton s
            || JsString.includes "2nd" (connectionDegree s)
            || JsString.includes "3rd" (connectionDegree s));
    simpl; auto.
Qed.

(** C1: the status and confidence that [determineConnectionStatus]
    returns are those of the four-rule precedence table, first match
    winning; and a page whose markup says pending is PENDING with
    confidence 0.95 whatever the other signals are. *)
Theorem classifier_follows_precedence_table (s : PageSignals) :
  (cr_status (determineConnectionStatus s),
   cr_confidence (determineConnectionStatus s)) = DecisionTable.lookup s
  /\ (isPendingInHtml s = true ->
      cr_status (determineConnectionStatus s) = PENDING
      /\ cr_confidence (determineConnectionStatus s) = 0.95%Q).
Proof.
  split; [apply verdict_table|].
  intros Hp. unfold determineConnectionStatus. rewrite Hp.
  split; reflexivity.
Qed.

Lemma classifier_precedence_witness :
  isPendingInHtml Sample.pending_page = true
  /\ cr_status (determineConnectionStatus Sample.pending_page) = PENDING
  /\ cr_confidence (determineConnectionStatus Sample.pending_page) = 0.95%Q.
Proof.
  split; [reflexivity|].
  apply (proj2 (classifier_follows_precedence_table Sample.pending_page)).
  reflexivity.
Defined.

(** C8: the classifier returns a result for every value of the signals,
    one of the four rows of the table, and without any signal the result
    is UNKNOWN with confidence 0.5. *)
Theorem classifier_total_unknown_default (s : PageSignals) :
  (exists r : ClassificationResult,
      determineConnectionStatus s = r
      /\ In (cr_status r, cr_confidence r)
           [(PENDING, 0.95%Q); (ACCEPTED, 0.95%Q);
            (NOT_CONNECTED, 0.9%Q); (UNKNOWN, 0.5%Q)])
  /\ cr_status (determineConnectionStatus no_signals) = UNKNOWN
  /\ cr_confidence (determineConnectionStatus no_signals) = 0.5%Q.
Proof.
  split; [|split; reflexivity].
  eexists; split; [reflexivity|].
  unfold determineConnectionStatus.
  destruct (isPendingInHtml s || hasPendingButton s); [simpl; auto|].
  destruct (isConnectedInHtml s
            || hasMessageButton s && negb (hasConnectButton s)
            || JsString.includes "1st" (connectionDegree s));
    [simpl; auto|].
  destruct (hasConnectButton s
            || JsString.includes "2nd" (connectionDegree s)
            || JsString.includes "3rd" (connectionDegree s));
    simpl; auto.
Qed.

(** ** Running monadic code *)

Lemma bind_run {S A B} (m : M S A) (k : A -> M S B) (s : S) :
  bind m k s
  = match m s with
    | (inl e, s') => (inl e, s')
    | (inr a, s') => k a s'
    end.
Proof. reflexivity. Qed.

Lemma try_catch_run {S A} (m : M S A) (h : ApiError -> M S A) (s : S) :
  try_catch m h s
  = match m s with
    | (inl e, s') => h e s'
    | (inr a, s') => (inr a, s')
    end.
Proof. reflexivity. Qed.

(** ** The sheet update retrier *)

Section Retrier.

Variable E : env.

Lemma init_succeeds (c : GoogleSheetsClient) (w : world) :
  spreadsheets_get E (List.length (sheet_gets w)) (spreadsheetId c) = None ->
  init E (c, w) = (inr tt, (verified c, record_get (spreadsheetId c) w)).
Proof.
  intros Hget.
  unfold init, try_catch, bind, this, gets, perform, sheets_get; simpl.
  rewrite Hget; reflexivity.
Qed.

Lemma init_fails (c : GoogleSheetsClient) (w : world) (e : ApiError) :
  spreadsheets_get E (List.length (sheet_gets w)) (spreadsheetId c)
  = Some e ->
  init E (c, w) = (inl e, (c, record_get (spreadsheetId c) w)).
Proof.
  intros Hget.
  unfold init, try_catch, bind, this, gets, perform, sheets_get; simpl.
  rewrite Hget; destruct c; reflexivity.
Qed.

(** The three ways in which one turn of the loop ends. *)
Lemma attempt_accepted (request : UpdateRequest) (limit remaining attempt : nat)
    (c : GoogleSheetsClient) (w : world) :
  values_update E (List.length (sheet_writes w)) request = None ->
  attempt_loop E request limit (S remaining) attempt (c, w)
  = (inr tt, (c, record_write request w)).
Proof.
  intros Hup.
  unfold attempt_loop, try_catch, perform, sheets_values_update; simpl.
  rewrite Hup; reflexivity.
Qed.

Lemma attempt_retried (request : UpdateRequest) (limit remaining attempt : nat)
    (c : GoogleSheetsClient) (w : world) (e : ApiError) :
  values_update E (List.length (sheet_writes w)) request = Some e ->
  (attempt < limit)%nat ->
  attempt_loop E request limit (S remaining) attempt (c, w)
  = attempt_loop E request limit remaining (S attempt)
      (c, record_timeout (Z.of_nat attempt * 1000)
            (record_write request w)).
Proof.
  intros Hup Hlt. apply Nat.ltb_lt in Hlt.
  cbn [attempt_loop]. unfold try_catch at 1.
  unfold perform at 1, sheets_values_update; cbn [fst snd].
  rewrite Hup, Hlt. reflexivity.
Qed.

Lemma attempt_exhausted (request : UpdateRequest) (limit remaining attempt : nat)
    (c : GoogleSheetsClient) (w : world) (e : ApiError) :
  values_update E (List.length (sheet_writes w)) request = Some e ->
  (limit <= attempt)%nat ->
  attempt_loop E request limit (S remaining) attempt (c, w)
  = (inl e, (c, record_write request w)).
Proof.
  intros Hup Hge. apply Nat.ltb_ge in Hge.
  cbn [attempt_loop]. unfold try_catch at 1.
  unfold perform at 1, sheets_values_update; cbn [fst snd].
  rewrite Hup, Hge. reflexivity.
Qed.

Lemma writes_after_retry (request : UpdateRequest) (delay : Z) (w : world) :
  List.length (sheet_writes (record_timeout delay (record_write request w)))
  = S (List.length (sheet_writes w)).
Proof. simpl. rewrite length_app; simpl. lia. Qed.

End Retrier.

Section RetrierClaims.

Variable E : env.

Lemma rethrow_is_identity {S A} (m : M S A) (s : S) :
  try_catch m (fun error => throw error) s = m s.
Proof.
  unfold try_catch, throw. destruct (m s) as [[e|a] s']; reflexivity.
Qed.

(** [updateProfileStatus] on a client that is initialized is its loop,
    entered at attempt 1. *)
Lemma updateProfileStatus_initialized (c : GoogleSheetsClient) (w : world)
    (rowNumber : Z) (st : string) (confidence : option Q) :
  initialized c = true ->
  updateProfileStatus E rowNumber st confidence (c, w)
  = attempt_loop E
      (update_request c rowNumber st (or_default 0.9%Q confidence))
      (maxRetries c) (maxRetries c) 1 (c, w).
Proof.
  intros Hi. unfold updateProfileStatus.
  rewrite bind_run. unfold this at 1, gets at 1; cbn [fst]. rewrite Hi.
  cbn [negb]. rewrite bind_run. unfold ret at 1.
  rewrite rethrow_is_identity. reflexivity.
Qed.

(** On a fresh client the verification read comes first; when it
    succeeds the loop runs on the client marked as initialized. *)
Lemma updateProfileStatus_verified (c : GoogleSheetsClient) (w : world)
    (rowNumber : Z) (st : string) (confidence : option Q) :
  initialized c = false ->
  spreadsheets_get E (List.length (sheet_gets w)) (spreadsheetId c) = None ->
  updateProfileStatus E rowNumber st confidence (c, w)
  = attempt_loop E
      (update_request c rowNumber st (or_default 0.9%Q confidence))
      (maxRetries c) (maxRetries c) 1
      (verified c, record_get (spreadsheetId c) w).
Proof.
  intros Hi Hget. unfold updateProfileStatus.
  rewrite bind_run. unfold this at 1, gets at 1; cbn [fst]. rewrite Hi.
  cbn [negb]. rewrite bind_run. rewrite (init_succeeds E c w Hget).
  rewrite rethrow_is_identity. reflexivity.
Qed.

(** When the verification read fails, its error is thrown before any
    write. *)
Lemma updateProfileStatus_unverified (c : GoogleSheetsClient) (w : world)
    (rowNumber : Z) (st : string) (confidence : option Q) (e : ApiError) :
  initialized c = false ->
  spreadsheets_get E (List.length (sheet_gets w)) (spreadsheetId c)
  = Some e ->
  updateProfileStatus E rowNumber st confidence (c, w)
  = (inl e, (c, record_get (spreadsheetId c) w)).
Proof.
  intros Hi Hget. unfold updateProfileStatus.
  rewrite bind_run. unfold this at 1, gets at 1; cbn [fst]. rewrite Hi.
  cbn [negb]. rewrite bind_run. rewrite (init_fails E c w e Hget).
  reflexivity.
Qed.

(** With a client that is initialized, or whose verification read
    succeeds, [updateProfileStatus] is its loop, entered at attempt 1
    in a world with the same writes and waits. *)
Lemma updateProfileStatus_enters_loop (c : GoogleSheetsClient) (w : world)
    (rowNumber : Z) (st : string) (confidence : option Q) :
  initialized c = true
  \/ spreadsheets_get E (List.length (sheet_gets w)) (spreadsheetId c)
     = None ->
  exists c1 w1,
    updateProfileStatus E rowNumber st confidence (c, w)
    = attempt_loop E
        (update_request c rowNumber st (or_default 0.9%Q confidence))
        (maxRetries c) (maxRetries c) 1 (c1, w1)
    /\ sheet_writes w1 = sheet_writes w
    /\ timeouts w1 = timeouts w.
Proof.
  intros Hinit.
  destruct (initialized c) eqn:Hi.
  - exists c, w. repeat split.
    now apply updateProfileStatus_initialized.
  - destruct Hinit as [Hinit|Hget]; [discriminate|].
    exists (verified c), (record_get (spreadsheetId c) w).
    repeat split. now apply updateProfileStatus_verified.
Qed.

(** C2: with three attempts allowed and a store that rejects the first
    two writes and accepts the third, [updateProfileStatus] returns
    normally after exactly three write calls, all for the range of the
    given row, and exactly two waits: 1000 ms after the first rejected
    write and 2000 ms after the second. *)
Theorem updateProfileStatus_succeeds_on_third_attempt
    (c : GoogleSheetsClient) (w : world) (rowNumber : Z) (st : string)
    (confidence : option Q) (e1 e2 : ApiError) :
  let request :=
    update_request c rowNumber st (or_default 0.9%Q confidence) in
  let k := List.length (sheet_writes w) in
  maxRetries c = 3%nat ->
  initialized c = true
  \/ spreadsheets_get E (List.length (sheet_gets w)) (spreadsheetId c)
     = None ->
  values_update E k request = Some e1 ->
  values_update E (S k) request = Some e2 ->
  values_update E (S (S k)) request = None ->
  exists c' w0 w',
    updateProfileStatus E rowNumber st confidence (c, w)
    = (inr tt, (c', w'))
    /\ w' = record_write request
              (record_timeout 2000
                 (record_write request
                    (record_timeout 1000 (record_write request w0))))
    /\ sheet_writes w0 = sheet_writes w
    /\ timeouts w0 = timeouts w
    /\ sheet_writes w' = (sheet_writes w ++ [request; request; request])%list
    /\ req_range request = status_range (sheetName c) rowNumber
    /\ timeouts w' = (timeouts w ++ [1000; 2000])%list.
Proof.
  intros request k Hmax Hinit H1 H2 H3.
  destruct (updateProfileStatus_enters_loop c w rowNumber st confidence
              Hinit) as (c1 & w1 & Hrun & Hw & Ht).
  fold request in Hrun. rewrite Hmax in Hrun.
  subst k. rewrite <- Hw in H1, H2, H3.
  rewrite (attempt_retried E _ _ _ _ _ _ e1) in Hrun; [|exact H1|lia].
  rewrite (attempt_retried E _ _ _ _ _ _ e2) in Hrun;
    [|rewrite writes_after_retry; exact H2|lia].
  rewrite attempt_accepted in Hrun;
    [|rewrite !writes_after_retry; exact H3].
  eexists c1, w1, _. split; [exact Hrun|].
  split; [reflexivity|].
  simpl. rewrite Hw, Ht, <- !app_assoc. repeat split.
Qed.

(** C3: with three attempts allowed and a store that rejects every
    write, [updateProfileStatus] makes exactly three write calls for the
    given row, waits after the first two only, and throws the error of
    the third call. *)
Theorem updateProfileStatus_gives_up_after_three_attempts
    (c : GoogleSheetsClient) (w : world) (rowNumber : Z) (st : string)
    (confidence : option Q) (failure : nat -> ApiError) :
  let request :=
    update_request c rowNumber st (or_default 0.9%Q confidence) in
  let k := List.length (sheet_writes w) in
  maxRetries c = 3%nat ->
  initialized c = true
  \/ spreadsheets_get E (List.length (sheet_gets w)) (spreadsheetId c)
     = None ->
  (forall i, values_update E i request = Some (failure i)) ->
  exists c' w0 w',
    updateProfileStatus E rowNumber st confidence (c, w)
    = (inl (failure (S (S k))), (c', w'))
    /\ w' = record_write request
              (record_timeout 2000
                 (record_write request
                    (record_timeout 1000 (record_write request w0))))
    /\ sheet_writes w0 = sheet_writes w
    /\ timeouts w0 = timeouts w
    /\ sheet_writes w' = (sheet_writes w ++ [request; request; request])%list
    /\ req_range request = status_range (sheetName c) rowNumber
    /\ timeouts w' = (timeouts w ++ [1000; 2000])%list.
Proof.
  intros request k Hmax Hinit Hfail.
  destruct (updateProfileStatus_enters_loop c w rowNumber st confidence
              Hinit) as (c1 & w1 & Hrun & Hw & Ht).
  fold request in Hrun. rewrite Hmax in Hrun.
  rewrite (attempt_retried E _ _ _ _ _ _ _ (Hfail _)) in Hrun; [|lia].
  rewrite (attempt_retried E _ _ _ _ _ _ _ (Hfail _)) in Hrun; [|lia].
  rewrite (attempt_exhausted E _ _ _ _ _ _ _ (Hfail _)) in Hrun; [|lia].
  rewrite !writes_after_retry, Hw in Hrun. fold k in Hrun.
  eexists c1, w1, _. split; [exact Hrun|].
  split; [reflexivity|].
  simpl. rewrite Hw, Ht, <- !app_assoc. repeat split.
Qed.

End RetrierClaims.

Lemma updateProfileStatus_third_attempt_witness :
  exists c' w0 w',
    updateProfileStatus Sample.fails_twice 7 "pending" None
      (Sample.client, empty_world)
    = (inr tt, (c', w'))
    /\ w' = record_write (mkUpdate "sheet-id" "Sheet1!B7:C7" "RAW"
                            [["pending"; "0.9"]])
              (record_timeout 2000
                 (record_write (mkUpdate "sheet-id" "Sheet1!B7:C7" "RAW"
                                  [["pending"; "0.9"]])
                    (record_timeout 1000
                       (record_write (mkUpdate "sheet-id" "Sheet1!B7:C7"
                                        "RAW" [["pending"; "0.9"]]) w0))))
    /\ sheet_writes w0 = []
    /\ timeouts w0 = []
    /\ sheet_writes w'
       = [mkUpdate "sheet-id" "Sheet1!B7:C7" "RAW" [["pending"; "0.9"]];
          mkUpdate "sheet-id" "Sheet1!B7:C7" "RAW" [["pending"; "0.9"]];
          mkUpdate "sheet-id" "Sheet1!B7:C7" "RAW" [["pending"; "0.9"]]]
    /\ "Sheet1!B7:C7" = status_range "Sheet1" 7
    /\ timeouts w' = [1000; 2000].
Proof.
  apply (updateProfileStatus_succeeds_on_third_attempt Sample.fails_twice
           Sample.client empty_world 7 "pending" None
           Sample.transient Sample.quota);
    solve [reflexivity | left; reflexivity].
Defined.

Lemma updateProfileStatus_gives_up_witness :
  exists c' w0 w',
    updateProfileStatus Sample.always_fails 7 "pending" None
      (Sample.client, empty_world)
    = (inl (mkError "attempt 2" None), (c', w'))
    /\ w' = record_write (mkUpdate "sheet-id" "Sheet1!B7:C7" "RAW"
                            [["pending"; "0.9"]])
              (record_timeout 2000
                 (record_write (mkUpdate "sheet-id" "Sheet1!B7:C7" "RAW"
                                  [["pending"; "0.9"]])
                    (record_timeout 1000
                       (record_write (mkUpdate "sheet-id" "Sheet1!B7:C7"
                                        "RAW" [["pending"; "0.9"]]) w0))))
    /\ sheet_writes w0 = []
    /\ timeouts w0 = []
    /\ sheet_writes w'
       = [mkUpdate "sheet-id" "Sheet1!B7:C7" "RAW" [["pending"; "0.9"]];
          mkUpdate "sheet-id" "Sheet1!B7:C7" "RAW" [["pending"; "0.9"]];
          mkUpdate "sheet-id" "Sheet1!B7:C7" "RAW" [["pending"; "0.9"]]]
    /\ "Sheet1!B7:C7" = status_range "Sheet1" 7
    /\ timeouts w' = [1000; 2000].
Proof.
  apply (updateProfileStatus_gives_up_after_three_attempts
           Sample.always_fails Sample.client empty_world 7 "pending" None
           (fun i => mkError ("attempt " ++ JsNumber.int_toString (Z.of_nat i))
                       None));
    solve [reflexivity | left; reflexivity | intros i; reflexivity].
Defined.

(** ** What is sent to the store *)

Section ClientRuns.

Variable E : env.

(** The loop sends nothing but its request, at least once when entered
    with an iteration left, and leaves the rest of the world alone. *)
Lemma attempt_loop_run (request : UpdateRequest) (limit : nat)
    (remaining attempt : nat) (c : GoogleSheetsClient) (w : world) :
  exists r w' n,
    attempt_loop E request limit remaining attempt (c, w) = (r, (c, w'))
    /\ sheet_writes w' = (sheet_writes w ++ repeat request n)%list
    /\ (n <= remaining)%nat
    /\ (remaining <> O -> n <> O)
    /\ files w' = files w
    /\ navigations w' = navigations w
    /\ clients_created w' = clients_created w
    /\ console w' = console w.
Proof.
  revert attempt w; induction remaining as [|remaining IH]; intros attempt w.
  - exists (inr tt), w, O. simpl. rewrite app_nil_r.
    repeat split; auto; congruence.
  - destruct (values_update E (List.length (sheet_writes w)) request)
      as [e|] eqn:Hup.
    + destruct (Nat.ltb_spec attempt limit) as [Hlt|Hge].
      * rewrite (attempt_retried E _ _ _ _ _ _ e Hup Hlt).
        destruct (IH (S attempt)
                    (record_timeout (Z.of_nat attempt * 1000)
                       (record_write request w)))
          as (r & w' & n & Hrun & Hw & Hn & _ & Hf & Hnav & Hcl & Hg).
        exists r, w', (S n). rewrite Hrun, Hw. simpl.
        rewrite <- app_assoc. simpl in *.
        repeat split; auto; try lia.
      * rewrite (attempt_exhausted E _ _ _ _ _ _ e Hup Hge).
        exists (inl e), (record_write request w), 1%nat.
        simpl. repeat split; auto; lia.
    + rewrite (attempt_accepted E _ _ _ _ _ _ Hup).
      exists (inr tt), (record_write request w), 1%nat.
      simpl. repeat split; auto; lia.
Qed.

(** [updateProfileStatus] sends nothing but the request for its row,
    status and confidence; with a positive number of attempts and a
    verification read that succeeds, it sends it at least once. *)
Lemma updateProfileStatus_run (c : GoogleSheetsClient) (w : world)
    (rowNumber : Z) (st : string) (confidence : option Q) :
  let request :=
    update_request c rowNumber st (or_default 0.9%Q confidence) in
  exists r c' w' n,
    updateProfileStatus E rowNumber st confidence (c, w) = (r, (c', w'))
    /\ sheet_writes w' = (sheet_writes w ++ repeat request n)%list
    /\ (n <= maxRetries c)%nat
    /\ (maxRetries c <> O ->
        initialized c = true
        \/ spreadsheets_get E (List.length (sheet_gets w)) (spreadsheetId c)
           = None ->
        n <> O)
    /\ files w' = files w
    /\ navigations w' = navigations w
    /\ clients_created w' = clients_created w
    /\ console w' = console w.
Proof.
  intros request.
  destruct (initialized c) eqn:Hi;
    [|destruct (spreadsheets_get E (List.length (sheet_gets w))
                  (spreadsheetId c)) as [e|] eqn:Hget].
  - rewrite (updateProfileStatus_initialized E c w _ _ _ Hi).
    fold request.
    destruct (attempt_loop_run request (maxRetries c) (maxRetries c) 1 c w)
      as (r & w' & n & Hloop & Hws & Hn & Hpos & Hf & Hnav & Hcl & Hcon).
    exists r, c, w', n. rewrite Hloop. repeat split; auto.
  - rewrite (updateProfileStatus_unverified E c w _ _ _ e Hi Hget).
    exists (inl e), c, (record_get (spreadsheetId c) w), O.
    simpl. rewrite app_nil_r. repeat split; auto; try lia.
    intros _ [H|H]; congruence.
  - rewrite (updateProfileStatus_verified E c w _ _ _ Hi Hget).
    fold request.
    destruct (attempt_loop_run request (maxRetries c) (maxRetries c) 1
                (verified c) (record_get (spreadsheetId c) w))
      as (r & w' & n & Hloop & Hws & Hn & Hpos & Hf & Hnav & Hcl & Hcon).
    exists r, (verified c), w', n. rewrite Hloop. repeat split; auto.
Qed.

End ClientRuns.

(** ** The loop of [main] *)

Section MainRuns.

Variable E : env.
Variables id name : string.

Lemma processed_at_inv (i : nat) (p p' : Profile) :
  processed_at E i p = Some p' ->
  exists st, p' = mkProfile (url p) (Some st) (row p).
Proof.
  unfold processed_at.
  destruct (page_goto E i (url p)) as [e|[|] evaluation]; try discriminate.
  intros [= <-]; eauto.
Qed.

Lemma processProfile_run (p : Profile) (w : world) :
  match processed_at E (List.length (navigations w)) p with
  | Some p' => processProfile E p w = (inr p', record_navigation (url p) w)
  | None =>
      exists e, processProfile E p w = (inl e, record_navigation (url p) w)
  end.
Proof.
  unfold processed_at, processProfile, bind, goto.
  destruct (page_goto E (List.length (navigations w)) (url p))
    as [e|[|] evaluation]; simpl; unfold throw; eauto.
Qed.

Lemma status_is_truthy_set (u : string) (st : ProfileStatus) (r : Z) :
  status_is_truthy (mkProfile u (Some st) r) = Some st.
Proof. destruct st; reflexivity. Qed.

Lemma expected_results_cons (i : nat) (p : Profile) (rest : list Profile) :
  expected_results E i (p :: rest)
  = (expected_results E i [p] ++ expected_results E (S i) rest)%list.
Proof. simpl. destruct (processed_at E i p); reflexivity. Qed.

(** The [catch] of the sheet update prints and returns. *)
Lemma update_failure_is_logged (p : Profile) (st : ProfileStatus)
    (error : ApiError) (w : world) :
  exists w' lines,
    report_update_failure p st error w = (inr tt, w')
    /\ sheet_writes w' = sheet_writes w
    /\ files w' = files w
    /\ navigations w' = navigations w
    /\ clients_created w' = clients_created w
    /\ console w' = (console w ++ lines)%list.
Proof.
  unfold report_update_failure.
  destruct (JsString.includes "Login Required" (message error)
            || JsString.includes "insufficient permission" (message error)).
  - eexists _, [_; _]. split; [reflexivity|]. simpl.
    rewrite <- app_assoc. repeat split.
  - eexists _, [_]. split; [reflexivity|]. repeat split.
Qed.

(** The inner [try] never throws, creates one client, writes no file and
    sends nothing but the request of the profile, at least once when
    the store is reachable. *)
Lemma try_update_sheet_run (p : Profile) (st : ProfileStatus) (w : world) :
  exists w' n lines,
    try_update_sheet E id name p st w = (inr tt, w')
    /\ sheet_writes w'
       = (sheet_writes w ++ repeat (loop_request id name p st) n)%list
    /\ (store_reachable E -> n <> O)
    /\ files w' = files w
    /\ navigations w' = navigations w
    /\ clients_created w' = S (clients_created w)
    /\ console w' = (console w ++ lines)%list.
Proof.
  unfold try_update_sheet. rewrite try_catch_run, bind_run.
  unfold new_GoogleSheetsClient at 1.
  destruct (initializeClient_error E (clients_created w)) as [e|] eqn:Hcred.
  - destruct (update_failure_is_logged p st e (record_client w))
      as (w' & lines & Hlog & Hw & Hf & Hnav & Hcl & Hcon).
    exists w', O, lines. rewrite Hlog, Hw, Hf, Hnav, Hcl, Hcon. simpl.
    rewrite app_nil_r. repeat split.
    intros [Hc _]. rewrite Hc in Hcred. discriminate.
  - rewrite bind_run. unfold call at 1.
    destruct (updateProfileStatus_run E (mkClient id name false 3)
                (record_client w) (row p) (status_value st) None)
      as (r & c' & w1 & n & Hrun & Hw & Hn & Hpos & Hf & Hnav & Hcl & Hcon).
    rewrite Hrun. cbn [snd].
    change (update_request (mkClient id name false 3) (row p)
              (status_value st) (or_default 0.9%Q None))
      with (loop_request id name p st) in Hw.
    assert (Hsent : store_reachable E -> n <> O).
    { intros [_ Hget]. apply Hpos; [discriminate|]. right. apply Hget. }
    destruct r as [e|[]].
    + destruct (update_failure_is_logged p st e w1)
        as (w' & lines & Hlog & Hw' & Hf' & Hnav' & Hcl' & Hcon').
      exists w', n, lines. rewrite Hlog, Hw', Hf', Hnav', Hcl', Hcon'.
      rewrite Hw, Hf, Hnav, Hcl, Hcon. repeat split. exact Hsent.
    + exists (record_console
                (LogUpdatedRow (row p) (status_value st)) w1), n,
             [LogUpdatedRow (row p) (status_value st)].
      simpl. rewrite Hw, Hf, Hnav, Hcl, Hcon. repeat split. exact Hsent.
Qed.

(** One iteration never throws: it navigates to the profile, keeps it
    in [results] exactly when processing did not throw, and in that
    case tries the sheet update; a throw of the processing is printed. *)
Lemma main_iteration_run (results : list Profile) (p : Profile) (w : world) :
  let processed := expected_results E (List.length (navigations w)) [p] in
  exists w' new lines,
    main_iteration E id name results p w
    = (inr (results ++ processed)%list, w')
    /\ navigations w' = (navigations w ++ [url p])%list
    /\ clients_created w'
       = (clients_created w + List.length processed)%nat
    /\ files w' = files w
    /\ sheet_writes w' = (sheet_writes w ++ new)%list
    /\ Forall (fun request => exists st, request = loop_request id name p st)
         new
    /\ (store_reachable E ->
        Forall (fun p' => exists st,
                    status p' = Some st
                    /\ In (loop_request id name p' st) new) processed)
    /\ console w' = (console w ++ lines)%list
    /\ Forall (fun q => In (LogErrorProcessing (url q)) lines)
         (unprocessed E (List.length (navigations w)) [p]).
Proof.
  intros processed; subst processed.
  unfold main_iteration. rewrite bind_run, try_catch_run, bind_run.
  pose proof (processProfile_run p w) as Hp.
  cbn [expected_results unprocessed].
  destruct (processed_at E (List.length (navigations w)) p) as [p'|] eqn:Hat.
  - destruct (processed_at_inv _ _ _ Hat) as [st ->].
    rewrite Hp, bind_run, status_is_truthy_set.
    destruct (try_update_sheet_run (mkProfile (url p) (Some st) (row p)) st
                (record_navigation (url p) w))
      as (w1 & n & lines & Hrun & Hw & Hsent & Hf & Hnav & Hcl & Hcon).
    rewrite Hrun.
    eexists _, (repeat (loop_request id name p st) n),
            (lines ++ [LogWaiting])%list.
    split; [reflexivity|]. simpl.
    rewrite Hw, Hf, Hnav, Hcl, Hcon, <- app_assoc. simpl.
    repeat split; try lia.
    + apply Forall_forall. intros request Hin.
      apply repeat_spec in Hin. eauto.
    + intros Hreach. constructor; [|constructor].
      exists st; split; [reflexivity|].
      specialize (Hsent Hreach). destruct n; [congruence|].
      left; reflexivity.
    + constructor.
  - destruct Hp as [e Hp]. rewrite Hp, app_nil_r.
    eexists _, [], [LogErrorProcessing (url p); LogWaiting].
    split; [reflexivity|]. simpl.
    rewrite !app_nil_r, <- app_assoc. simpl.
    repeat split; auto; try lia.
Qed.

Lemma unprocessed_cons (i : nat) (p : Profile) (rest : list Profile) :
  unprocessed E i (p :: rest)
  = (unprocessed E i [p] ++ unprocessed E (S i) rest)%list.
Proof. simpl. destruct (processed_at E i p); reflexivity. Qed.

(** The whole loop never throws and visits every profile in order;
    [results] grows by the profiles whose processing did not throw,
    one client is created for each of them, and a line is printed for
    each of the others. *)
Lemma main_loop_run (profiles results : list Profile) (w : world) :
  let processed :=
    expected_results E (List.length (navigations w)) profiles in
  exists w' new lines,
    main_loop E id name results profiles w
    = (inr (results ++ processed)%list, w')
    /\ navigations w' = (navigations w ++ map url profiles)%list
    /\ clients_created w'
       = (clients_created w + List.length processed)%nat
    /\ files w' = files w
    /\ sheet_writes w' = (sheet_writes w ++ new)%list
    /\ Forall (fun request => exists p st,
                   In p profiles /\ request = loop_request id name p st)
         new
    /\ (store_reachable E ->
        Forall (fun p' => exists st,
                    status p' = Some st
                    /\ In (loop_request id name p' st) new) processed)
    /\ console w' = (console w ++ lines)%list
    /\ Forall (fun q => In (LogErrorProcessing (url q)) lines)
         (unprocessed E (List.length (navigations w)) profiles).
Proof.
  revert results w; induction profiles as [|p rest IH]; intros results w.
  - exists w, [], []. simpl. rewrite !app_nil_r.
    repeat split; auto.
  - cbv zeta. rewrite expected_results_cons, unprocessed_cons.
    cbn [main_loop]. rewrite bind_run.
    destruct (main_iteration_run results p w)
      as (w1 & new1 & lines1 & Hrun1 & Hnav1 & Hcl1 & Hf1 & Hw1 & Hall1
          & Hsent1 & Hcon1 & Hlog1).
    rewrite Hrun1.
    destruct (IH (results ++ expected_results E
                               (List.length (navigations w)) [p])%list w1)
      as (w2 & new2 & lines2 & Hrun2 & Hnav2 & Hcl2 & Hf2 & Hw2 & Hall2
          & Hsent2 & Hcon2 & Hlog2).
    assert (Hlen : List.length (navigations w1)
                   = S (List.length (navigations w))).
    { rewrite Hnav1, length_app; simpl; lia. }
    rewrite Hlen in *.
    exists w2, (new1 ++ new2)%list, (lines1 ++ lines2)%list. rewrite Hrun2.
    rewrite Hnav2, Hnav1, Hcl2, Hcl1, Hf2, Hf1, Hw2, Hw1, Hcon2, Hcon1.
    rewrite length_app, <- !app_assoc. simpl.
    repeat split; try lia.
    + apply Forall_app; split.
      * eapply Forall_impl; [|exact Hall1].
        intros request [st ->]. exists p, st; simpl; auto.
      * eapply Forall_impl; [|exact Hall2].
        intros request (q & st & Hin & ->). exists q, st; simpl; auto.
    + intros Hreach. apply Forall_app; split.
      * eapply Forall_impl; [|exact (Hsent1 Hreach)].
        intros p' (st & Hst & Hin). exists st; split; [exact Hst|].
        apply in_or_app; auto.
      * eapply Forall_impl; [|exact (Hsent2 Hreach)].
        intros p' (st & Hst & Hin). exists st; split; [exact Hst|].
        apply in_or_app; auto.
    + apply Forall_app; split.
      * eapply Forall_impl; [|exact Hlog1].
        intros q Hin. apply in_or_app; auto.
      * eapply Forall_impl; [|exact Hlog2].
        intros q Hin. apply in_or_app; auto.
Qed.

(** The update attempt prints nothing and writes no file. *)
Lemma update_attempt_run (p : Profile) (st : ProfileStatus) (w : world) :
  exists r w1,
    update_attempt E id name p st w = (r, w1)
    /\ console w1 = console w
    /\ files w1 = files w.
Proof.
  unfold update_attempt. rewrite bind_run.
  unfold new_GoogleSheetsClient at 1.
  destruct (initializeClient_error E (clients_created w)) as [e|].
  - eexists _, _. split; [reflexivity|]. split; reflexivity.
  - unfold call.
    destruct (updateProfileStatus_run E (mkClient id name false 3)
                (record_client w) (row p) (status_value st) None)
      as (r & c' & w1 & n & Hrun & _ & _ & _ & Hf & _ & _ & Hcon).
    rewrite Hrun. exists r, w1. split; [reflexivity|].
    split; [exact Hcon|exact Hf].
Qed.

(** The [catch] of the sheet update prints the lines of the failure and
    returns. *)
Lemma report_update_failure_lines (p : Profile) (st : ProfileStatus)
    (error : ApiError) (w : world) :
  exists w',
    report_update_failure p st error w = (inr tt, w')
    /\ console w' = (console w ++ failure_lines p st error)%list
    /\ files w' = files w.
Proof.
  unfold report_update_failure, failure_lines.
  destruct (JsString.includes "Login Required" (message error)
            || JsString.includes "insufficient permission" (message error)).
  - eexists. split; [reflexivity|]. simpl.
    rewrite <- app_assoc. split; reflexivity.
  - eexists. split; [reflexivity|]. split; reflexivity.
Qed.

(** The inner [try] prints the line of its outcome: the update when the
    attempt returns, the failure when it throws. *)
Lemma try_update_sheet_lines (p : Profile) (st : ProfileStatus) (w : world) :
  exists w',
    try_update_sheet E id name p st w = (inr tt, w')
    /\ console w'
       = (console w
          ++ update_lines p st (fst (update_attempt E id name p st w)))%list
    /\ files w' = files w.
Proof.
  destruct (update_attempt_run p st w) as (r & w1 & Hrun & Hcon & Hf).
  rewrite Hrun. cbn [fst].
  assert (Htry :
    try_update_sheet E id name p st w
    = match r with
      | inl e => report_update_failure p st e w1
      | inr _ =>
          console_log (LogUpdatedRow (row p) (status_value st)) w1
      end).
  { revert Hrun. unfold try_update_sheet, update_attempt.
    rewrite try_catch_run, !bind_run.
    destruct (new_GoogleSheetsClient E id name w) as [[e|c] w0].
    - intros [= <- <-]. reflexivity.
    - rewrite bind_run.
      destruct (call c (updateProfileStatus E (row p) (status_value st) None)
                  w0) as [[e|[]] w2]; intros [= <- <-]; reflexivity. }
  rewrite Htry. destruct r as [e|[]].
  - destruct (report_update_failure_lines p st e w1)
      as (w' & Hlog & Hcon' & Hf').
    exists w'. rewrite Hlog, Hcon', Hf', Hcon, Hf. repeat split.
  - eexists. split; [reflexivity|]. simpl. rewrite Hcon, Hf.
    split; reflexivity.
Qed.

(** The world that an iteration leaves does not depend on [results]. *)
Lemma main_iteration_world (results : list Profile) (p : Profile)
    (w : world) :
  snd (main_iteration E id name results p w)
  = snd (main_iteration E id name [] p w).
Proof.
  unfold main_iteration. rewrite !bind_run, !try_catch_run, !bind_run.
  destruct (processProfile E p w) as [[e|p'] w1]; [reflexivity|].
  rewrite !bind_run.
  destruct (match status_is_truthy p' with
            | Some st => try_update_sheet E id name p' st
            | None => ret tt
            end w1) as [[e|[]] w2]; reflexivity.
Qed.

(** What one iteration prints. *)
Lemma main_iteration_console (results : list Profile) (p : Profile)
    (w : world) :
  console (snd (main_iteration E id name results p w))
  = (console w ++ iteration_lines E id name p w)%list.
Proof.
  unfold main_iteration, iteration_lines.
  rewrite bind_run, try_catch_run, bind_run.
  pose proof (processProfile_run p w) as Hp.
  destruct (processed_at E (List.length (navigations w)) p) as [p'|] eqn:Hat.
  - destruct (processed_at_inv _ _ _ Hat) as [st ->].
    rewrite Hp, bind_run, status_is_truthy_set.
    destruct (try_update_sheet_lines (mkProfile (url p) (Some st) (row p))
                st (record_navigation (url p) w))
      as (w1 & Hrun & Hcon & _).
    rewrite Hrun. simpl. rewrite Hcon, <- app_assoc. reflexivity.
  - destruct Hp as [e Hp]. rewrite Hp. simpl.
    rewrite <- app_assoc. reflexivity.
Qed.

(** What the whole loop prints. *)
Lemma main_loop_console (profiles results : list Profile) (w : world) :
  console (snd (main_loop E id name results profiles w))
  = (console w ++ loop_lines E id name profiles w)%list.
Proof.
  revert results w; induction profiles as [|p rest IH]; intros results w.
  - simpl. rewrite app_nil_r. reflexivity.
  - cbn [main_loop loop_lines]. rewrite bind_run.
    destruct (main_iteration_run results p w)
      as (w1 & new1 & lines1 & Hrun1 & _).
    pose proof (main_iteration_console results p w) as Hcon.
    pose proof (main_iteration_world results p w) as Hworld.
    rewrite Hrun1 in Hcon, Hworld. cbn [snd] in Hcon, Hworld.
    rewrite Hrun1, IH, Hcon, <- Hworld, <- app_assoc. reflexivity.
Qed.

(** When the client can be created and verified and the store rejects
    the three attempts of the write, the update attempt throws the error
    of the third. *)
Lemma update_attempt_rejected (p : Profile) (st : ProfileStatus) (w : world)
    (e1 e2 e3 : ApiError) :
  initializeClient_error E (clients_created w) = None ->
  spreadsheets_get E (List.length (sheet_gets w)) id = None ->
  values_update E (List.length (sheet_writes w)) (loop_request id name p st)
  = Some e1 ->
  values_update E (S (List.length (sheet_writes w)))
    (loop_request id name p st) = Some e2 ->
  values_update E (S (S (List.length (sheet_writes w))))
    (loop_request id name p st) = Some e3 ->
  fst (update_attempt E id name p st w) = inl e3.
Proof.
  intros Hcred Hget H1 H2 H3.
  unfold update_attempt. rewrite bind_run.
  unfold new_GoogleSheetsClient at 1. rewrite Hcred. unfold call.
  rewrite (updateProfileStatus_verified E (mkClient id name false 3)
             (record_client w) (row p) (status_value st) None eq_refl Hget).
  change (update_request (mkClient id name false 3) (row p)
            (status_value st) (or_default 0.9%Q None))
    with (loop_request id name p st).
  cbn [maxRetries spreadsheetId].
  rewrite (attempt_retried E _ _ _ _ _ _ e1); [|exact H1|lia].
  rewrite (attempt_retried E _ _ _ _ _ _ e2);
    [|rewrite writes_after_retry; exact H2|lia].
  rewrite (attempt_exhausted E _ _ _ _ _ _ e3);
    [|rewrite !writes_after_retry; exact H3|lia].
  reflexivity.
Qed.

Lemma main_iteration_navigations (p : Profile) (w : world) :
  List.length (navigations (snd (main_iteration E id name [] p w)))
  = S (List.length (navigations w)).
Proof.
  destruct (main_iteration_run [] p w) as (w1 & new & lines & Hrun & Hnav & _).
  rewrite Hrun. cbn [snd]. rewrite Hnav, length_app. simpl. lia.
Qed.

(** Every processed profile has the outcome of its update among the
    lines of the loop: the update, or the lines of a failure. *)
Lemma loop_lines_reports (profiles : list Profile) (w : world) :
  Forall (fun p' => exists st,
              status p' = Some st
              /\ (In (LogUpdatedRow (row p') (status_value st))
                     (loop_lines E id name profiles w)
                  \/ exists error,
                       incl (failure_lines p' st error)
                         (loop_lines E id name profiles w)))
    (expected_results E (List.length (navigations w)) profiles).
Proof.
  revert w; induction profiles as [|p rest IH]; intros w; [constructor|].
  specialize (IH (snd (main_iteration E id name [] p w))).
  rewrite main_iteration_navigations in IH.
  assert (Hrest :
    Forall (fun p' => exists st,
                status p' = Some st
                /\ (In (LogUpdatedRow (row p') (status_value st))
                       (loop_lines E id name (p :: rest) w)
                    \/ exists error,
                         incl (failure_lines p' st error)
                           (loop_lines E id name (p :: rest) w)))
      (expected_results E (S (List.length (navigations w))) rest)).
  { eapply Forall_impl; [|exact IH].
    intros p' (st & Hst & [Hin|(error & Hin)]); exists st;
      (split; [exact Hst|]); cbn [loop_lines].
    - left. apply in_or_app; right; exact Hin.
    - right. exists error. intros l Hl. apply in_or_app; right.
      apply Hin; exact Hl. }
  cbn [expected_results].
  destruct (processed_at E (List.length (navigations w)) p) as [p'|] eqn:Hat;
    [|exact Hrest].
  constructor; [|exact Hrest].
  destruct (processed_at_inv _ _ _ Hat) as [st ->].
  exists st. split; [reflexivity|].
  cbn [loop_lines]. unfold iteration_lines.
  rewrite Hat, status_is_truthy_set.
  destruct (fst (update_attempt E id name
                   (mkProfile (url p) (Some st) (row p)) st
                   (record_navigation (url p) w))) as [error|[]];
    cbn [update_lines].
  - right. exists error. intros l Hl.
    apply in_or_app; left. apply in_or_app; left. exact Hl.
  - left. apply in_or_app; left. left. reflexivity.
Qed.

End MainRuns.

(** ** Loading the profiles *)

Section Rows.

Lemma row_to_profile_some (r : list string) (k : Z) (p : Profile) :
  row_to_profile r k = Some p ->
  exists cell rest,
    r = cell :: rest /\ holds_url cell
    /\ p = mkProfile (normalizeLinkedInUrl cell) None (k + 2).
Proof.
  unfold row_to_profile, holds_url. destruct r as [|cell rest]; [discriminate|].
  destruct (JsString.truthy cell) eqn:Ht; simpl; [|discriminate].
  destruct (JsString.trim_is_empty cell) eqn:Hb; [discriminate|].
  intros [= <-]. exists cell, rest. repeat split; assumption.
Qed.

Lemma row_to_profile_holds (cell : string) (rest : list string) (k : Z) :
  holds_url cell ->
  row_to_profile (cell :: rest) k
  = Some (mkProfile (normalizeLinkedInUrl cell) None (k + 2)).
Proof.
  intros [Ht Hb]. unfold row_to_profile. rewrite Ht, Hb. reflexivity.
Qed.

Lemma profiles_from_cons (k : Z) (r : list string)
    (rows : list (list string)) :
  profiles_from k (r :: rows)
  = match row_to_profile r k with
    | Some p => p :: profiles_from (k + 1) rows
    | None => profiles_from (k + 1) rows
    end.
Proof. reflexivity. Qed.

(** Every profile comes from the row at its own position. *)
Lemma profiles_from_sound (rows : list (list string)) (k : Z) :
  Forall (fun p => exists i cell rest,
              nth_error rows i = Some (cell :: rest)
              /\ holds_url cell
              /\ p = mkProfile (normalizeLinkedInUrl cell) None
                       (k + Z.of_nat i + 2))
    (profiles_from k rows).
Proof.
  revert k; induction rows as [|r rows IH]; intros k; [constructor|].
  rewrite profiles_from_cons.
  assert (Htail : Forall (fun p => exists i cell rest,
              nth_error (r :: rows) i = Some (cell :: rest)
              /\ holds_url cell
              /\ p = mkProfile (normalizeLinkedInUrl cell) None
                       (k + Z.of_nat i + 2))
            (profiles_from (k + 1) rows)).
  { eapply Forall_impl; [|apply IH].
    intros p (i & cell & rest & Hnth & Hc & ->).
    exists (S i), cell, rest.
    split; [exact Hnth|split; [exact Hc|f_equal; lia]]. }
  destruct (row_to_profile r k) as [p|] eqn:Hr; [|exact Htail].
  constructor; [|exact Htail].
  apply row_to_profile_some in Hr as (cell & rest & -> & Hc & ->).
  exists O, cell, rest.
  split; [reflexivity|split; [exact Hc|f_equal; simpl; lia]].
Qed.

(** Every row that holds a URL yields the profile of its position:
    the rows skipped before it do not shift its number. *)
Lemma profiles_from_complete (rows : list (list string)) (k : Z) (i : nat)
    (cell : string) (rest : list string) :
  nth_error rows i = Some (cell :: rest) ->
  holds_url cell ->
  In (mkProfile (normalizeLinkedInUrl cell) None (k + Z.of_nat i + 2))
     (profiles_from k rows).
Proof.
  revert k i; induction rows as [|r rows IH]; intros k i Hnth Hc.
  - destruct i; discriminate.
  - rewrite profiles_from_cons. destruct i as [|i]; simpl in Hnth.
    + injection Hnth as ->. rewrite (row_to_profile_holds _ _ _ Hc).
      left. f_equal; simpl; lia.
    + specialize (IH (k + 1) i Hnth Hc).
      replace (k + Z.of_nat (S i) + 2) with (k + 1 + Z.of_nat i + 2) by lia.
      destruct (row_to_profile r k); [right|]; exact IH.
Qed.

(** The row numbers increase strictly and start at [k + 2] or later. *)
Lemma profiles_from_sorted (rows : list (list string)) (k : Z) :
  Forall (fun p => k + 2 <= row p) (profiles_from k rows)
  /\ StronglySorted Z.lt (map row (profiles_from k rows)).
Proof.
  revert k; induction rows as [|r rows IH]; intros k.
  - split; constructor.
  - rewrite profiles_from_cons. destruct (IH (k + 1)) as [Hlow Hsorted].
    assert (Hlow' : Forall (fun p => k + 2 < row p)
                      (profiles_from (k + 1) rows)).
    { eapply Forall_impl; [|exact Hlow]. simpl; intros; lia. }
    destruct (row_to_profile r k) as [p|] eqn:Hr.
    + apply row_to_profile_some in Hr as (cell & rest & _ & _ & ->).
      split.
      * constructor; [simpl; lia|].
        eapply Forall_impl; [|exact Hlow']. simpl; intros; lia.
      * simpl. constructor; [exact Hsorted|].
        apply Forall_map. exact Hlow'.
    + split; [|exact Hsorted].
      eapply Forall_impl; [|exact Hlow']. simpl; intros; lia.
Qed.

End Rows.

Section LoadedProfiles.

Variable E : env.

Lemma getProfiles_run (c : GoogleSheetsClient) (w : world)
    (rows : list (list string)) :
  initialized c = true
  \/ spreadsheets_get E (List.length (sheet_gets w)) (spreadsheetId c)
     = None ->
  values_get E (List.length (sheet_reads w)) (sheetName c ++ "!A2:A")
  = inr (Some rows) ->
  exists c' w',
    getProfiles E (c, w) = (inr (profiles_of_rows rows), (c', w'))
    /\ sheet_reads w'
       = (sheet_reads w ++ [(sheetName c ++ "!A2:A")%string])%list.
Proof.
  intros Hinit Hread. unfold getProfiles.
  rewrite bind_run. unfold this at 1, gets at 1; cbn [fst].
  destruct (initialized c) eqn:Hi; cbn [negb].
  - rewrite bind_run. unfold ret at 1.
    rewrite rethrow_is_identity, bind_run.
    unfold perform at 1, sheets_values_get; cbn [fst snd].
    rewrite Hread. exists c, (record_read (sheetName c ++ "!A2:A") w).
    split; [|reflexivity]. destruct rows; reflexivity.
  - destruct Hinit as [Hinit|Hget]; [discriminate|].
    rewrite bind_run, (init_succeeds E c w Hget).
    rewrite rethrow_is_identity, bind_run.
    unfold perform at 1, sheets_values_get; cbn [fst snd].
    change (sheet_reads (record_get (spreadsheetId c) w))
      with (sheet_reads w).
    rewrite Hread.
    exists (verified c),
           (record_read (sheetName c ++ "!A2:A")
              (record_get (spreadsheetId c) w)).
    split; [|reflexivity]. destruct rows; reflexivity.
Qed.

(** A processed profile keeps the URL and the row of the one it was
    made from. *)
Lemma expected_results_keep (profiles : list Profile) (i : nat) :
  Forall (fun p' => exists p,
              In p profiles /\ url p' = url p /\ row p' = row p)
    (expected_results E i profiles).
Proof.
  revert i; induction profiles as [|p rest IH]; intros i; [constructor|].
  assert (Htail : Forall (fun p' => exists q,
                      In q (p :: rest) /\ url p' = url q /\ row p' = row q)
                    (expected_results E (S i) rest)).
  { eapply Forall_impl; [|apply IH].
    intros p' (q & Hin & Hu & Hr). exists q; simpl; auto. }
  simpl. destruct (processed_at E i p) as [p'|] eqn:Hat; [|exact Htail].
  constructor; [|exact Htail].
  apply processed_at_inv in Hat as [st ->].
  exists p; simpl; auto.
Qed.

(** C7: when the read of column A from row 2 on succeeds, [getProfiles]
    returns one profile for each row that holds a URL, numbered by the
    position of that row in the sheet (its index in the range plus 2)
    whatever rows were skipped before it; the numbers increase strictly
    and are at least 2.  Afterwards [processProfile] and the loop of
    [main] leave the URL and the row of a profile as they were loaded. *)
Theorem getProfiles_rows_are_sheet_positions
    (c : GoogleSheetsClient) (w : world) (rows : list (list string)) :
  initialized c = true
  \/ spreadsheets_get E (List.length (sheet_gets w)) (spreadsheetId c)
     = None ->
  values_get E (List.length (sheet_reads w)) (sheetName c ++ "!A2:A")
  = inr (Some rows) ->
  (exists c' w',
      getProfiles E (c, w) = (inr (profiles_of_rows rows), (c', w')))
  /\ Forall (fun p => exists i cell rest,
                 nth_error rows i = Some (cell :: rest)
                 /\ holds_url cell
                 /\ p = mkProfile (normalizeLinkedInUrl cell) None
                          (Z.of_nat i + 2))
       (profiles_of_rows rows)
  /\ (forall i cell rest,
         nth_error rows i = Some (cell :: rest) ->
         holds_url cell ->
         In (mkProfile (normalizeLinkedInUrl cell) None (Z.of_nat i + 2))
            (profiles_of_rows rows))
  /\ StronglySorted Z.lt (map row (profiles_of_rows rows))
  /\ Forall (fun p => 2 <= row p) (profiles_of_rows rows)
  /\ (forall p w0,
         match processProfile E p w0 with
         | (inr p', _) => url p' = url p /\ row p' = row p
         | (inl _, _) => True
         end)
  /\ (forall id name profiles w0,
         exists processed w1,
           main_loop E id name [] profiles w0 = (inr processed, w1)
           /\ Forall (fun p' => exists p,
                          In p profiles
                          /\ url p' = url p /\ row p' = row p)
                processed).
Proof.
  intros Hinit Hread. repeat apply conj.
  - destruct (getProfiles_run c w rows Hinit Hread) as (c' & w' & Hrun & _).
    eauto.
  - apply (profiles_from_sound rows 0).
  - intros i cell rest Hnth Hc.
    apply (profiles_from_complete rows 0 i cell rest Hnth Hc).
  - apply (profiles_from_sorted rows 0).
  - apply (profiles_from_sorted rows 0).
  - intros p w0. pose proof (processProfile_run E p w0) as Hp.
    destruct (processed_at E (List.length (navigations w0)) p)
      as [p'|] eqn:Hat.
    + rewrite Hp. apply processed_at_inv in Hat as [st ->].
      split; reflexivity.
    + destruct Hp as [e ->]. exact I.
  - intros id name profiles w0.
    destruct (main_loop_run E id name profiles [] w0)
      as (w1 & new & lines & Hrun & _).
    eexists _, w1. split; [exact Hrun|].
    apply expected_results_keep.
Qed.

End LoadedProfiles.

Lemma getProfiles_rows_witness :
  (exists c' w',
      getProfiles Sample.first_two_fail (Sample.client, empty_world)
      = (inr [mkProfile "https://www.linkedin.com/in/a" None 2;
              mkProfile "linkedin.com/in/b" None 5], (c', w')))
  /\ StronglySorted Z.lt [2; 5]
  /\ holds_url "linkedin.com/b?x=1"
  /\ In (mkProfile "linkedin.com/in/b" None 5)
       [mkProfile "https://www.linkedin.com/in/a" None 2;
        mkProfile "linkedin.com/in/b" None 5].
Proof.
  assert (Hcell : holds_url "linkedin.com/b?x=1") by (split; reflexivity).
  destruct (getProfiles_rows_are_sheet_positions Sample.first_two_fail
              Sample.client empty_world
              [["https://www.linkedin.com/in/a/"]; []; [" "];
               ["linkedin.com/b?x=1"]]
              (or_introl eq_refl) eq_refl)
    as (Hrun & _ & Hall & Hsorted & _).
  split; [exact Hrun|]. split; [exact Hsorted|]. split; [exact Hcell|].
  exact (Hall 3%nat "linkedin.com/b?x=1" [] eq_refl Hcell).
Defined.

(** ** The claims about a run *)

(** C6: whatever the pages and the store do, the loop of [main] returns
    normally after navigating to every profile in order: a profile whose
    processing throws is left out of [results], the throw is caught and
    printed, and the next ones are still processed; a sheet update is
    tried, with a client of its own, for every profile that was
    processed, whether earlier updates failed or not, and when the store
    is reachable a write for its row is sent.  A sheet update that
    throws is caught and printed as well: the inner [try] then returns
    normally after printing the message of the error, or the hint and
    the update that would have been made when the message tells that the
    sheet is not editable.  The console of the whole run holds, for
    every profile in order, the error of its processing or the outcome
    of its update, and the wait; so every processed profile has its
    update or the failure of its update on the console. *)
Theorem main_loop_survives_failures
    (E : env) (id name : string) (profiles results : list Profile)
    (w : world) :
  let processed :=
    expected_results E (List.length (navigations w)) profiles in
  exists w',
    main_loop E id name results profiles w
    = (inr (results ++ processed)%list, w')
    /\ navigations w' = (navigations w ++ map url profiles)%list
    /\ clients_created w' = (clients_created w + List.length processed)%nat
    /\ Forall (fun q => In (LogErrorProcessing (url q)) (console w'))
         (unprocessed E (List.length (navigations w)) profiles)
    /\ (store_reachable E ->
        Forall (fun p' => exists st,
                    status p' = Some st
                    /\ In (loop_request id name p' st) (sheet_writes w'))
          processed)
    /\ console w' = (console w ++ loop_lines E id name profiles w)%list
    /\ Forall (fun p' => exists st,
                   status p' = Some st
                   /\ (In (LogUpdatedRow (row p') (status_value st))
                          (console w')
                       \/ exists error,
                            incl (failure_lines p' st error) (console w')))
         processed
    /\ (forall p st w0 error,
           fst (update_attempt E id name p st w0) = inl error ->
           exists w1,
             try_update_sheet E id name p st w0 = (inr tt, w1)
             /\ console w1
                = (console w0 ++ failure_lines p st error)%list
             /\ (In (LogErrorUpdating (message error)) (console w1)
                 \/ (In LogSheetNotEditable (console w1)
                     /\ In (LogWouldUpdate (row p) (status_value st))
                          (console w1)))).
Proof.
  intros processed.
  destruct (main_loop_run E id name profiles results w)
    as (w' & new & lines & Hrun & Hnav & Hcl & _ & Hw & _ & Hsent
        & Hcon & Hlog).
  pose proof (main_loop_console E id name profiles results w) as Hlines.
  rewrite Hrun in Hlines. cbn [snd] in Hlines.
  exists w'.
  split; [exact Hrun|]. split; [exact Hnav|]. split; [exact Hcl|].
  split; [|split; [|split; [exact Hlines|split]]].
  - eapply Forall_impl; [|exact Hlog].
    intros q Hin. rewrite Hcon. apply in_or_app; auto.
  - intros Hreach. eapply Forall_impl; [|exact (Hsent Hreach)].
    intros p' (st & Hst & Hin). exists st; split; [exact Hst|].
    rewrite Hw. apply in_or_app; auto.
  - eapply Forall_impl; [|exact (loop_lines_reports E id name profiles w)].
    intros p' (st & Hst & [Hin|(error & Hin)]); exists st;
      (split; [exact Hst|]); rewrite Hlines.
    + left. apply in_or_app; right; exact Hin.
    + right. exists error. intros l Hl. apply in_or_app; right.
      apply Hin; exact Hl.
  - intros p st w0 error Hthrow.
    destruct (try_update_sheet_lines E id name p st w0)
      as (w1 & Htry & Hcon1 & _).
    rewrite Hthrow in Hcon1. cbn [update_lines] in Hcon1.
    exists w1. split; [exact Htry|]. split; [exact Hcon1|].
    rewrite Hcon1. unfold failure_lines.
    destruct (JsString.includes "Login Required" (message error)
              || JsString.includes "insufficient permission"
                   (message error)).
    + right. split; apply in_or_app; right; simpl; auto.
    + left. apply in_or_app; right; simpl; auto.
Qed.

Lemma main_loop_survives_failures_witness :
  let refused := mkError "Request had insufficient permission" (Some 403) in
  let second := mkProfile "https://www.linkedin.com/in/satyanadella"
                  (Some NOT_CONNECTED) 3 in
  let third := mkProfile "https://www.linkedin.com/in/sundarpichai"
                 (Some NOT_CONNECTED) 4 in
  let opened :=
    record_navigation "https://www.linkedin.com/in/satyanadella"
      (record_navigation "https://www.linkedin.com/in/williamhgates"
         empty_world) in
  store_reachable Demo.not_editable_at_first
  /\ fst (update_attempt Demo.not_editable_at_first "sheet-id" "Sheet1"
            second NOT_CONNECTED opened) = inl refused
  /\ (exists w1,
        try_update_sheet Demo.not_editable_at_first "sheet-id" "Sheet1"
          second NOT_CONNECTED opened = (inr tt, w1)
        /\ console w1
           = [LogSheetNotEditable; LogWouldUpdate 3 "not_connected"])
  /\ exists w',
      main_loop Demo.not_editable_at_first "sheet-id" "Sheet1" []
        Sample.profiles empty_world
      = (inr [second; third], w')
      /\ navigations w' = map url Sample.profiles
      /\ clients_created w' = 2%nat
      /\ Forall (fun q => In (LogErrorProcessing (url q)) (console w'))
           [mkProfile "https://www.linkedin.com/in/williamhgates" None 2]
      /\ Forall (fun p' => exists st,
                     status p' = Some st
                     /\ In (loop_request "sheet-id" "Sheet1" p' st)
                          (sheet_writes w'))
           [second; third]
      /\ console w'
         = [LogErrorProcessing "https://www.linkedin.com/in/williamhgates";
            LogWaiting;
            LogSheetNotEditable; LogWouldUpdate 3 "not_connected";
            LogWaiting;
            LogUpdatedRow 4 "not_connected"; LogWaiting].
Proof.
  intros refused second third opened.
  assert (Hreach : store_reachable Demo.not_editable_at_first).
  { split; intros; reflexivity. }
  assert (Hthrow :
    fst (update_attempt Demo.not_editable_at_first "sheet-id" "Sheet1"
           second NOT_CONNECTED opened) = inl refused) by reflexivity.
  destruct (main_loop_survives_failures Demo.not_editable_at_first
              "sheet-id" "Sheet1" Sample.profiles [] empty_world)
    as (w' & Hrun & Hnav & Hcl & Hlog & Hsent & Hcon & _ & Hcatch).
  split; [exact Hreach|]. split; [exact Hthrow|].
  split.
  - destruct (Hcatch second NOT_CONNECTED opened refused Hthrow)
      as (w1 & Htry & Hcon1 & _).
    exists w1. split; [exact Htry|exact Hcon1].
  - exists w'.
    split; [exact Hrun|]. split; [exact Hnav|]. split; [exact Hcl|].
    split; [exact Hlog|]. split; [exact (Hsent Hreach)|exact Hcon].
Defined.

(** C10: every write that the loop of [main] sends carries, next to the
    status of a profile at that profile's row, the confidence cell "0.9":
    the call omits the confidence, so the default of
    [updateProfileStatus] is what gets written.  The confidence of the
    classifier is not used: whenever it is not 0.9, that is 0.5 or 0.95,
    its text differs from the cell. *)
Theorem main_loop_writes_default_confidence
    (E : env) (id name : string) (profiles results : list Profile)
    (w : world) :
  (exists new,
      sheet_writes (snd (main_loop E id name results profiles w))
      = (sheet_writes w ++ new)%list
      /\ Forall (fun request => exists p st,
                     In p profiles
                     /\ req_range request = status_range name (row p)
                     /\ req_values request = [[status_value st; "0.9"]])
           new)
  /\ JsNumber.toString (or_default 0.9%Q None) = "0.9"
  /\ (forall evaluation,
         cr_confidence (determineConnectionStatus evaluation) <> 0.9%Q ->
         JsNumber.toString
           (cr_confidence (determineConnectionStatus evaluation)) <> "0.9").
Proof.
  repeat apply conj.
  - destruct (main_loop_run E id name profiles results w)
      as (w' & new & lines & Hrun & _ & _ & _ & Hw & Hall & _).
    exists new. rewrite Hrun. split; [exact Hw|].
    eapply Forall_impl; [|exact Hall].
    intros request (p & st & Hin & ->). exists p, st. repeat split; auto.
  - reflexivity.
  - intros evaluation.
    destruct (classifier_rows evaluation) as [H|[H|H]];
      rewrite H; intros Hne;
      first [ now (exfalso; apply Hne)
            | vm_compute; intros Heq; discriminate Heq ].
Qed.

Lemma main_loop_default_confidence_witness :
  cr_confidence (determineConnectionStatus Sample.pending_page) <> 0.9%Q
  /\ JsNumber.toString
       (cr_confidence (determineConnectionStatus Sample.pending_page))
     <> "0.9".
Proof.
  assert (H : cr_confidence (determineConnectionStatus Sample.pending_page)
              <> 0.9%Q) by discriminate.
  split; [exact H|].
  exact (proj2 (proj2 (main_loop_writes_default_confidence
                         Sample.always_fails "sheet-id" "Sheet1"
                         Sample.profiles [] empty_world))
           Sample.pending_page H).
Defined.

(** The lines of the export: the header, then one line per item. *)
Lemma csvContent_lines (items : list ResultItem) :
  items <> [] ->
  csvContent items
  = JsString.join LF
      ("LinkedIn URL,Connection Status"
       :: map (fun item => item_url item ++ "," ++ item_status item) items).
Proof.
  intros Hne. unfold csvContent.
  destruct items as [|item rest]; [congruence|]. reflexivity.
Qed.

(** C5, as the code has it: every write that the loop of [main] sends
    to the store is a write of a status and the confidence "0.9" at the
    row of a profile of the run, at least one for every processed
    profile when the store is reachable, and the loop writes no file,
    whatever the store answers.  An update that throws is caught by the
    inner [try], which writes no file and prints the failure: the
    message of the error, or the hint and the update that would have
    been made when the message tells that the sheet is not editable.
    That is what happens to a write that keeps failing: with a client
    that is created and verified and three rejected attempts, the update
    throws the error of the third.  The console of the run holds, for
    every profile in order, the error of its processing or the outcome
    of its update, and the wait.  [exportResultsToCSV], which the loop
    does not call, writes one file whose content is the header line
    followed by one line [url,status] per item. *)
Theorem main_loop_writes_and_never_exports
    (E : env) (id name : string) (profiles results : list Profile)
    (w : world) (items : list ResultItem) :
  (exists w' new,
      snd (main_loop E id name results profiles w) = w'
      /\ files w' = files w
      /\ sheet_writes w' = (sheet_writes w ++ new)%list
      /\ Forall (fun request => exists p st,
                     In p profiles /\ request = loop_request id name p st)
           new
      /\ (store_reachable E ->
          Forall (fun p' => exists st,
                      status p' = Some st
                      /\ In (loop_request id name p' st) new)
            (expected_results E (List.length (navigations w)) profiles))
      /\ console w' = (console w ++ loop_lines E id name profiles w)%list)
  /\ (forall p st w0 error,
         fst (update_attempt E id name p st w0) = inl error ->
         exists w1,
           try_update_sheet E id name p st w0 = (inr tt, w1)
           /\ files w1 = files w0
           /\ console w1 = (console w0 ++ failure_lines p st error)%list)
  /\ (forall p st w0 e1 e2 e3,
         initializeClient_error E (clients_created w0) = None ->
         spreadsheets_get E (List.length (sheet_gets w0)) id = None ->
         values_update E (List.length (sheet_writes w0))
           (loop_request id name p st) = Some e1 ->
         values_update E (S (List.length (sheet_writes w0)))
           (loop_request id name p st) = Some e2 ->
         values_update E (S (S (List.length (sheet_writes w0))))
           (loop_request id name p st) = Some e3 ->
         fst (update_attempt E id name p st w0) = inl e3)
  /\ exportResultsToCSV E items w
     = (inr tt,
        record_file (csvFilename (now_iso E (List.length (files w))))
          (csvContent items) w)
  /\ export_produced (snd (exportResultsToCSV E items w)) items
  /\ (items <> [] ->
      csvContent items
      = JsString.join LF
          ("LinkedIn URL,Connection Status"
           :: map (fun item => item_url item ++ "," ++ item_status item)
                items)).
Proof.
  repeat apply conj.
  - destruct (main_loop_run E id name profiles results w)
      as (w' & new & lines & Hrun & _ & _ & Hf & Hw & Hall & Hsent & _).
    pose proof (main_loop_console E id name profiles results w) as Hlines.
    rewrite Hrun in Hlines. cbn [snd] in Hlines.
    exists w', new. rewrite Hrun. repeat split; auto.
  - intros p st w0 error Hthrow.
    destruct (try_update_sheet_lines E id name p st w0)
      as (w1 & Htry & Hcon1 & Hf1).
    rewrite Hthrow in Hcon1. cbn [update_lines] in Hcon1.
    exists w1. split; [exact Htry|]. split; [exact Hf1|exact Hcon1].
  - intros p st w0 e1 e2 e3. apply update_attempt_rejected.
  - reflexivity.
  - eexists. simpl. apply in_or_app. right. left. reflexivity.
  - apply csvContent_lines.
Qed.

Lemma main_loop_writes_and_never_exports_witness :
  let first := mkProfile "https://www.linkedin.com/in/williamhgates"
                 (Some PENDING) 2 in
  let opened :=
    record_navigation "https://www.linkedin.com/in/williamhgates"
      empty_world in
  store_reachable Sample.always_fails
  /\ [mkItem "https://www.linkedin.com/in/a" "pending";
      mkItem "https://www.linkedin.com/in/b" "not_connected"] <> []
  /\ (exists new,
         sheet_writes
           (snd (main_loop Sample.always_fails "sheet-id" "Sheet1" []
                   Sample.profiles empty_world))
         = new
         /\ Forall (fun p' => exists st,
                        status p' = Some st
                        /\ In (loop_request "sheet-id" "Sheet1" p' st) new)
              [first;
               mkProfile "https://www.linkedin.com/in/satyanadella"
                 (Some PENDING) 3;
               mkProfile "https://www.linkedin.com/in/sundarpichai"
                 (Some PENDING) 4])
  /\ files (snd (main_loop Sample.always_fails "sheet-id" "Sheet1" []
                   Sample.profiles empty_world)) = []
  /\ console (snd (main_loop Sample.always_fails "sheet-id" "Sheet1" []
                     Sample.profiles empty_world))
     = [LogErrorUpdating "attempt 2"; LogWaiting;
        LogErrorUpdating "attempt 5"; LogWaiting;
        LogErrorUpdating "attempt 8"; LogWaiting]
  /\ fst (update_attempt Sample.always_fails "sheet-id" "Sheet1" first
            PENDING opened) = inl (mkError "attempt 2" None)
  /\ (exists w1,
         try_update_sheet Sample.always_fails "sheet-id" "Sheet1" first
           PENDING opened = (inr tt, w1)
         /\ files w1 = []
         /\ console w1 = [LogErrorUpdating "attempt 2"])
  /\ csvContent [mkItem "https://www.linkedin.com/in/a" "pending";
                 mkItem "https://www.linkedin.com/in/b" "not_connected"]
     = JsString.join LF
         ["LinkedIn URL,Connection Status";
          "https://www.linkedin.com/in/a,pending";
          "https://www.linkedin.com/in/b,not_connected"].
Proof.
  intros first opened.
  assert (Hreach : store_reachable Sample.always_fails).
  { split; intros; reflexivity. }
  assert (Hitems : [mkItem "https://www.linkedin.com/in/a" "pending";
                    mkItem "https://www.linkedin.com/in/b" "not_connected"]
                   <> []) by discriminate.
  destruct (main_loop_writes_and_never_exports
              Sample.always_fails "sheet-id" "Sheet1"
              Sample.profiles [] empty_world
              [mkItem "https://www.linkedin.com/in/a" "pending";
               mkItem "https://www.linkedin.com/in/b" "not_connected"])
    as ((w' & new & Hrun & Hf & Hw & _ & Hsent & Hcon) & Hcatch & Hthrow
        & _ & _ & Hlines).
  pose proof (Hthrow first PENDING opened
                (mkError "attempt 0" None) (mkError "attempt 1" None)
                (mkError "attempt 2" None)
                eq_refl eq_refl eq_refl eq_refl eq_refl) as Hthird.
  split; [exact Hreach|]. split; [exact Hitems|].
  split; [exists new; split; [rewrite Hrun; exact Hw|exact (Hsent Hreach)]|].
  split; [rewrite Hrun; exact Hf|].
  split; [rewrite Hrun; exact Hcon|].
  split; [exact Hthird|].
  split; [|exact (Hlines Hitems)].
  destruct (Hcatch first PENDING opened (mkError "attempt 2" None) Hthird)
    as (w1 & Htry & Hf1 & Hcon1).
  exists w1. split; [exact Htry|]. split; [exact Hf1|exact Hcon1].
Defined.

(** C5 as stated fails when the store rejects every write: the profile is
    processed, its three writes are all rejected, and the run ends
    without any export file. *)
Lemma main_loop_no_export_on_persistent_failure :
  fst Sample.rejected_run
  = inr [mkProfile "https://www.linkedin.com/in/williamhgates"
           (Some PENDING) 2]
  /\ List.length (sheet_writes (snd Sample.rejected_run)) = 3%nat
  /\ ~ (write_accepted Sample.always_fails (snd Sample.rejected_run)
          (status_range "Sheet1" 2)
        \/ export_produced (snd Sample.rejected_run)
             [mkItem "https://www.linkedin.com/in/williamhgates"
                "pending"]).
Proof.
  repeat apply conj; [reflexivity|reflexivity|].
  intros [(i & request & _ & _ & Hacc)|(filename & Hin)].
  - discriminate Hacc.
  - exact Hin.
Qed.

(** * More of the code *)

(** ** The retry loop for any number of attempts *)

Section RetryLoop.

Variable E : env.

Lemma attempt_loop_all_rejected (request : UpdateRequest)
    (failure : nat -> ApiError) (limit : nat) (c : GoogleSheetsClient) :
  (forall i, values_update E i request = Some (failure i)) ->
  forall (remaining attempt : nat) (w : world),
    (attempt + remaining = limit)%nat ->
    exists w',
      attempt_loop E request limit (S remaining) attempt (c, w)
      = (inl (failure (List.length (sheet_writes w) + remaining)%nat),
         (c, w'))
      /\ sheet_writes w'
         = (sheet_writes w ++ repeat request (S remaining))%list
      /\ timeouts w' = (timeouts w ++ backoff attempt remaining)%list
      /\ sheet_gets w' = sheet_gets w.
Proof.
  intros Hfail remaining.
  induction remaining as [|remaining IH]; intros attempt w Hsum.
  - rewrite (attempt_exhausted E _ _ _ _ _ _ _ (Hfail _)); [|lia].
    exists (record_write request w). rewrite Nat.add_0_r.
    unfold backoff; simpl. rewrite app_nil_r. repeat split.
  - rewrite (attempt_retried E _ _ _ _ _ _ _ (Hfail _)); [|lia].
    destruct (IH (S attempt)
                (record_timeout (Z.of_nat attempt * 1000)
                   (record_write request w)))
      as (w' & Hrun & Hw & Ht & Hg); [lia|].
    exists w'. rewrite Hrun, Hw, Ht, Hg, writes_after_retry.
    unfold backoff. simpl. rewrite <- !app_assoc. simpl.
    repeat split. do 3 f_equal. lia.
Qed.

Lemma attempt_loop_accepted_after (request : UpdateRequest)
    (limit : nat) (c : GoogleSheetsClient) :
  forall (rejected remaining attempt : nat) (w : world),
    (attempt + rejected <= limit)%nat ->
    (rejected <= remaining)%nat ->
    (forall i, (i < rejected)%nat ->
               values_update E (List.length (sheet_writes w) + i)%nat request
               <> None) ->
    values_update E (List.length (sheet_writes w) + rejected)%nat request
    = None ->
    exists w',
      attempt_loop E request limit (S remaining) attempt (c, w)
      = (inr tt, (c, w'))
      /\ sheet_writes w'
         = (sheet_writes w ++ repeat request (S rejected))%list
      /\ timeouts w' = (timeouts w ++ backoff attempt rejected)%list
      /\ sheet_gets w' = sheet_gets w.
Proof.
  induction rejected as [|rejected IH];
    intros remaining attempt w Hle Hrem Hrej Hacc.
  - rewrite Nat.add_0_r in Hacc. rewrite (attempt_accepted E _ _ _ _ _ _ Hacc).
    exists (record_write request w). unfold backoff; simpl.
    rewrite app_nil_r. repeat split.
  - destruct remaining as [|remaining]; [lia|].
    destruct (values_update E (List.length (sheet_writes w)) request)
      as [e|] eqn:Hfirst.
    2:{ exfalso. apply (Hrej O); [lia|]. rewrite Nat.add_0_r. exact Hfirst. }
    rewrite (attempt_retried E _ _ _ _ _ _ e Hfirst); [|lia].
    destruct (IH remaining (S attempt)
                (record_timeout (Z.of_nat attempt * 1000)
                   (record_write request w)))
      as (w' & Hrun & Hw & Ht & Hg).
    + lia.
    + lia.
    + intros i Hi. rewrite writes_after_retry.
      replace (S (List.length (sheet_writes w)) + i)%nat
        with (List.length (sheet_writes w) + S i)%nat by lia.
      apply Hrej. lia.
    + rewrite writes_after_retry.
      replace (S (List.length (sheet_writes w)) + rejected)%nat
        with (List.length (sheet_writes w) + S rejected)%nat by lia.
      exact Hacc.
    + exists w'. rewrite Hrun, Hw, Ht, Hg.
      unfold backoff. simpl. rewrite <- !app_assoc. simpl.
      repeat split.
Qed.

End RetryLoop.

Section RetrierMore.

Variable E : env.

(** X1: whatever the number of attempts the client allows, as long as it
    is positive, a store that rejects every write gets exactly that many
    write calls, each but the last followed by a wait that grows by one
    second per attempt, and the error of the last call is thrown. *)
Theorem updateProfileStatus_exhausts_every_attempt
    (c : GoogleSheetsClient) (w : world) (rowNumber : Z) (st : string)
    (confidence : option Q) (failure : nat -> ApiError) :
  let request :=
    update_request c rowNumber st (or_default 0.9%Q confidence) in
  maxRetries c <> O ->
  initialized c = true
  \/ spreadsheets_get E (List.length (sheet_gets w)) (spreadsheetId c)
     = None ->
  (forall i, values_update E i request = Some (failure i)) ->
  exists c' w',
    updateProfileStatus E rowNumber st confidence (c, w)
    = (inl (failure (List.length (sheet_writes w) + maxRetries c - 1)%nat),
       (c', w'))
    /\ sheet_writes w'
       = (sheet_writes w ++ repeat request (maxRetries c))%list
    /\ timeouts w' = (timeouts w ++ backoff 1 (maxRetries c - 1))%list.
Proof.
  intros request Hpos Hinit Hfail.
  destruct (updateProfileStatus_enters_loop E c w rowNumber st confidence
              Hinit) as (c1 & w1 & Hrun & Hw & Ht).
  fold request in Hrun.
  destruct (maxRetries c) as [|limit] eqn:Hmax; [congruence|].
  destruct (attempt_loop_all_rejected E request failure (S limit) c1 Hfail
              limit 1%nat w1 eq_refl) as (w' & Hloop & Hw' & Ht' & _).
  exists c1, w'. rewrite Hrun, Hloop, Hw', Ht', Hw, Ht.
  repeat split. do 3 f_equal. lia.
  simpl. rewrite Nat.sub_0_r. reflexivity.
Qed.

(** X2: when the store rejects the first [rejected] writes and accepts
    the next one, and the client allows more attempts than that,
    [updateProfileStatus] returns normally after [rejected + 1] write
    calls and [rejected] waits of 1000 ms, 2000 ms and so on; nothing is
    sent after the accepted write. *)
Theorem updateProfileStatus_stops_at_first_accepted_write
    (c : GoogleSheetsClient) (w : world) (rowNumber : Z) (st : string)
    (confidence : option Q) (rejected : nat) :
  let request :=
    update_request c rowNumber st (or_default 0.9%Q confidence) in
  (rejected < maxRetries c)%nat ->
  initialized c = true
  \/ spreadsheets_get E (List.length (sheet_gets w)) (spreadsheetId c)
     = None ->
  (forall i, (i < rejected)%nat ->
             values_update E (List.length (sheet_writes w) + i)%nat request
             <> None) ->
  values_update E (List.length (sheet_writes w) + rejected)%nat request
  = None ->
  exists c' w',
    updateProfileStatus E rowNumber st confidence (c, w)
    = (inr tt, (c', w'))
    /\ sheet_writes w'
       = (sheet_writes w ++ repeat request (S rejected))%list
    /\ timeouts w' = (timeouts w ++ backoff 1 rejected)%list.
Proof.
  intros request Hlt Hinit Hrej Hacc.
  destruct (updateProfileStatus_enters_loop E c w rowNumber st confidence
              Hinit) as (c1 & w1 & Hrun & Hw & Ht).
  fold request in Hrun.
  destruct (maxRetries c) as [|limit] eqn:Hmax; [lia|].
  rewrite <- Hw in Hrej, Hacc.
  destruct (attempt_loop_accepted_after E request (S limit) c1 rejected
              limit 1%nat w1) as (w' & Hloop & Hw' & Ht' & _);
    try assumption; try lia.
  exists c1, w'. rewrite Hrun, Hloop, Hw', Ht', Hw, Ht. repeat split.
Qed.

(** X3: on a client that is not initialized, a verification read that
    fails makes [updateProfileStatus] throw its error before anything is
    written or waited for, and the client stays uninitialized: the next
    call verifies again. *)
Theorem updateProfileStatus_verification_failure
    (c : GoogleSheetsClient) (w : world) (rowNumber : Z) (st : string)
    (confidence : option Q) (e : ApiError) :
  initialized c = false ->
  spreadsheets_get E (List.length (sheet_gets w)) (spreadsheetId c)
  = Some e ->
  exists c' w',
    updateProfileStatus E rowNumber st confidence (c, w) = (inl e, (c', w'))
    /\ initialized c' = false
    /\ sheet_writes w' = sheet_writes w
    /\ timeouts w' = timeouts w
    /\ sheet_gets w' = (sheet_gets w ++ [spreadsheetId c])%list.
Proof.
  intros Hi Hget. exists c, (record_get (spreadsheetId c) w).
  unfold updateProfileStatus.
  rewrite bind_run. unfold this at 1, gets at 1; cbn [fst]. rewrite Hi.
  cbn [negb]. rewrite bind_run, (init_fails E c w e Hget).
  repeat split.
Qed.

Lemma attempt_loop_keeps_gets (request : UpdateRequest) (limit : nat)
    (remaining attempt : nat) (c : GoogleSheetsClient) (w : world) :
  fst (snd (attempt_loop E request limit remaining attempt (c, w))) = c
  /\ sheet_gets (snd (snd (attempt_loop E request limit remaining attempt
                            (c, w))))
     = sheet_gets w.
Proof.
  revert attempt w; induction remaining as [|remaining IH]; intros attempt w.
  - split; reflexivity.
  - destruct (values_update E (List.length (sheet_writes w)) request)
      as [e|] eqn:Hup.
    + destruct (Nat.ltb_spec attempt limit) as [Hlt|Hge].
      * rewrite (attempt_retried E _ _ _ _ _ _ e Hup Hlt).
        destruct (IH (S attempt)
                    (record_timeout (Z.of_nat attempt * 1000)
                       (record_write request w))) as [Hc Hg].
        split; [exact Hc|exact Hg].
      * rewrite (attempt_exhausted E _ _ _ _ _ _ e Hup Hge).
        split; reflexivity.
    + rewrite (attempt_accepted E _ _ _ _ _ _ Hup). split; reflexivity.
Qed.

(** X4: the verification read is made once per client.  After a call of
    [updateProfileStatus] whose verification read succeeded, whether the
    writes were accepted or not, the client is initialized, and a second
    call on it goes straight to the writes. *)
Theorem updateProfileStatus_verifies_once
    (c : GoogleSheetsClient) (w : world) (row1 row2 : Z) (st1 st2 : string)
    (conf1 conf2 : option Q) :
  initialized c = false ->
  spreadsheets_get E (List.length (sheet_gets w)) (spreadsheetId c) = None ->
  let first := updateProfileStatus E row1 st1 conf1 (c, w) in
  let second := updateProfileStatus E row2 st2 conf2 (snd first) in
  initialized (fst (snd first)) = true
  /\ sheet_gets (snd (snd first)) = (sheet_gets w ++ [spreadsheetId c])%list
  /\ sheet_gets (snd (snd second)) = sheet_gets (snd (snd first)).
Proof.
  intros Hi Hget first second. subst second first.
  rewrite (updateProfileStatus_verified E c w _ _ _ Hi Hget).
  set (request := update_request c row1 st1 (or_default 0.9%Q conf1)).
  destruct (attempt_loop_keeps_gets request (maxRetries c) (maxRetries c) 1
              (verified c) (record_get (spreadsheetId c) w)) as [Hc Hg].
  destruct (attempt_loop E request (maxRetries c) (maxRetries c) 1
              (verified c, record_get (spreadsheetId c) w))
    as [r [c1 w1]] eqn:Hfirst.
  cbn [fst snd] in *. subst c1.
  repeat split; [exact Hg|].
  rewrite (updateProfileStatus_initialized E (verified c) w1 _ _ _ eq_refl).
  apply attempt_loop_keeps_gets.
Qed.

End RetrierMore.

(** ** Reading the sheet *)

Lemma row_to_profile_has_url (r : list string) (k : Z) :
  row_to_profile r k
  = if row_has_url r
    then Some (mkProfile (normalizeLinkedInUrl (first_cell r)) None (k + 2))
    else None.
Proof.
  destruct r as [|cell rest]; [reflexivity|]. simpl.
  destruct (JsString.truthy cell); simpl; [|reflexivity].
  destruct (JsString.trim_is_empty cell); reflexivity.
Qed.

Lemma urls_of_profiles_from (rows : list (list string)) (k : Z) :
  map url (profiles_from k rows) = urls_of_rows rows.
Proof.
  revert k; induction rows as [|r rows IH]; intros k; [reflexivity|].
  rewrite profiles_from_cons, row_to_profile_has_url.
  unfold urls_of_rows in *. simpl.
  destruct (row_has_url r); simpl; rewrite IH; reflexivity.
Qed.

Lemma findIndex_from_spec {A} (f : A -> bool) (l : list A) (k : Z) :
  (JsText.findIndex_from f l k = -1
   /\ Forall (fun x => f x = false) l)
  \/ (exists n x,
         JsText.findIndex_from f l k = k + Z.of_nat n
         /\ nth_error l n = Some x
         /\ f x = true
         /\ Forall (fun y => f y = false) (firstn n l)).
Proof.
  revert k; induction l as [|x l IH]; intros k.
  - left. split; [reflexivity|constructor].
  - simpl. destruct (f x) eqn:Hx.
    + right. exists O, x. simpl. repeat split; auto. lia.
    + destruct (IH (k + 1)) as [[Hi Hall]|(n & y & Hi & Hn & Hy & Hall)].
      * left. split; [exact Hi|]. constructor; assumption.
      * right. exists (S n), y. simpl. repeat split; auto.
        rewrite Hi. lia.
Qed.

Section SheetReads.

Variable E : env.

Lemma getProfiles_initialized (c : GoogleSheetsClient) (w : world) :
  initialized c = true ->
  getProfiles E (c, w)
  = (match values_get E (List.length (sheet_reads w))
             (sheetName c ++ "!A2:A") with
     | inl e => inl e
     | inr None => inr []
     | inr (Some rows) => inr (profiles_of_rows rows)
     end, (c, record_read (sheetName c ++ "!A2:A") w)).
Proof.
  intros Hi. unfold getProfiles.
  rewrite bind_run. unfold this at 1, gets at 1; cbn [fst]. rewrite Hi.
  cbn [negb]. rewrite bind_run. unfold ret at 1.
  rewrite rethrow_is_identity, bind_run.
  unfold perform at 1, sheets_values_get; cbn [fst snd].
  destruct (values_get E (List.length (sheet_reads w))
              (sheetName c ++ "!A2:A")) as [e|[rows|]]; try reflexivity.
  destruct rows; reflexivity.
Qed.

Lemma getProfileUrls_initialized (c : GoogleSheetsClient) (w : world) :
  initialized c = true ->
  getProfileUrls E (c, w)
  = (match values_get E (List.length (sheet_reads w))
             (sheetName c ++ "!A2:A") with
     | inl e => inl e
     | inr None => inr []
     | inr (Some rows) => inr (urls_of_rows rows)
     end, (c, record_read (sheetName c ++ "!A2:A") w)).
Proof.
  intros Hi. unfold getProfileUrls.
  rewrite bind_run. unfold this at 1, gets at 1; cbn [fst]. rewrite Hi.
  cbn [negb]. rewrite rethrow_is_identity, bind_run.
  unfold perform at 1, sheets_values_get; cbn [fst snd].
  destruct (values_get E (List.length (sheet_reads w))
              (sheetName c ++ "!A2:A")) as [e|[rows|]]; try reflexivity.
  destruct rows; reflexivity.
Qed.

(** X5: [getProfiles] on an initialized client makes exactly one read, of
    column A from row 2 on, and no write.  When the read fails its error
    is thrown; when the sheet has no data there, absent or empty, the
    result is the empty list and nothing is thrown. *)
Theorem getProfiles_failure_and_empty_sheet
    (c : GoogleSheetsClient) (w : world) :
  initialized c = true ->
  snd (getProfiles E (c, w))
  = (c, record_read (sheetName c ++ "!A2:A") w)
  /\ (forall e,
         values_get E (List.length (sheet_reads w)) (sheetName c ++ "!A2:A")
         = inl e ->
         fst (getProfiles E (c, w)) = inl e)
  /\ (values_get E (List.length (sheet_reads w)) (sheetName c ++ "!A2:A")
      = inr None
      \/ values_get E (List.length (sheet_reads w)) (sheetName c ++ "!A2:A")
         = inr (Some []) ->
      fst (getProfiles E (c, w)) = inr []).
Proof.
  intros Hi. rewrite (getProfiles_initialized c w Hi). cbn [fst snd].
  split; [reflexivity|]. split.
  - intros e ->. reflexivity.
  - intros [->| ->]; reflexivity.
Qed.

(** X6: [getProfileUrls] does not initialize the client: on a client that
    is not initialized it throws at once, without any request.  On an
    initialized client it makes the same read as [getProfiles], fails
    where [getProfiles] fails, and returns the URLs of the profiles that
    [getProfiles] returns, in the same order. *)
Theorem getProfileUrls_agrees_with_getProfiles
    (c : GoogleSheetsClient) (w : world) :
  (initialized c = false ->
   getProfileUrls E (c, w)
   = (inl (mkError
             "Google Sheets client not initialized. Call init() first."
             None), (c, w)))
  /\ (initialized c = true ->
      getProfileUrls E (c, w)
      = (match fst (getProfiles E (c, w)) with
         | inl e => inl e
         | inr profiles => inr (map url profiles)
         end, snd (getProfiles E (c, w)))).
Proof.
  split; intros Hi.
  - unfold getProfileUrls. rewrite bind_run.
    unfold this at 1, gets at 1; cbn [fst]. rewrite Hi. reflexivity.
  - rewrite (getProfileUrls_initialized c w Hi).
    rewrite (getProfiles_initialized c w Hi). cbn [fst snd].
    destruct (values_get E (List.length (sheet_reads w))
                (sheetName c ++ "!A2:A")) as [e|[rows|]]; try reflexivity.
    unfold profiles_of_rows. rewrite urls_of_profiles_from. reflexivity.
Qed.

End SheetReads.

(** ** Updating by URL *)

Lemma findIndex_from_first {A} (f : A -> bool) (l : list A) (k : Z)
    (n : nat) (x : A) :
  nth_error l n = Some x -> f x = true ->
  Forall (fun y => f y = false) (firstn n l) ->
  JsText.findIndex_from f l k = k + Z.of_nat n.
Proof.
  revert k n; induction l as [|y l IH]; intros k n Hn Hx Hall.
  - destruct n; discriminate.
  - destruct n as [|n]; simpl in *.
    + injection Hn as ->. rewrite Hx. lia.
    + inversion Hall as [|? ? Hy Hrest]; subst. rewrite Hy.
      rewrite (IH (k + 1) n Hn Hx Hrest). lia.
Qed.

Lemma findIndex_from_none {A} (f : A -> bool) (l : list A) (k : Z) :
  Forall (fun y => f y = false) l -> JsText.findIndex_from f l k = -1.
Proof.
  revert k; induction l as [|y l IH]; intros k Hall; [reflexivity|].
  inversion Hall as [|? ? Hy Hrest]; subst. simpl. rewrite Hy. now apply IH.
Qed.

Section UpdateByUrl.

Variable E : env.

Lemma findRowIndexByProfileUrl_run (u : string) (c : GoogleSheetsClient)
    (w : world) :
  findRowIndexByProfileUrl E u (c, w)
  = (match values_get E (List.length (sheet_reads w))
             (sheetName c ++ "!A:A") with
     | inl e => inl e
     | inr None => inr (-1)
     | inr (Some rows) => inr (JsText.findIndex (row_matches u) rows)
     end, (c, record_read (sheetName c ++ "!A:A") w)).
Proof.
  unfold findRowIndexByProfileUrl.
  rewrite rethrow_is_identity, bind_run.
  unfold this at 1, gets at 1; cbn [fst]. rewrite bind_run.
  unfold perform at 1, sheets_values_get; cbn [fst snd].
  destruct (values_get E (List.length (sheet_reads w))
              (sheetName c ++ "!A:A")) as [e|[rows|]]; reflexivity.
Qed.

(** X7: [findRowIndexByProfileUrl] reads the whole of column A once and
    returns the position of the first row whose cell is not empty and
    normalises to the same string as the URL looked for; it returns -1
    when no row does. *)
Theorem findRowIndexByProfileUrl_first_match
    (u : string) (c : GoogleSheetsClient) (w : world)
    (rows : list (list string)) :
  values_get E (List.length (sheet_reads w)) (sheetName c ++ "!A:A")
  = inr (Some rows) ->
  exists index,
    findRowIndexByProfileUrl E u (c, w)
    = (inr index, (c, record_read (sheetName c ++ "!A:A") w))
    /\ ((index = -1 /\ Forall (fun r => row_matches u r = false) rows)
        \/ (exists n cell rest,
               index = Z.of_nat n
               /\ nth_error rows n = Some (cell :: rest)
               /\ JsString.truthy cell = true
               /\ normalizeLinkedInUrl cell = normalizeLinkedInUrl u
               /\ Forall (fun r => row_matches u r = false)
                    (firstn n rows))).
Proof.
  intros Hread. rewrite findRowIndexByProfileUrl_run, Hread.
  eexists; split; [reflexivity|].
  unfold JsText.findIndex.
  destruct (findIndex_from_spec (row_matches u) rows 0)
    as [[Hi Hall]|(n & r & Hi & Hn & Hr & Hall)].
  - left. split; assumption.
  - right. destruct r as [|cell rest]; [discriminate|].
    simpl in Hr. destruct (JsString.truthy cell) eqn:Ht; [|discriminate].
    simpl in Hr. apply String.eqb_eq in Hr.
    exists n, cell, rest. rewrite Hi. repeat split; auto.
Qed.

(** X8: [updateStatus] without a row index, for a URL that no row of
    column A matches, throws the error that names the URL after the one
    read of the column: nothing is written. *)
Theorem updateStatus_unknown_url
    (u st : string) (confidence : Q) (c : GoogleSheetsClient) (w : world)
    (rows : list (list string)) :
  initialized c = true ->
  values_get E (List.length (sheet_reads w)) (sheetName c ++ "!A:A")
  = inr (Some rows) ->
  Forall (fun r => row_matches u r = false) rows ->
  updateStatus E u st confidence None (c, w)
  = (inl (mkError ("Could not find profile URL " ++ u ++ " in the sheet")
            None),
     (c, record_read (sheetName c ++ "!A:A") w)).
Proof.
  intros Hi Hread Hall. unfold updateStatus.
  rewrite bind_run. unfold this at 1, gets at 1; cbn [fst]. rewrite Hi.
  cbn [negb]. rewrite bind_run. unfold ret at 1.
  rewrite rethrow_is_identity, bind_run, bind_run.
  rewrite findRowIndexByProfileUrl_run, Hread.
  unfold JsText.findIndex. rewrite (findIndex_from_none _ _ _ Hall).
  reflexivity.
Qed.

(** X9: [updateStatus] without a row index, for a URL whose first match
    in column A is at position [n], continues as [updateProfileStatus]
    for row [n + 1] with the confidence it was given: the position is
    counted from the header row, which is row 1 of the sheet. *)
Theorem updateStatus_targets_first_match
    (u st : string) (confidence : Q) (c : GoogleSheetsClient) (w : world)
    (rows : list (list string)) (n : nat) (r : list string) :
  initialized c = true ->
  values_get E (List.length (sheet_reads w)) (sheetName c ++ "!A:A")
  = inr (Some rows) ->
  nth_error rows n = Some r ->
  row_matches u r = true ->
  Forall (fun r' => row_matches u r' = false) (firstn n rows) ->
  updateStatus E u st confidence None (c, w)
  = updateProfileStatus E (Z.of_nat n + 1) st (Some confidence)
      (c, record_read (sheetName c ++ "!A:A") w).
Proof.
  intros Hi Hread Hn Hr Hall. unfold updateStatus.
  rewrite bind_run. unfold this at 1, gets at 1; cbn [fst]. rewrite Hi.
  cbn [negb]. rewrite bind_run. unfold ret at 1.
  rewrite rethrow_is_identity, bind_run, bind_run.
  rewrite findRowIndexByProfileUrl_run, Hread.
  unfold JsText.findIndex. rewrite (findIndex_from_first _ _ _ _ _ Hn Hr Hall).
  replace (0 + Z.of_nat n =? -1) with false
    by (symmetry; apply Z.eqb_neq; lia).
  unfold ret at 1. rewrite Z.add_0_l. reflexivity.
Qed.

(** X10: with a row index, [updateStatus] reads nothing: on every
    client it is [updateProfileStatus] for the row after the index, with
    the confidence it was given; the index -1, which the look-up by URL
    refuses, is taken as it comes. *)
Theorem updateStatus_with_row_index
    (u st : string) (confidence : Q) (rowIndex : Z)
    (c : GoogleSheetsClient) (w : world) :
  updateStatus E u st confidence (Some rowIndex) (c, w)
  = updateProfileStatus E (rowIndex + 1) st (Some confidence) (c, w).
Proof.
  unfold updateStatus.
  rewrite bind_run. unfold this at 1, gets at 1; cbn [fst].
  destruct (initialized c) eqn:Hi; cbn [negb].
  - rewrite bind_run. unfold ret at 1.
    rewrite rethrow_is_identity, bind_run. unfold ret at 1. reflexivity.
  - rewrite bind_run.
    destruct (spreadsheets_get E (List.length (sheet_gets w))
                (spreadsheetId c)) as [e|] eqn:Hget.
    + rewrite (init_fails E c w e Hget).
      rewrite (updateProfileStatus_unverified E c w _ _ _ e Hi Hget).
      reflexivity.
    + rewrite (init_succeeds E c w Hget).
      rewrite rethrow_is_identity, bind_run. unfold ret at 1.
      rewrite (updateProfileStatus_verified E c w _ _ _ Hi Hget).
      rewrite (updateProfileStatus_initialized E (verified c) _ _ _ _ eq_refl).
      reflexivity.
Qed.

End UpdateByUrl.

(** X11: the two ways of numbering rows agree.  For a row of the data
    range that holds a URL on which the normaliser is idempotent, when
    neither the header cell nor an earlier row normalises to the same
    string, the position that the look-up by URL finds in column A, plus
    one, is the row number that [getProfiles] gave the profile. *)
Theorem lookup_row_is_loaded_row
    (header : list string) (rows : list (list string)) (j : nat)
    (cell : string) (rest : list string) :
  nth_error rows j = Some (cell :: rest) ->
  holds_url cell ->
  normalizeLinkedInUrl (normalizeLinkedInUrl cell)
  = normalizeLinkedInUrl cell ->
  row_matches (normalizeLinkedInUrl cell) header = false ->
  Forall (fun r => row_matches (normalizeLinkedInUrl cell) r = false)
    (firstn j rows) ->
  exists p,
    In p (profiles_of_rows rows)
    /\ url p = normalizeLinkedInUrl cell
    /\ JsText.findIndex (row_matches (url p)) (header :: rows) + 1 = row p.
Proof.
  intros Hn Hcell Hidem Hheader Hall.
  exists (mkProfile (normalizeLinkedInUrl cell) None (0 + Z.of_nat j + 2)).
  split; [apply (profiles_from_complete rows 0 j cell rest Hn Hcell)|].
  split; [reflexivity|]. cbn [url row].
  unfold JsText.findIndex.
  rewrite (findIndex_from_first _ (header :: rows) 0 (S j) (cell :: rest)).
  - lia.
  - exact Hn.
  - destruct Hcell as [Ht _]. simpl. rewrite Ht. simpl.
    apply String.eqb_eq. symmetry. exact Hidem.
  - simpl. constructor; assumption.
Qed.

(** ** Variants of one profile URL *)

Section UrlVariants.
Import JsString JsStringFacts.

Lemma split_head_app (c : ascii) (u q : string) :
  lacks c u = true -> split_head c (u ++ String c q) = u.
Proof.
  induction u as [|a u IH]; simpl; intros H.
  - rewrite Ascii.eqb_refl. reflexivity.
  - apply andb_true_iff in H as [Hac Hu].
    apply negb_true_iff in Hac. rewrite Hac, (IH Hu). reflexivity.
Qed.

Lemma strip_app_slash (u : string) : strip_trailing_slash (u ++ "/") = u.
Proof.
  induction u as [|a u IH]; [reflexivity|].
  simpl append. destruct u as [|b u].
  - reflexivity.
  - change (String b u ++ "/") with (String b (u ++ "/")) in *.
    rewrite strip_cons, IH. reflexivity.
Qed.

Lemma normalizeLinkedInUrl_of_stripped (x n : string) :
  includes "linkedin.com" x = true ->
  stripped x = n ->
  includes "/in/" n = true \/ endsWith "linkedin.com" n = false ->
  normalizeLinkedInUrl x
  = if includes "/in/" n then n
    else replace_first "linkedin.com/" "linkedin.com/in/" n.
Proof.
  intros Hhost Hn Hprofile. unfold normalizeLinkedInUrl.
  assert (Ht : truthy x = true) by (destruct x; [discriminate|reflexivity]).
  rewrite Ht, Hhost, Hn. simpl.
  destruct (includes "/in/" n); simpl; [reflexivity|].
  destruct Hprofile as [H|H]; [discriminate|]. rewrite H. reflexivity.
Qed.

(** X12: a query string and one trailing slash make no difference.  For
    a LinkedIn URL [u] without query string and without trailing slash
    that is not the bare host, [u] itself, [u] followed by a slash,
    [u] followed by a query string, and [u] followed by both all
    normalise to the same string. *)
Theorem normalizeLinkedInUrl_ignores_query_and_slash (u q : string) :
  lacks "?" u = true ->
  endsWith "/" u = false ->
  includes "linkedin.com" u = true ->
  includes "/in/" u = true \/ endsWith "linkedin.com" u = false ->
  normalizeLinkedInUrl (u ++ "/") = normalizeLinkedInUrl u
  /\ normalizeLinkedInUrl (u ++ "?" ++ q) = normalizeLinkedInUrl u
  /\ normalizeLinkedInUrl (u ++ "/" ++ "?" ++ q) = normalizeLinkedInUrl u.
Proof.
  intros Hq Hslash Hhost Hprofile.
  assert (Hu : stripped u = u).
  { unfold stripped.
    rewrite (split_head_lacks _ _ Hq), (strip_no_trailing_slash _ Hslash).
    reflexivity. }
  assert (Hq' : lacks "?" (u ++ "/") = true).
  { apply lacks_app; [exact Hq|reflexivity]. }
  rewrite (normalizeLinkedInUrl_of_stripped u u Hhost Hu Hprofile).
  repeat split; apply normalizeLinkedInUrl_of_stripped; auto.
  - now apply includes_app_l.
  - unfold stripped. rewrite (split_head_lacks _ _ Hq').
    apply strip_app_slash.
  - now apply includes_app_l.
  - unfold stripped. change (u ++ "?" ++ q) with (u ++ String "?" q).
    rewrite (split_head_app _ _ _ Hq). now apply strip_no_trailing_slash.
  - now apply includes_app_l.
  - unfold stripped.
    replace (u ++ "/" ++ "?" ++ q) with ((u ++ "/") ++ String "?" q).
    + rewrite (split_head_app _ _ _ Hq'). apply strip_app_slash.
    + clear. induction u as [|a u IH]; [reflexivity|].
      simpl. rewrite IH. reflexivity.
Qed.

(** X13: the normaliser either gives its input back unchanged, as it
    does for every string that does not contain the host marker, or
    gives a string without any question mark. *)
Theorem normalizeLinkedInUrl_unchanged_or_without_query (x : string) :
  (includes "linkedin.com" x = false -> normalizeLinkedInUrl x = x)
  /\ (normalizeLinkedInUrl x = x
      \/ lacks "?" (normalizeLinkedInUrl x) = true).
Proof.
  split.
  - intros Hhost. unfold normalizeLinkedInUrl.
    destruct (truthy x) eqn:Ht; simpl.
    + rewrite Hhost. reflexivity.
    + apply truthy_false in Ht. subst x. reflexivity.
  - destruct (normalizeLinkedInUrl_cases x) as [Hid|[[_ Hn]|[_ Hn]]].
    + left. exact Hid.
    + right. rewrite Hn. apply lacks_stripped.
    + right. rewrite Hn.
      apply lacks_replace_first; [reflexivity|apply lacks_stripped].
Qed.

End UrlVariants.

(** ** The signals of a page *)

Section Trimming.
Import JsString JsText.

Lemma startsWith_empty (p : string) :
  startsWith p "" = match p with EmptyString => true | _ => false end.
Proof. destruct p; reflexivity. Qed.

Lemma trimEnd_cons (a : ascii) (s : string) :
  (trimEnd (String a s) = "" /\ is_white_space a = true /\ trimEnd s = "")
  \/ trimEnd (String a s) = String a (trimEnd s).
Proof.
  simpl. destruct (trimEnd s) as [|b t] eqn:Hs.
  - destruct (is_white_space a) eqn:Ha; [left|right]; auto.
  - right. reflexivity.
Qed.

Lemma startsWith_trimEnd (s p : string) :
  ends_solid p = true -> startsWith p (trimEnd s) = startsWith p s.
Proof.
  revert p; induction s as [|a s IH]; intros p Hp; [reflexivity|].
  destruct p as [|c p]; [discriminate|].
  assert (Htail : startsWith p (trimEnd s) = startsWith p s).
  { destruct p as [|d p]; [reflexivity|]. apply IH. exact Hp. }
  destruct (trimEnd_cons a s) as [(Hnil & Ha & Hs)|Hcons].
  - rewrite Hnil. cbn [startsWith]. rewrite <- Htail, Hs.
    destruct p as [|d p]; cbn [startsWith].
    + rewrite andb_true_r. simpl in Hp. apply negb_true_iff in Hp.
      destruct (Ascii.eqb_spec c a) as [->|Hne]; [congruence|reflexivity].
    + rewrite andb_false_r. reflexivity.
  - rewrite Hcons. cbn [startsWith]. rewrite Htail. reflexivity.
Qed.

Lemma includes_trimEnd (s p : string) :
  ends_solid p = true -> includes p (trimEnd s) = includes p s.
Proof.
  intros Hp; induction s as [|a s IH]; [reflexivity|].
  cbn [includes]. rewrite <- IH, <- (startsWith_trimEnd (String a s) p Hp).
  destruct (trimEnd_cons a s) as [(Hnil & Ha & Hs)|Hcons].
  - rewrite Hnil, Hs. simpl. destruct p; [discriminate|reflexivity].
  - rewrite Hcons. reflexivity.
Qed.

Lemma includes_trimStart (s p : string) :
  solid p = true -> includes p (trimStart s) = includes p s.
Proof.
  intros Hp; induction s as [|a s IH]; [reflexivity|].
  simpl trimStart. destruct (is_white_space a) eqn:Ha; [|reflexivity].
  rewrite IH. cbn [includes].
  destruct p as [|c p]; [discriminate|].
  simpl in Hp. apply andb_true_iff in Hp as [Hc _].
  apply negb_true_iff in Hc. cbn [startsWith].
  destruct (Ascii.eqb_spec c a) as [->|Hne]; [congruence|reflexivity].
Qed.

(** Trimming does not change whether a word without white space at its
    ends occurs. *)
Lemma includes_trim (s p : string) :
  solid p = true -> includes p (trim s) = includes p s.
Proof.
  intros Hp. unfold trim.
  rewrite includes_trimEnd, includes_trimStart; auto.
  destruct p as [|c p]; [discriminate|].
  simpl in Hp. apply andb_true_iff in Hp as [_ Hp]. exact Hp.
Qed.

End Trimming.

Section PageEvaluation.
Import JsString JsText.

Lemma check_button_flags (results : ButtonResults) (button : Button) :
  r_hasConnectButton (check_button results button)
  = r_hasConnectButton results || button_mentions "Connect" button
  /\ r_hasPendingButton (check_button results button)
     = r_hasPendingButton results || button_mentions "Pending" button
  /\ r_hasMessageButton (check_button results button)
     = r_hasMessageButton results || button_mentions "Message" button.
Proof.
  unfold check_button, button_mentions.
  destruct (includes "Connect" (or_empty (textContent button))
            || includes "Connect" (or_empty (ariaLabel button)));
    destruct (includes "Pending" (or_empty (textContent button))
              || includes "Pending" (or_empty (ariaLabel button)));
    destruct (includes "Message" (or_empty (textContent button))
              || includes "Message" (or_empty (ariaLabel button)));
    simpl; rewrite ?orb_true_r, ?orb_false_r; repeat split.
Qed.

Lemma buttons_loop_flags (bs : list Button) (results : ButtonResults) :
  r_hasConnectButton (fold_left check_button bs results)
  = r_hasConnectButton results || existsb (button_mentions "Connect") bs
  /\ r_hasPendingButton (fold_left check_button bs results)
     = r_hasPendingButton results || existsb (button_mentions "Pending") bs
  /\ r_hasMessageButton (fold_left check_button bs results)
     = r_hasMessageButton results || existsb (button_mentions "Message") bs.
Proof.
  revert results; induction bs as [|b bs IH]; intros results.
  - simpl. rewrite !orb_false_r. repeat split.
  - simpl fold_left. destruct (IH (check_button results b)) as (Hc & Hp & Hm).
    destruct (check_button_flags results b) as (Hc' & Hp' & Hm').
    rewrite Hc, Hp, Hm, Hc', Hp', Hm'. simpl existsb.
    rewrite !orb_assoc. repeat split.
Qed.

(** X14: the flags of the evaluation are exactly what the buttons of the
    page show, in whatever order they come: a flag is set when some
    button mentions its word in its text or its label, and a later
    button never clears it. *)
Theorem evaluate_page_button_flags (d : Dom) :
  hasConnectButton (evaluate_page d)
  = existsb (button_mentions "Connect") (buttons d)
  /\ hasPendingButton (evaluate_page d)
     = existsb (button_mentions "Pending") (buttons d)
  /\ hasMessageButton (evaluate_page d)
     = existsb (button_mentions "Message") (buttons d).
Proof.
  unfold evaluate_page. cbn [hasConnectButton hasPendingButton hasMessageButton].
  destruct (buttons_loop_flags (buttons d) (mkButtonResults false false false))
    as (Hc & Hp & Hm).
  rewrite Hc, Hp, Hm. repeat split.
Qed.

(** X15: a page with a button that mentions "Pending", or whose markup
    holds one of the two pending markers, is classified PENDING with
    confidence 0.95 whatever else is on the page. *)
Theorem pending_page_is_PENDING (d : Dom) :
  existsb (button_mentions "Pending") (buttons d) = true
  \/ includes pending_marker (outerHTML d) = true
  \/ includes "invitationPending" (outerHTML d) = true ->
  cr_status (determineConnectionStatus (evaluate_page d)) = PENDING
  /\ cr_confidence (determineConnectionStatus (evaluate_page d)) = 0.95%Q.
Proof.
  intros H.
  assert (Hrule : isPendingInHtml (evaluate_page d)
                  || hasPendingButton (evaluate_page d) = true).
  { unfold evaluate_page; cbn [isPendingInHtml hasPendingButton].
    destruct (buttons_loop_flags (buttons d)
                (mkButtonResults false false false)) as (_ & Hp & _).
    rewrite Hp. cbn [r_hasPendingButton orb].
    destruct H as [H|[H|H]]; rewrite H;
      rewrite ?orb_true_r, ?orb_true_l; reflexivity. }
  unfold determineConnectionStatus. rewrite Hrule. split; reflexivity.
Qed.

(** The loop over the degree elements stops at the first one that holds
    a degree. *)
Lemma find_connectionDegree_first (before after : list (option string))
    (elem : option string) :
  Forall (fun e => includes "1st" (or_empty e) = false
                   /\ includes "2nd" (or_empty e) = false
                   /\ includes "3rd" (or_empty e) = false) before ->
  includes "1st" (or_empty elem) || includes "2nd" (or_empty elem)
  || includes "3rd" (or_empty elem) = true ->
  find_connectionDegree (before ++ elem :: after) = trim (or_empty elem).
Proof.
  intros Hbefore Helem. induction Hbefore as [|e before (H1 & H2 & H3) _ IH].
  - simpl. rewrite Helem. reflexivity.
  - simpl. rewrite H1, H2, H3. simpl. exact IH.
Qed.

(** X16: only the first degree badge that holds a degree counts, and
    through its degree alone.  When that badge says 1st and the page
    shows nothing pending, the profile is ACCEPTED with confidence 0.95,
    whatever the later badges say; when it does not say 1st, a later
    badge that does is not looked at. *)
Theorem first_degree_badge_decides (d : Dom)
    (before after : list (option string)) (elem : option string) :
  degreeElements d = (before ++ elem :: after)%list ->
  Forall (fun e => includes "1st" (or_empty e) = false
                   /\ includes "2nd" (or_empty e) = false
                   /\ includes "3rd" (or_empty e) = false) before ->
  includes "1st" (or_empty elem) || includes "2nd" (or_empty elem)
  || includes "3rd" (or_empty elem) = true ->
  connectionDegree (evaluate_page d) = trim (or_empty elem)
  /\ includes "1st" (connectionDegree (evaluate_page d))
     = includes "1st" (or_empty elem)
  /\ (includes "1st" (or_empty elem) = true ->
      isPendingInHtml (evaluate_page d) = false ->
      hasPendingButton (evaluate_page d) = false ->
      cr_status (determineConnectionStatus (evaluate_page d)) = ACCEPTED
      /\ cr_confidence (determineConnectionStatus (evaluate_page d))
         = 0.95%Q).
Proof.
  intros Hd Hbefore Helem.
  assert (Hdegree : connectionDegree (evaluate_page d) = trim (or_empty elem)).
  { unfold evaluate_page; cbn [connectionDegree]. rewrite Hd.
    now apply find_connectionDegree_first. }
  assert (Hfirst : includes "1st" (connectionDegree (evaluate_page d))
                   = includes "1st" (or_empty elem)).
  { rewrite Hdegree. apply includes_trim. reflexivity. }
  split; [exact Hdegree|]. split; [exact Hfirst|].
  intros H1st Hhtml Hbutton.
  unfold determineConnectionStatus. rewrite Hhtml, Hbutton, Hfirst, H1st.
  simpl. rewrite !orb_true_r. split; reflexivity.
Qed.

End PageEvaluation.

(** ** A run against a store that accepts every write *)

Section AcceptingStore.

Variable E : env.
Variables id name : string.

Hypothesis reachable : store_reachable E.
Hypothesis accepting : forall i request, values_update E i request = None.

Lemma try_update_sheet_accepted (p : Profile) (st : ProfileStatus)
    (w : world) :
  try_update_sheet E id name p st w
  = (inr tt,
     record_console (LogUpdatedRow (row p) (status_value st))
       (record_write (loop_request id name p st)
          (record_get id (record_client w)))).
Proof.
  destruct reachable as [Hcred Hget].
  unfold try_update_sheet. rewrite try_catch_run, bind_run.
  unfold new_GoogleSheetsClient at 1. rewrite Hcred.
  rewrite bind_run. unfold call at 1.
  rewrite (updateProfileStatus_verified E (mkClient id name false 3)
             (record_client w) _ _ _ eq_refl (Hget _ _)).
  cbn [maxRetries].
  rewrite (attempt_accepted E _ _ _ _ _ _ (accepting _ _)).
  reflexivity.
Qed.

Lemma main_iteration_accepted (results : list Profile) (p : Profile)
    (w : world) :
  let processed := expected_results E (List.length (navigations w)) [p] in
  exists w',
    main_iteration E id name results p w
    = (inr (results ++ processed)%list, w')
    /\ navigations w' = (navigations w ++ [url p])%list
    /\ sheet_writes w'
       = (sheet_writes w ++ flat_map (update_of id name) processed)%list
    /\ timeouts w' = (timeouts w ++ [3000])%list
    /\ sheet_gets w'
       = (sheet_gets w ++ repeat id (List.length processed))%list.
Proof.
  intros processed; subst processed.
  unfold main_iteration. rewrite bind_run, try_catch_run, bind_run.
  pose proof (processProfile_run E p w) as Hp. cbn [expected_results].
  destruct (processed_at E (List.length (navigations w)) p) as [p'|] eqn:Hat.
  - destruct (processed_at_inv E _ _ _ Hat) as [st ->].
    rewrite Hp, bind_run, status_is_truthy_set, try_update_sheet_accepted.
    eexists. split; [reflexivity|]. simpl. repeat split.
  - destruct Hp as [e Hp]. rewrite Hp, app_nil_r.
    eexists. split; [reflexivity|]. simpl. rewrite !app_nil_r.
    repeat split.
Qed.

(** X17: when the credentials are found, every verification read
    succeeds and the store accepts every write, the loop of [main] sends
    exactly one write per processed profile, in the order of the
    profiles and at the row of each, never waits for a retry, pauses
    3000 ms after every profile, the failed ones and the last one
    included, and makes one verification read per processed profile,
    since each update uses a client of its own. *)
Theorem main_loop_with_accepting_store
    (profiles results : list Profile) (w : world) :
  let processed :=
    expected_results E (List.length (navigations w)) profiles in
  exists w',
    main_loop E id name results profiles w
    = (inr (results ++ processed)%list, w')
    /\ sheet_writes w'
       = (sheet_writes w ++ flat_map (update_of id name) processed)%list
    /\ timeouts w'
       = (timeouts w ++ repeat 3000 (List.length profiles))%list
    /\ sheet_gets w'
       = (sheet_gets w ++ repeat id (List.length processed))%list.
Proof.
  revert results w; induction profiles as [|p rest IH]; intros results w.
  - exists w. simpl. rewrite !app_nil_r. repeat split.
  - cbv zeta. rewrite expected_results_cons.
    cbn [main_loop]. rewrite bind_run.
    destruct (main_iteration_accepted results p w)
      as (w1 & Hrun1 & Hnav1 & Hw1 & Ht1 & Hg1).
    rewrite Hrun1.
    destruct (IH (results ++ expected_results E
                               (List.length (navigations w)) [p])%list w1)
      as (w2 & Hrun2 & Hw2 & Ht2 & Hg2).
    assert (Hlen : List.length (navigations w1)
                   = S (List.length (navigations w))).
    { rewrite Hnav1, length_app; simpl; lia. }
    rewrite Hlen in *.
    exists w2. rewrite Hrun2, Hw2, Hw1, Ht2, Ht1, Hg2, Hg1.
    rewrite flat_map_app, length_app, repeat_app, <- !app_assoc.
    repeat split.
Qed.

End AcceptingStore.

(** ** Logging in and the whole run *)

Section LoginRuns.

Variable E : env.
Variable L : session.

Lemma navigate_run (u : string) (w : world) :
  navigate E u w
  = (match page_goto E (List.length (navigations w)) u with
     | GotoFails e => inl e
     | PageLoaded _ _ => inr tt
     end, record_navigation u w).
Proof.
  unfold navigate. rewrite bind_run. unfold goto.
  destruct (page_goto E (List.length (navigations w)) u); reflexivity.
Qed.

Lemma loginToLinkedIn_saved_cookies_run (w : world) :
  cookie_file_exists L = true ->
  cookies_load_error L = None ->
  loginToLinkedIn E L w
  = (inr tt, record_navigation "https://www.linkedin.com/feed/" w).
Proof.
  intros Hfile Hload. unfold loginToLinkedIn, use_saved_cookies.
  rewrite Hfile, Hload, bind_run, try_catch_run, bind_run, navigate_run.
  destruct (page_goto E (List.length (navigations w))
              "https://www.linkedin.com/feed/") as [e|limited evaluation].
  - reflexivity.
  - unfold ret at 1. destruct (isLoggedIn L); reflexivity.
Qed.

(** X18: once a cookie file exists and its cookies load, the manual
    log-in is out of reach.  Whether the feed page then shows a valid
    session, an expired one, or cannot be opened at all,
    [loginToLinkedIn] returns normally after that one navigation: it
    never opens the log-in page, never saves cookies and never throws,
    so an expired session lets the run go on without being logged in. *)
Theorem loginToLinkedIn_with_saved_cookies (w : world) :
  cookie_file_exists L = true ->
  cookies_load_error L = None ->
  loginToLinkedIn E L w
  = (inr tt, record_navigation "https://www.linkedin.com/feed/" w).
Proof.
  intros Hfile Hload. unfold loginToLinkedIn, use_saved_cookies.
  rewrite Hfile, Hload, bind_run, try_catch_run, bind_run, navigate_run.
  destruct (page_goto E (List.length (navigations w))
              "https://www.linkedin.com/feed/") as [e|limited evaluation].
  - reflexivity.
  - unfold ret at 1. destruct (isLoggedIn L); reflexivity.
Qed.

(** X19: without a cookie file, or with one that cannot be loaded, the
    log-in page is opened.  When the log-in page itself cannot be
    opened, that error is thrown.  Otherwise the function waits for the
    log-in, reads the cookies of the browser context and writes their
    [JSON.stringify(cookies, null, 2)] text to the cookie file: when the
    three succeed the file holds that text and the function returns;
    when the wait, the reading of the cookies or the writing of the file
    throws, the function throws its own error, whatever was thrown, and
    no file is recorded. *)
Theorem loginToLinkedIn_manual (w : world) :
  cookie_file_exists L = false \/ cookies_load_error L <> None ->
  let opened := record_navigation "https://www.linkedin.com/login" w in
  let failed :=
    mkError ("LinkedIn login failed. "
             ++ "Timeout waiting for navigation after login.") None in
  loginToLinkedIn E L w
  = match page_goto E (List.length (navigations w))
            "https://www.linkedin.com/login" with
    | GotoFails e => (inl e, opened)
    | PageLoaded _ _ =>
        match waitForNavigation_error L, context_cookies L,
              cookie_file_write_error L with
        | None, inr cookies, None =>
            (inr tt,
             record_file (cookie_file_path L) (Json.stringify cookies)
               opened)
        | _, _, _ => (inl failed, opened)
        end
    end.
Proof.
  intros Hcookies opened failed; subst opened failed.
  assert (Hsaved : use_saved_cookies E L w = (inr (false, false), w)).
  { unfold use_saved_cookies.
    destruct (cookie_file_exists L); [|reflexivity].
    destruct Hcookies as [H|H]; [discriminate|].
    destruct (cookies_load_error L); [reflexivity|congruence]. }
  unfold loginToLinkedIn. rewrite bind_run, Hsaved. cbn [negb].
  unfold manual_login. rewrite bind_run, navigate_run.
  destruct (page_goto E (List.length (navigations w))
              "https://www.linkedin.com/login") as [e|limited evaluation];
    [reflexivity|].
  rewrite try_catch_run, bind_run. unfold waitForNavigation.
  destruct (waitForNavigation_error L) as [e|]; [reflexivity|].
  unfold ret at 1. rewrite bind_run. unfold context_cookies_now.
  destruct (context_cookies L) as [e|cookies]; [reflexivity|].
  unfold ret at 1, write_cookie_file.
  destruct (cookie_file_write_error L) as [e|]; reflexivity.
Qed.

Lemma getProfiles_fresh (c : GoogleSheetsClient) (w : world) :
  initialized c = false ->
  exists r c' w',
    getProfiles E (c, w) = (r, (c', w'))
    /\ navigations w' = navigations w
    /\ sheet_writes w' = sheet_writes w
    /\ timeouts w' = timeouts w
    /\ files w' = files w
    /\ (forall profiles, r = inr profiles ->
        exists rows, profiles = profiles_of_rows rows).
Proof.
  intros Hi. unfold getProfiles.
  rewrite bind_run. unfold this at 1, gets at 1; cbn [fst]. rewrite Hi.
  cbn [negb]. rewrite bind_run.
  destruct (spreadsheets_get E (List.length (sheet_gets w))
              (spreadsheetId c)) as [e|] eqn:Hget.
  - rewrite (init_fails E c w e Hget).
    eexists _, _, _. split; [reflexivity|]. repeat split.
    intros profiles H; discriminate.
  - rewrite (init_succeeds E c w Hget).
    rewrite rethrow_is_identity, bind_run.
    unfold perform at 1, sheets_values_get; cbn [fst snd].
    destruct (values_get E
                (List.length (sheet_reads (record_get (spreadsheetId c) w)))
                (sheetName c ++ "!A2:A")) as [e|[rows|]].
    + eexists _, _, _. split; [reflexivity|]. repeat split.
      intros profiles H; discriminate.
    + exists (inr (profiles_of_rows rows)). eexists _, _.
      split; [destruct rows; reflexivity|]. repeat split.
      intros profiles [= <-]. eauto.
    + eexists _, _, _. split; [reflexivity|]. repeat split.
      intros profiles [= <-]. exists []. reflexivity.
Qed.

Lemma fetch_profiles_run (id name : string) (w : world) :
  exists profiles w',
    fetch_profiles E id name w = (inr profiles, w')
    /\ navigations w' = navigations w.
Proof.
  unfold fetch_profiles. rewrite try_catch_run, bind_run.
  unfold new_GoogleSheetsClient at 1.
  destruct (initializeClient_error E (clients_created w)) as [e|].
  - eexists _, _. split; reflexivity.
  - rewrite bind_run. unfold call at 1.
    destruct (getProfiles_fresh (mkClient id name false 3) (record_client w)
                eq_refl)
      as (r & c' & w' & Hrun & Hnav & _).
    rewrite Hrun. cbn [snd].
    destruct r as [e|[|p fetched]]; eexists _, w';
      (split; [reflexivity|exact Hnav]).
Qed.

(** X20: the first step of [main] never throws and never yields an
    empty list, and what it yields is fixed by three answers: that of
    the credentials, that of the verification read of the spreadsheet,
    and that of the read of column A from row 2 on.  When the three
    succeed and the rows read hold at least one URL, the result is
    exactly the profiles of those rows; in every other case (a client
    that cannot be created, a verification or a read that throws, no
    values, or no row with a URL) it is the three default profiles.  It
    opens no page, writes nothing to the sheet, waits for nothing and
    writes no file. *)
Theorem fetch_profiles_never_empty (id name : string) (w : world) :
  let fetched :=
    match initializeClient_error E (clients_created w),
          spreadsheets_get E (List.length (sheet_gets w)) id,
          values_get E (List.length (sheet_reads w)) (name ++ "!A2:A") with
    | None, None, inr (Some rows) => profiles_of_rows rows
    | _, _, _ => []
    end in
  let profiles :=
    match fetched with
    | [] => default_profiles
    | _ :: _ => fetched
    end in
  exists w',
    fetch_profiles E id name w = (inr profiles, w')
    /\ profiles <> []
    /\ navigations w' = navigations w
    /\ sheet_writes w' = sheet_writes w
    /\ timeouts w' = timeouts w
    /\ files w' = files w.
Proof.
  intros fetched profiles; subst fetched profiles.
  unfold fetch_profiles. rewrite try_catch_run, bind_run.
  unfold new_GoogleSheetsClient at 1.
  destruct (initializeClient_error E (clients_created w)) as [e|].
  { eexists. split; [reflexivity|]. repeat split. discriminate. }
  rewrite bind_run. unfold call at 1, getProfiles.
  rewrite bind_run. unfold this at 1, gets at 1; cbn [fst initialized negb].
  rewrite bind_run.
  change (List.length (sheet_gets w))
    with (List.length (sheet_gets (record_client w))).
  destruct (spreadsheets_get E (List.length (sheet_gets (record_client w)))
              id) as [e|] eqn:Hget.
  { rewrite (init_fails E (mkClient id name false 3) (record_client w) e
               Hget).
    eexists. split; [reflexivity|]. repeat split. discriminate. }
  rewrite (init_succeeds E (mkClient id name false 3) (record_client w)
             Hget).
  rewrite rethrow_is_identity, bind_run.
  unfold perform at 1, sheets_values_get; cbn [fst snd spreadsheetId
                                                sheetName].
  change (List.length (sheet_reads w))
    with (List.length (sheet_reads (record_get id (record_client w)))).
  destruct (values_get E
              (List.length (sheet_reads (record_get id (record_client w))))
              (name ++ "!A2:A")) as [e|[rows|]].
  - eexists. split; [reflexivity|]. repeat split. discriminate.
  - destruct rows as [|r rows].
    + eexists. split; [reflexivity|]. repeat split. discriminate.
    + generalize (profiles_of_rows (r :: rows)).
      intros [|p fetched]; eexists; (split; [reflexivity|]);
        repeat split; discriminate.
  - eexists. split; [reflexivity|]. repeat split. discriminate.
Qed.

(** X21: the whole of [main] with saved cookies that load.  It never
    throws: it opens the feed page, then every profile it fetched, in
    order, and returns the profiles whose processing did not throw, each
    with the status of its page. *)
Theorem main_with_saved_cookies (id name : string) (w : world) :
  cookie_file_exists L = true ->
  cookies_load_error L = None ->
  exists profiles w',
    fst (fetch_profiles E id name w) = inr profiles
    /\ main E L id name w
       = (inr (expected_results E (S (List.length (navigations w)))
                 profiles), w')
    /\ navigations w'
       = (navigations w ++ "https://www.linkedin.com/feed/"
          :: map url profiles)%list.
Proof.
  intros Hfile Hload.
  destruct (fetch_profiles_run id name w)
    as (profiles & w0 & Hfetch & Hnav0).
  unfold main. rewrite bind_run, Hfetch, bind_run.
  rewrite (loginToLinkedIn_saved_cookies_run w0 Hfile Hload).
  destruct (main_loop_run E id name profiles []
              (record_navigation "https://www.linkedin.com/feed/" w0))
    as (w' & new & lines & Hrun & Hnav & _).
  exists profiles, w'. split; [reflexivity|].
  rewrite Hrun, Hnav. cbn [navigations record_navigation app].
  rewrite length_app, Hnav0, Nat.add_1_r, <- app_assoc.
  split; reflexivity.
Qed.

End LoginRuns.

(** ** The export file *)

Section ExportFile.
Import JsString JsStringFacts.




End ExportFile.

(** ** Validating the keys *)

Section Validation.
Import JsString JsStringFacts.

Lemma string_app_nil_r (s : string) : s ++ "" = s.
Proof. induction s as [|a s IH]; simpl; [|rewrite IH]; reflexivity. Qed.

Lemma string_app_assoc (s t u : string) : (s ++ t) ++ u = s ++ t ++ u.
Proof. induction s as [|a s IH]; simpl; [|rewrite IH]; reflexivity. Qed.

Lemma string_app_length (s t : string) :
  String.length (s ++ t) = (String.length s + String.length t)%nat.
Proof. induction s as [|a s IH]; simpl; [|rewrite IH]; reflexivity. Qed.

Lemma on_data_prefix (chunks : list string) (held : string) :
  exists rest,
    (held ++ String.concat "" chunks = fold_left on_data chunks held ++ rest)
    /\ (Z.of_nat (String.length (held ++ String.concat "" chunks)) < 1024 * 3
        -> rest = "").
Proof.
  revert held; induction chunks as [|chunk chunks IH]; intros held.
  - exists "". simpl. split; [reflexivity|auto].
  - simpl fold_left. unfold on_data at 2.
    assert (Hconcat : String.concat "" (chunk :: chunks)
                      = chunk ++ String.concat "" chunks).
    { destruct chunks; simpl; [now rewrite string_app_nil_r|reflexivity]. }
    rewrite Hconcat.
    destruct (Z.ltb_spec (Z.of_nat (String.length held)) (1024 * 3)).
    + destruct (IH (held ++ chunk)) as (rest & Heq & Hshort).
      exists rest. rewrite <- string_app_assoc. split; [exact Heq|exact Hshort].
    + exists (chunk ++ String.concat "" chunks)%string.
      assert (Hkept : forall l, fold_left on_data l held = held).
      { induction l as [|x l IHl]; [reflexivity|].
        simpl. unfold on_data at 2.
        destruct (Z.ltb_spec (Z.of_nat (String.length held)) (1024 * 3));
          [lia|exact IHl]. }
      rewrite Hkept. split; [reflexivity|].
      rewrite !string_app_length. lia.
Qed.

Lemma concat_cons (chunk : string) (chunks : list string) :
  String.concat "" (chunk :: chunks) = chunk ++ String.concat "" chunks.
Proof.
  destruct chunks; simpl; [now rewrite string_app_nil_r|reflexivity].
Qed.

Lemma on_data_full (held : string) (chunks : list string) :
  3072 <= Z.of_nat (String.length held) ->
  fold_left on_data chunks held = held.
Proof.
  intros Hfull. induction chunks as [|x l IHl]; [reflexivity|].
  simpl. unfold on_data at 2.
  destruct (Z.ltb_spec (Z.of_nat (String.length held)) (1024 * 3));
    [lia|exact IHl].
Qed.

(** The chunks are added one by one until 3072 code units are held. *)
Lemma on_data_cut (chunks : list string) (held : string) :
  exists k,
    (k <= List.length chunks)%nat
    /\ fold_left on_data chunks held
       = held ++ String.concat "" (firstn k chunks)
    /\ (forall j, (j < k)%nat ->
        Z.of_nat (String.length (held ++ String.concat "" (firstn j chunks)))
        < 3072)
    /\ ((k < List.length chunks)%nat ->
        3072 <= Z.of_nat (String.length (fold_left on_data chunks held))).
Proof.
  revert held; induction chunks as [|chunk chunks IH]; intros held.
  - exists O. simpl. rewrite string_app_nil_r.
    split; [lia|]. split; [reflexivity|]. split; intros; lia.
  - destruct (Z.ltb_spec (Z.of_nat (String.length held)) (1024 * 3))
      as [Hroom|Hfull].
    + destruct (IH (held ++ chunk)) as (k & Hk & Heq & Hbelow & Hcut).
      assert (Hstep : fold_left on_data (chunk :: chunks) held
                      = fold_left on_data chunks (held ++ chunk)).
      { simpl. unfold on_data at 2.
        destruct (Z.ltb_spec (Z.of_nat (String.length held)) (1024 * 3));
          [reflexivity|lia]. }
      exists (S k). rewrite Hstep. cbn [firstn List.length].
      split; [lia|].
      split; [now rewrite concat_cons, <- string_app_assoc|].
      split.
      * intros [|j] Hj.
        -- simpl. rewrite string_app_nil_r. lia.
        -- cbn [firstn]. rewrite concat_cons, <- string_app_assoc.
           apply Hbelow. lia.
      * intros Hlt. apply Hcut. lia.
    + exists O. rewrite (on_data_full held (chunk :: chunks)) by lia.
      simpl. rewrite string_app_nil_r.
      split; [lia|]. split; [reflexivity|]. split; intros; lia.
Qed.

(** X23: the body that the validations keep is the body of the first
    [k] chunks that the server sent, where [k] is the first count at
    which 3072 code units or more are held, or the number of chunks when
    that never happens: every chunk is added whole while fewer than 3072
    code units are held, and none after.  So a body that is cut holds at
    least 3072 code units, the kept text is a prefix of the body sent,
    and a body of fewer than 3072 code units is kept whole. *)
Theorem collect_keeps_a_prefix (chunks : list string) :
  exists k,
    (k <= List.length chunks)%nat
    /\ collect chunks = String.concat "" (firstn k chunks)
    /\ (forall j, (j < k)%nat ->
        Z.of_nat (String.length (String.concat "" (firstn j chunks))) < 3072)
    /\ ((k < List.length chunks)%nat ->
        3072 <= Z.of_nat (String.length (collect chunks)))
    /\ (exists rest, String.concat "" chunks = collect chunks ++ rest)
    /\ (Z.of_nat (String.length (String.concat "" chunks)) < 3072 ->
        collect chunks = String.concat "" chunks).
Proof.
  destruct (on_data_cut chunks "") as (k & Hk & Heq & Hbelow & Hcut).
  destruct (on_data_prefix chunks "") as (rest & Hrest & Hshort).
  exists k. split; [exact Hk|]. split; [exact Heq|].
  split; [exact Hbelow|]. split; [exact Hcut|].
  split; [exists rest; exact Hrest|].
  intros Hlen. simpl in *. rewrite (Hshort Hlen), string_app_nil_r in Hrest.
  symmetry. exact Hrest.
Qed.

End Validation.

Section KeyValidation.
Import JsString.

(** X24: [validateApiKey] rejects an empty or blank key with the same
    answer whatever the server would say.  For any other key, the key is
    valid exactly when the server responds, and with a status that the
    provider's rule accepts: 200 or 403 for Google, 200 or 400 for
    OpenAI, and for Anthropic 200, or 404 with a body that names a model
    that was not found.  A response without status counts as 500; a
    request error or a timeout never validates a key. *)
Theorem validateApiKey_accepts (type : ApiType) (apiKey : string)
    (server : RequestOptions -> HttpOutcome) :
  (negb (truthy apiKey) || trim_is_empty apiKey = true ->
   validateApiKey type apiKey server
   = mkValidation false (Some "API key is empty"))
  /\ (negb (truthy apiKey) || trim_is_empty apiKey = false ->
      (v_valid (validateApiKey type apiKey server) = true
       <-> exists code chunks,
             server (api_request type apiKey) = Responded code chunks
             /\ match type with
                | google =>
                    status_or_500 code = 200 \/ status_or_500 code = 403
                | openai =>
                    status_or_500 code = 200 \/ status_or_500 code = 400
                | anthropic =>
                    status_or_500 code = 200
                    \/ (status_or_500 code = 404
                        /\ includes "not_found_error" (collect chunks) = true
                        /\ includes "model:" (collect chunks) = true)
                end)).
Proof.
  split; intros Hblank; unfold validateApiKey; rewrite Hblank;
    [reflexivity|].
  destruct (server (api_request type apiKey)) as [code chunks|m|] eqn:Hs.
  - split.
    + intros Hvalid. exists code, chunks. split; [reflexivity|].
      destruct type; cbv zeta in Hvalid.
      * destruct (Z.eqb_spec (status_or_500 code) 200); [auto|].
        destruct (Z.eqb_spec (status_or_500 code) 403); [auto|].
        discriminate.
      * destruct (Z.eqb_spec (status_or_500 code) 200); [auto|].
        destruct (Z.eqb_spec (status_or_500 code) 400); [auto|].
        discriminate.
      * destruct (Z.eqb_spec (status_or_500 code) 200); [auto|].
        destruct (Z.eqb_spec (status_or_500 code) 404); [|discriminate].
        destruct (includes "not_found_error" (collect chunks));
          [|discriminate].
        destruct (includes "model:" (collect chunks)); [|discriminate].
        auto.
    + intros (code' & chunks' & [= <- <-] & Hrule).
      destruct type; cbv zeta.
      * destruct Hrule as [->| ->]; reflexivity.
      * destruct Hrule as [->| ->]; reflexivity.
      * destruct Hrule as [->|(-> & -> & ->)]; reflexivity.
  - split; [discriminate|]. intros (code & chunks & H & _). discriminate.
  - split; [discriminate|]. intros (code & chunks & H & _). discriminate.
Qed.

(** X25: [validateSpreadsheetAccess] needs a spreadsheet ID in every
    case.  With one, a service account file is enough: the answer is
    valid without any request, whatever the key.  Without the file the
    key must not be empty and the server must respond with status 200;
    every other status, a missing status, a request error and a timeout
    are refused. *)
Theorem validateSpreadsheetAccess_accepts (id apiKey : string)
    (serviceAccount : bool) (server : RequestOptions -> HttpOutcome) :
  (truthy id = true -> serviceAccount = true ->
   validateSpreadsheetAccess id apiKey serviceAccount server
   = mkValidation true None)
  /\ (v_valid (validateSpreadsheetAccess id apiKey serviceAccount server)
      = true
      <-> truthy id = true
          /\ (serviceAccount = true
              \/ (truthy apiKey = true
                  /\ exists code chunks,
                       server (mkOptions "sheets.googleapis.com"
                                 ("/v4/spreadsheets/" ++ id ++ "?key="
                                  ++ apiKey) "GET" [])
                       = Responded code chunks
                       /\ status_or_500 code = 200))).
Proof.
  unfold validateSpreadsheetAccess. split.
  - intros -> ->. reflexivity.
  - destruct (truthy id); cbn [negb];
      [|split; [discriminate|intros [H _]; discriminate]].
    destruct serviceAccount; [split; auto|].
    destruct (truthy apiKey); cbn [negb].
    2:{ split; [discriminate|].
        intros [_ [H|[H _]]]; discriminate. }
    destruct (server _) as [code chunks|m|] eqn:Hs.
    + cbv zeta. split.
      * intros Hvalid. split; [reflexivity|]. right. split; [reflexivity|].
        exists code, chunks. split; [reflexivity|].
        destruct (Z.eqb_spec (status_or_500 code) 200); [assumption|].
        destruct (status_or_500 code =? 403); [discriminate|].
        destruct (status_or_500 code =? 404); [discriminate|].
        destruct (status_or_500 code =? 401); discriminate.
      * intros [_ [H|[_ (code' & chunks' & [= <- <-] & ->)]]];
          [discriminate|reflexivity].
    + split; [discriminate|].
      intros [_ [H|[_ (code & chunks & H & _)]]]; discriminate.
    + split; [discriminate|].
      intros [_ [H|[_ (code & chunks & H & _)]]]; discriminate.
Qed.

End KeyValidation.

(** ** Processing one page *)

(** What [processProfile] makes of a page that loaded. *)
Lemma processProfile_on_page (E : env) (p : Profile) (w : world)
    (d : Dom) :
  page_goto E (List.length (navigations w)) (url p) = page_of_dom d ->
  processProfile E p w
  = (if isRateLimited_page d
     then inl (mkError
                 "LinkedIn is rate limiting the requests. Try again later."
                 None)
     else inr (mkProfile (url p)
                 (Some (cr_status
                          (determineConnectionStatus (evaluate_page d))))
                 (row p)),
     record_navigation (url p) w).
Proof.
  intros Hpage. unfold processProfile. rewrite bind_run.
  unfold goto. rewrite Hpage. unfold page_of_dom.
  destruct (isRateLimited_page d); reflexivity.
Qed.

(** X26: while LinkedIn answers with its rate-limit notice, nothing is
    classified and nothing is written.  When every page of a run shows
    the notice, whatever buttons and badges it shows besides, the loop
    of [main] still opens every profile and pauses 3000 ms after each,
    but it keeps no profile, creates no sheet client, sends no write,
    and prints one error line per profile. *)
Theorem main_loop_when_rate_limited (E : env) (id name : string)
    (profiles results : list Profile) (w : world) :
  (forall i u, exists d,
      page_goto E i u = page_of_dom d /\ isRateLimited_page d = true) ->
  exists w',
    main_loop E id name results profiles w = (inr results, w')
    /\ navigations w' = (navigations w ++ map url profiles)%list
    /\ sheet_writes w' = sheet_writes w
    /\ clients_created w' = clients_created w
    /\ timeouts w' = (timeouts w ++ repeat 3000 (List.length profiles))%list
    /\ console w'
       = (console w
          ++ flat_map (fun p => [LogErrorProcessing (url p); LogWaiting])
               profiles)%list.
Proof.
  intros Hlimited. revert w; induction profiles as [|p rest IH]; intros w.
  - exists w. simpl. rewrite !app_nil_r. repeat split.
  - cbn [main_loop]. rewrite bind_run.
    unfold main_iteration. rewrite bind_run, try_catch_run, bind_run.
    destruct (Hlimited (List.length (navigations w)) (url p))
      as (d & Hpage & Hnotice).
    rewrite (processProfile_on_page E p w d Hpage), Hnotice.
    rewrite !bind_run. unfold console_log, sleep, modify, ret.
    destruct (IH (record_timeout 3000
                    (record_console LogWaiting
                       (record_console (LogErrorProcessing (url p))
                          (record_navigation (url p) w)))))
      as (w' & Hrun & Hnav & Hw & Hcl & Ht & Hcon).
    exists w'. split; [exact Hrun|].
    rewrite Hnav, Hw, Hcl, Ht, Hcon. simpl.
    rewrite <- !app_assoc. repeat split.
Qed.

(** ** The properties above on sample runs *)

Lemma updateProfileStatus_exhausts_witness :
  exists c' w',
    updateProfileStatus Sample.always_fails 7 "pending" None
      (Demo.patient_client, empty_world)
    = (inl (mkError "attempt 4" None), (c', w'))
    /\ sheet_writes w'
       = repeat (mkUpdate "sheet-id" "Sheet1!B7:C7" "RAW"
                   [["pending"; "0.9"]]) 5
    /\ timeouts w' = [1000; 2000; 3000; 4000].
Proof.
  apply (updateProfileStatus_exhausts_every_attempt Sample.always_fails
           Demo.patient_client empty_world 7 "pending" None
           (fun i => mkError ("attempt " ++ JsNumber.int_toString (Z.of_nat i))
                       None)).
  - discriminate.
  - left; reflexivity.
  - intros i; reflexivity.
Defined.

Lemma updateProfileStatus_stops_witness :
  exists c' w',
    updateProfileStatus Demo.fails_once 7 "accepted" (Some 0.95%Q)
      (Sample.client, empty_world)
    = (inr tt, (c', w'))
    /\ sheet_writes w'
       = repeat (mkUpdate "sheet-id" "Sheet1!B7:C7" "RAW"
                   [["accepted"; "0.95"]]) 2
    /\ timeouts w' = [1000].
Proof.
  apply (updateProfileStatus_stops_at_first_accepted_write Demo.fails_once
           Sample.client empty_world 7 "accepted" (Some 0.95%Q) 1%nat).
  - simpl; lia.
  - left; reflexivity.
  - intros i Hi. destruct i; [discriminate|lia].
  - reflexivity.
Defined.

Lemma updateProfileStatus_verification_failure_witness :
  exists c' w',
    updateProfileStatus Demo.unreadable 7 "pending" None
      (Demo.fresh_client, empty_world)
    = (inl Sample.forbidden, (c', w'))
    /\ initialized c' = false
    /\ sheet_writes w' = []
    /\ timeouts w' = []
    /\ sheet_gets w' = ["sheet-id"].
Proof.
  apply (updateProfileStatus_verification_failure Demo.unreadable
           Demo.fresh_client empty_world 7 "pending" None Sample.forbidden);
    reflexivity.
Defined.

Lemma updateProfileStatus_verifies_once_witness :
  sheet_gets
    (snd (snd (updateProfileStatus Sample.fails_twice 8 "accepted" None
                 (snd (updateProfileStatus Sample.fails_twice 7 "pending"
                         None (Demo.fresh_client, empty_world))))))
  = sheet_gets
      (snd (snd (updateProfileStatus Sample.fails_twice 7 "pending" None
                   (Demo.fresh_client, empty_world)))).
Proof.
  apply (updateProfileStatus_verifies_once Sample.fails_twice
           Demo.fresh_client empty_world 7 8 "pending" "accepted" None None);
    reflexivity.
Defined.

Lemma getProfiles_failure_witness :
  fst (getProfiles Demo.unreadable (Sample.client, empty_world))
  = inl Sample.forbidden
  /\ fst (getProfiles Sample.fails_twice (Sample.client, empty_world))
     = inr [].
Proof.
  split.
  - apply (proj1 (proj2 (getProfiles_failure_and_empty_sheet Demo.unreadable
                            Sample.client empty_world eq_refl))).
    reflexivity.
  - apply (proj2 (proj2 (getProfiles_failure_and_empty_sheet
                            Sample.fails_twice Sample.client empty_world
                            eq_refl))).
    left; reflexivity.
Defined.

Lemma getProfileUrls_agrees_witness :
  getProfileUrls Sample.first_two_fail (Demo.fresh_client, empty_world)
  = (inl (mkError "Google Sheets client not initialized. Call init() first."
            None), (Demo.fresh_client, empty_world))
  /\ fst (getProfileUrls Sample.first_two_fail (Sample.client, empty_world))
     = inr ["https://www.linkedin.com/in/a"; "linkedin.com/in/b"].
Proof.
  split.
  - apply (proj1 (getProfileUrls_agrees_with_getProfiles
                    Sample.first_two_fail Demo.fresh_client empty_world)).
    reflexivity.
  - rewrite (proj2 (getProfileUrls_agrees_with_getProfiles
                      Sample.first_two_fail Sample.client empty_world)
               eq_refl).
    reflexivity.
Defined.

Lemma findRowIndexByProfileUrl_witness :
  exists index,
    findRowIndexByProfileUrl Demo.fails_once "linkedin.com/in/b/"
      (Sample.client, empty_world)
    = (inr index, (Sample.client, record_read "Sheet1!A:A" empty_world))
    /\ ((index = -1
         /\ Forall (fun r => row_matches "linkedin.com/in/b/" r = false)
              Demo.column_A)
        \/ (exists n cell rest,
               index = Z.of_nat n
               /\ nth_error Demo.column_A n = Some (cell :: rest)
               /\ JsString.truthy cell = true
               /\ normalizeLinkedInUrl cell
                  = normalizeLinkedInUrl "linkedin.com/in/b/"
               /\ Forall (fun r => row_matches "linkedin.com/in/b/" r = false)
                    (firstn n Demo.column_A))).
Proof.
  apply (findRowIndexByProfileUrl_first_match Demo.fails_once
           "linkedin.com/in/b/" Sample.client empty_world Demo.column_A).
  reflexivity.
Defined.

Lemma updateStatus_unknown_url_witness :
  updateStatus Demo.fails_once "https://www.linkedin.com/in/nobody"
    "pending" 0.95%Q None (Sample.client, empty_world)
  = (inl (mkError
            ("Could not find profile URL https://www.linkedin.com/in/nobody"
             ++ " in the sheet") None),
     (Sample.client, record_read "Sheet1!A:A" empty_world)).
Proof.
  apply (updateStatus_unknown_url Demo.fails_once
           "https://www.linkedin.com/in/nobody" "pending" 0.95%Q
           Sample.client empty_world Demo.column_A).
  - reflexivity.
  - reflexivity.
  - repeat constructor.
Defined.

Lemma updateStatus_targets_witness :
  updateStatus Demo.fails_once "linkedin.com/in/b/" "accepted" 0.95%Q None
    (Sample.client, empty_world)
  = updateProfileStatus Demo.fails_once 4 "accepted" (Some 0.95%Q)
      (Sample.client, record_read "Sheet1!A:A" empty_world).
Proof.
  apply (updateStatus_targets_first_match Demo.fails_once
           "linkedin.com/in/b/" "accepted" 0.95%Q Sample.client empty_world
           Demo.column_A 3%nat ["linkedin.com/b?x=1"]).
  - reflexivity.
  - reflexivity.
  - reflexivity.
  - reflexivity.
  - repeat constructor.
Defined.

Lemma lookup_row_is_loaded_row_witness :
  exists p,
    In p (profiles_of_rows
            [["https://www.linkedin.com/in/a/"]; []; ["linkedin.com/b?x=1"]])
    /\ url p = "linkedin.com/in/b"
    /\ JsText.findIndex (row_matches (url p)) Demo.column_A + 1 = row p.
Proof.
  apply (lookup_row_is_loaded_row ["Profile URL"]
           [["https://www.linkedin.com/in/a/"]; []; ["linkedin.com/b?x=1"]]
           2%nat "linkedin.com/b?x=1" []).
  - reflexivity.
  - split; reflexivity.
  - reflexivity.
  - reflexivity.
  - repeat constructor.
Defined.

Lemma normalizeLinkedInUrl_ignores_witness :
  normalizeLinkedInUrl "https://www.linkedin.com/in/satyanadella/"
  = normalizeLinkedInUrl "https://www.linkedin.com/in/satyanadella"
  /\ normalizeLinkedInUrl "https://www.linkedin.com/in/satyanadella?trk=x"
     = normalizeLinkedInUrl "https://www.linkedin.com/in/satyanadella"
  /\ normalizeLinkedInUrl "https://www.linkedin.com/in/satyanadella/?trk=x"
     = normalizeLinkedInUrl "https://www.linkedin.com/in/satyanadella".
Proof.
  apply (normalizeLinkedInUrl_ignores_query_and_slash
           "https://www.linkedin.com/in/satyanadella" "trk=x").
  - reflexivity.
  - reflexivity.
  - reflexivity.
  - left; reflexivity.
Defined.

Lemma normalizeLinkedInUrl_unchanged_witness :
  normalizeLinkedInUrl "https://example.org/in/a?x=1"
  = "https://example.org/in/a?x=1".
Proof.
  apply (proj1 (normalizeLinkedInUrl_unchanged_or_without_query
                  "https://example.org/in/a?x=1")).
  reflexivity.
Defined.

Lemma pending_page_witness :
  cr_status (determineConnectionStatus (evaluate_page Demo.invited_page))
  = PENDING
  /\ cr_confidence (determineConnectionStatus
                      (evaluate_page Demo.invited_page)) = 0.95%Q.
Proof.
  apply (pending_page_is_PENDING Demo.invited_page).
  left; reflexivity.
Defined.

Lemma first_degree_badge_witness :
  connectionDegree (evaluate_page Demo.connected_page)
  = "1st degree connection"
  /\ cr_status (determineConnectionStatus (evaluate_page Demo.connected_page))
     = ACCEPTED.
Proof.
  destruct (first_degree_badge_decides Demo.connected_page
              [Some "   "] [Some "2nd"] (Some " 1st degree connection ")
              eq_refl)
    as (Hdegree & _ & Hstatus).
  - repeat constructor.
  - reflexivity.
  - split; [exact Hdegree|].
    apply (Hstatus eq_refl eq_refl eq_refl).
Defined.

Lemma main_loop_accepting_store_witness :
  exists w',
    main_loop Sample.first_two_fail "sheet-id" "Sheet1" [] Sample.profiles
      empty_world
    = (inr [mkProfile "https://www.linkedin.com/in/sundarpichai"
              (Some NOT_CONNECTED) 4], w')
    /\ sheet_writes w'
       = [mkUpdate "sheet-id" "Sheet1!B4:C4" "RAW"
            [["not_connected"; "0.9"]]]
    /\ timeouts w' = [3000; 3000; 3000]
    /\ sheet_gets w' = ["sheet-id"].
Proof.
  apply (main_loop_with_accepting_store Sample.first_two_fail "sheet-id"
           "Sheet1").
  - split; intros; reflexivity.
  - intros; reflexivity.
Defined.

Lemma loginToLinkedIn_expired_session_witness :
  isLoggedIn Demo.expired_session = false
  /\ loginToLinkedIn Sample.first_two_fail Demo.expired_session empty_world
     = (inr tt, record_navigation "https://www.linkedin.com/feed/"
                  empty_world).
Proof.
  split; [reflexivity|].
  apply (loginToLinkedIn_with_saved_cookies Sample.first_two_fail
           Demo.expired_session empty_world); reflexivity.
Defined.

Lemma loginToLinkedIn_manual_witness :
  let opened := record_navigation "https://www.linkedin.com/login"
                  empty_world in
  let failed :=
    mkError ("LinkedIn login failed. "
             ++ "Timeout waiting for navigation after login.") None in
  loginToLinkedIn Sample.fails_twice Demo.first_login empty_world
  = (inr tt,
     record_file "/work/linkedin-cookies.json" Demo.cookie_file_text
       opened)
  /\ loginToLinkedIn Sample.fails_twice Demo.read_only_disk empty_world
     = (inl failed, opened)
  /\ loginToLinkedIn Sample.fails_twice Demo.closed_context empty_world
     = (inl failed, opened).
Proof.
  refine (conj _ (conj _ _)).
  - apply (loginToLinkedIn_manual Sample.fails_twice Demo.first_login
             empty_world).
    left; reflexivity.
  - apply (loginToLinkedIn_manual Sample.fails_twice Demo.read_only_disk
             empty_world).
    left; reflexivity.
  - apply (loginToLinkedIn_manual Sample.fails_twice Demo.closed_context
             empty_world).
    left; reflexivity.
Defined.

Lemma fetch_profiles_witness :
  fst (fetch_profiles Demo.fails_once "sheet-id" "Sheet1" empty_world)
  = inr [mkProfile "Profile URL" None 2;
         mkProfile "https://www.linkedin.com/in/a" None 3;
         mkProfile "linkedin.com/in/b" None 5]
  /\ fst (fetch_profiles Demo.unreadable "sheet-id" "Sheet1" empty_world)
     = inr default_profiles.
Proof.
  split.
  - destruct (fetch_profiles_never_empty Demo.fails_once "sheet-id" "Sheet1"
                empty_world) as (w' & Hrun & _).
    rewrite Hrun. reflexivity.
  - destruct (fetch_profiles_never_empty Demo.unreadable "sheet-id" "Sheet1"
                empty_world) as (w' & Hrun & _).
    rewrite Hrun. reflexivity.
Defined.

Lemma main_with_saved_cookies_witness :
  exists profiles w',
    fst (fetch_profiles Sample.fails_twice "sheet-id" "Sheet1" empty_world)
    = inr profiles
    /\ main Sample.fails_twice Demo.expired_session "sheet-id" "Sheet1"
         empty_world
       = (inr (expected_results Sample.fails_twice 1 profiles), w')
    /\ navigations w'
       = "https://www.linkedin.com/feed/" :: map url profiles.
Proof.
  apply (main_with_saved_cookies Sample.fails_twice Demo.expired_session
           "sheet-id" "Sheet1" empty_world); reflexivity.
Defined.

Lemma collect_short_body_witness :
  collect ["{"; "}"] = "{}"
  /\ 3072 <= Z.of_nat (String.length
                         (collect [Demo.filler 3072; "tail"; "more"])).
Proof.
  split.
  - destruct (collect_keeps_a_prefix ["{"; "}"])
      as (k & _ & _ & _ & _ & _ & Hshort).
    apply Hshort. simpl. lia.
  - destruct (collect_keeps_a_prefix [Demo.filler 3072; "tail"; "more"])
      as (k & Hk & _ & Hbelow & Hcut & _).
    apply Hcut. cbn [List.length] in *.
    destruct (Nat.le_gt_cases 2 k) as [Hmany|Hfew]; [exfalso|lia].
    specialize (Hbelow 1%nat ltac:(lia)).
    vm_compute in Hbelow. discriminate Hbelow.
Defined.

Lemma validateApiKey_witness :
  validateApiKey openai "  " (Demo.answers 200 [])
  = mkValidation false (Some "API key is empty")
  /\ v_valid (validateApiKey openai "sk-test" (Demo.answers 400 ["{}"]))
     = true.
Proof.
  split.
  - apply (proj1 (validateApiKey_accepts openai "  " (Demo.answers 200 []))).
    reflexivity.
  - apply (proj2 (validateApiKey_accepts openai "sk-test"
                    (Demo.answers 400 ["{}"])) eq_refl).
    exists (Some 400), ["{}"]. split; [reflexivity|]. right; reflexivity.
Defined.

Lemma validateSpreadsheetAccess_witness :
  validateSpreadsheetAccess "sheet-id" "" true (Demo.answers 500 [])
  = mkValidation true None
  /\ v_valid (validateSpreadsheetAccess "sheet-id" "key" false
                (Demo.answers 200 ["{}"])) = true.
Proof.
  split.
  - apply (proj1 (validateSpreadsheetAccess_accepts "sheet-id" ""
                    true (Demo.answers 500 []))); reflexivity.
  - apply (proj2 (validateSpreadsheetAccess_accepts "sheet-id" "key"
                    false (Demo.answers 200 ["{}"]))).
    split; [reflexivity|]. right. split; [reflexivity|].
    exists (Some 200), ["{}"]. split; reflexivity.
Defined.

Lemma main_loop_when_rate_limited_witness :
  exists w',
    main_loop (Demo.shows Demo.throttled_page) "sheet-id" "Sheet1" []
      Sample.profiles empty_world
    = (inr [], w')
    /\ navigations w' = map url Sample.profiles
    /\ sheet_writes w' = []
    /\ clients_created w' = O
    /\ timeouts w' = [3000; 3000; 3000]
    /\ console w'
       = flat_map (fun p => [LogErrorProcessing (url p); LogWaiting])
           Sample.profiles.
Proof.
  apply (main_loop_when_rate_limited (Demo.shows Demo.throttled_page)
           "sheet-id" "Sheet1" Sample.profiles [] empty_world).
  intros i u. exists Demo.throttled_page. split; reflexivity.
Defined.
